(** * Event Processor: a shallow embedding of
      [packages/lambda/event-processor/index.ts]

    The event processor receives Firehose records, decodes each one into
    events and, for every event, creates or updates the visitor and then
    routes on the event type.  All effects go through the store client
    [db]; every call on it is awaited and may reject.

    The embedding is a state-and-exception monad over a [World] holding the
    store tables, the console, and two counters that index the oracles of
    the run: the wall clock and the faults of the store.

    After the processor come the store client of a Lambda instance
    ([shared/prisma]), the API responses ([shared/response.ts]) and the
    config handler ([config-handler/index.ts]), each in a module of its
    own. *)

From Stdlib Require Import ZArith String Ascii List Bool Lia DecimalString.
From stdpp Require Import gmap strings list fin_maps.

Local Open Scope string_scope.

(** ** Strings as the code uses them *)

(** [String.prototype.includes]: [sub] occurs somewhere in [s]. *)
Fixpoint includes (s sub : string) : bool :=
  String.prefix sub s ||
  match s with
  | EmptyString => false
  | String _ rest => includes rest sub
  end.

Definition lower_ascii (c : ascii) : ascii :=
  let n := nat_of_ascii c in
  if (65 <=? n)%nat && (n <=? 90)%nat then ascii_of_nat (n + 32) else c.

Fixpoint lower (s : string) : string :=
  match s with
  | EmptyString => EmptyString
  | String c rest => String (lower_ascii c) (lower rest)
  end.

(** [/word/i.test(s)] for a literal [word]. *)
Definition includes_ci (s word : string) : bool :=
  includes (lower s) (lower word).

(** Truthiness of an optional string: [undefined] and the empty string are
    falsy. *)
Definition truthy (o : option string) : bool :=
  match o with
  | Some s => negb (String.eqb s "")
  | None => false
  end.

(** [o || d] on an optional string. *)
Definition or_str (o : option string) (d : string) : string :=
  match o with
  | Some s => if String.eqb s "" then d else s
  | None => d
  end.

(** ** User-agent classification *)

Definition detectBrowser (ua : string) : string :=
  if includes ua "Chrome" && negb (includes ua "Edg") then "chrome"
  else if includes ua "Firefox" then "firefox"
  else if includes ua "Safari" && negb (includes ua "Chrome") then "safari"
  else if includes ua "Edg" then "edge"
  else if includes ua "Opera" || includes ua "OPR" then "opera"
  else "other".

Definition detectOS (ua : string) : string :=
  if includes ua "Windows" then "windows"
  else if includes ua "Mac OS" then "mac"
  else if includes ua "Linux" && negb (includes ua "Android") then "linux"
  else if includes ua "Android" then "android"
  else if includes ua "iPhone" || includes ua "iPad" || includes ua "iOS"
       then "ios"
  else "other".

Definition detectDevice (ua : string) : string :=
  if includes_ci ua "Mobi" || includes_ci ua "Android" then "mobile"
  else if includes_ci ua "Tablet" || includes_ci ua "iPad" then "tablet"
  else "desktop".

(** ** Incoming events ([shared/types]) *)

Record AttributedExperiment := {
  ae_experimentId : string;
  ae_experimentName : option string;
  ae_variantId : string;
  ae_variantName : option string
}.

(** [projectId], [visitorId] and [eventType] are declared [string]; an
    absent one reads as the empty string, which the guard of [processEvent]
    treats like [undefined] (both are falsy).  [value] is a number; amounts
    are integers here, which leaves out fractional amounts: the properties
    below count rows and increments and say nothing of the arithmetic of
    amounts. *)
Record IncomingEvent := {
  ev_projectId : string;
  ev_visitorId : string;
  ev_sessionId : string;
  ev_timestamp : string;
  ev_eventType : string;
  ev_url : string;
  ev_experimentId : option string;
  ev_experimentName : option string;
  ev_variantId : option string;
  ev_variantName : option string;
  ev_isControl : option bool;
  ev_goalId : option string;
  ev_goalName : option string;
  ev_goalType : option string;
  ev_attributedExperiments : option (list AttributedExperiment);
  ev_eventName : option string;
  ev_value : option Z;
  ev_currency : option string;
  ev_userAgent : option string;
  ev_referrer : option string
}.

(** ** Rows of the store *)

(** A [Date] is its time value in milliseconds since the epoch; [None] is
    the invalid date. *)
Definition JsDate := option Z.

(** The primary key [id] of a visitor row is generated by the store and is
    opaque to the processor, which only hands it back to the store.
    [(projectId, visitorId)] is a unique key of the same table (the [where]
    of the upsert), so a row's id is represented by that pair: the visitor
    table maps the pair to the other columns of the row. *)
Definition VisitorDbId : Type := string * string.

Record Visitor := {
  v_userAgent : string;
  v_deviceType : string;
  v_browser : string;
  v_os : string;
  v_referrer : option string;
  v_utmSource : option string;
  v_utmMedium : option string;
  v_utmCampaign : option string;
  v_firstSeen : JsDate;
  v_lastSeen : JsDate;
  v_visitCount : Z;
  v_pageViews : Z
}.

(** A visitor as the store returns it: the id and the columns. *)
Definition VisitorRecord : Type := VisitorDbId * Visitor.

Definition v_id (v : VisitorRecord) : VisitorDbId := fst v.

Inductive EventData :=
| NoEventData
| SessionData (sessionId : string) (referrer : option string)
              (isSessionStart : bool)
| WholeEvent (evt : IncomingEvent).

Record EventRow := {
  e_projectId : string;
  e_visitorId : VisitorDbId;
  e_experimentId : option string;
  e_variantId : option string;
  e_eventType : string;
  e_eventName : option string;
  e_pageUrl : string;
  e_eventData : EventData
}.

Record VariantRow := { visitors : Z; conversions : Z }.
Record ExperimentRow := { totalVisitors : Z; totalConversions : Z }.

Record ExperimentGoalRow := {
  eg_experimentId : string;
  eg_goalId : string;
  eg_conversions : Z
}.

Record GoalConversionRow := {
  gc_goalId : string;
  gc_experimentId : string;
  gc_variantId : string;
  gc_visitorId : VisitorDbId;
  gc_value : option Z;
  gc_currency : string;
  gc_url : string;
  gc_timestamp : string;
  gc_goalType : option string
}.

Record DailyStatRow := {
  ds_impressions : Z;
  ds_conversions : Z;
  ds_revenue : Z
}.

Inductive LogDetails :=
| AssignedDetails (isControl : option bool) (url : string)
| ConversionDetails (goalType : option string) (value : option Z)
                    (url : string).

Record LiveLogRow := {
  l_experimentId : string;
  l_visitorId : string;
  l_variantId : string;
  l_logType : string;
  l_message : string;
  l_details : LogDetails;
  l_expiresAt : Z
}.

(** Modelled from the spec: the schema of the store is not among the
    sources.  These are the entities of the data model, with the unique
    keys the processor names in its [where] clauses
    ([projectId_visitorId], [visitorId_experimentId], [experimentId_date],
    and [id] for variants and experiments) and the columns it writes.
    Tables with a unique key are finite maps on that key; append-only
    tables and the experiment-goal pairing (updated by [updateMany]) are
    lists of rows. *)
Record Db := {
  visitor : gmap VisitorDbId Visitor;
  event : list EventRow;
  variantAssignment : gmap (VisitorDbId * string) string;
  variant : gmap string VariantRow;
  experiment : gmap string ExperimentRow;
  goalConversion : list GoalConversionRow;
  experimentGoal : list ExperimentGoalRow;
  experimentDailyStat : gmap (string * Z) DailyStatRow;
  liveLog : list LiveLogRow
}.

Definition set_visitor (d : Db) (x : gmap VisitorDbId Visitor) : Db :=
  {| visitor := x; event := event d;
     variantAssignment := variantAssignment d; variant := variant d;
     experiment := experiment d; goalConversion := goalConversion d;
     experimentGoal := experimentGoal d;
     experimentDailyStat := experimentDailyStat d; liveLog := liveLog d |}.

Definition set_event (d : Db) (x : list EventRow) : Db :=
  {| visitor := visitor d; event := x;
     variantAssignment := variantAssignment d; variant := variant d;
     experiment := experiment d; goalConversion := goalConversion d;
     experimentGoal := experimentGoal d;
     experimentDailyStat := experimentDailyStat d; liveLog := liveLog d |}.

Definition set_variantAssignment (d : Db)
    (x : gmap (VisitorDbId * string) string) : Db :=
  {| visitor := visitor d; event := event d;
     variantAssignment := x; variant := variant d;
     experiment := experiment d; goalConversion := goalConversion d;
     experimentGoal := experimentGoal d;
     experimentDailyStat := experimentDailyStat d; liveLog := liveLog d |}.

Definition set_variant (d : Db) (x : gmap string VariantRow) : Db :=
  {| visitor := visitor d; event := event d;
     variantAssignment := variantAssignment d; variant := x;
     experiment := experiment d; goalConversion := goalConversion d;
     experimentGoal := experimentGoal d;
     experimentDailyStat := experimentDailyStat d; liveLog := liveLog d |}.

Definition set_experiment (d : Db) (x : gmap string ExperimentRow) : Db :=
  {| visitor := visitor d; event := event d;
     variantAssignment := variantAssignment d; variant := variant d;
     experiment := x; goalConversion := goalConversion d;
     experimentGoal := experimentGoal d;
     experimentDailyStat := experimentDailyStat d; liveLog := liveLog d |}.

Definition set_goalConversion (d : Db) (x : list GoalConversionRow) : Db :=
  {| visitor := visitor d; event := event d;
     variantAssignment := variantAssignment d; variant := variant d;
     experiment := experiment d; goalConversion := x;
     experimentGoal := experimentGoal d;
     experimentDailyStat := experimentDailyStat d; liveLog := liveLog d |}.

Definition set_experimentGoal (d : Db) (x : list ExperimentGoalRow) : Db :=
  {| visitor := visitor d; event := event d;
     variantAssignment := variantAssignment d; variant := variant d;
     experiment := experiment d; goalConversion := goalConversion d;
     experimentGoal := x;
     experimentDailyStat := experimentDailyStat d; liveLog := liveLog d |}.

Definition set_experimentDailyStat (d : Db)
    (x : gmap (string * Z) DailyStatRow) : Db :=
  {| visitor := visitor d; event := event d;
     variantAssignment := variantAssignment d; variant := variant d;
     experiment := experiment d; goalConversion := goalConversion d;
     experimentGoal := experimentGoal d;
     experimentDailyStat := x; liveLog := liveLog d |}.

Definition set_liveLog (d : Db) (x : list LiveLogRow) : Db :=
  {| visitor := visitor d; event := event d;
     variantAssignment := variantAssignment d; variant := variant d;
     experiment := experiment d; goalConversion := goalConversion d;
     experimentGoal := experimentGoal d;
     experimentDailyStat := experimentDailyStat d; liveLog := x |}.

(** ** The console, exceptions and the world *)

Inductive StoreOp :=
| VisitorUpsert | VisitorUpdate | EventCreate
| VariantAssignmentFindUnique | VariantAssignmentCreate
| VariantUpdate | ExperimentUpdate
| GoalConversionCreate | ExperimentGoalUpdateMany
| ExperimentDailyStatUpsert | LiveLogCreate.

Inductive ErrKind := Rejected | RecordNotFound | UniqueConstraint.

(** What a rejected store call throws: which call of the run it was, on
    which operation, and why. *)
Record Exn := { exn_call : nat; exn_op : StoreOp; exn_kind : ErrKind }.

(** One constructor per [console] call site. *)
Inductive ConsoleEntry :=
| LogProcessing (n : nat)
| LogProcessed (n : nat)
| ErrorInvalidJSON (payload : string)
| ErrorEventProcessing (err : Exn) (evt : IncomingEvent)
| ErrorRecordProcessing (err : Exn)
| WarnMissingRequiredFields (projectId visitorId eventType : string)
| ErrorDailyStatUpdate (err : Exn).

Record World := {
  db : Db;
  console : list ConsoleEntry;
  storeCalls : nat;    (* calls issued on the store so far *)
  clockReads : nat     (* readings of the wall clock so far *)
}.

Definition set_db (w : World) (d : Db) : World :=
  {| db := d; console := console w;
     storeCalls := storeCalls w; clockReads := clockReads w |}.

Definition set_console (w : World) (c : list ConsoleEntry) : World :=
  {| db := db w; console := c;
     storeCalls := storeCalls w; clockReads := clockReads w |}.

Definition set_storeCalls (w : World) (n : nat) : World :=
  {| db := db w; console := console w;
     storeCalls := n; clockReads := clockReads w |}.

Definition set_clockReads (w : World) (n : nat) : World :=
  {| db := db w; console := console w;
     storeCalls := storeCalls w; clockReads := n |}.

(** What [JSON.parse] gives the handler: an array of events or one event. *)
Inductive Parsed :=
| PArray (events : list IncomingEvent)
| PSingle (evt : IncomingEvent).

(** The environment of a run: what the JavaScript runtime and the world
    outside decide.  [Date_now n] is the n-th reading of the wall clock;
    [LocalTZA t isUTC] is the offset of the local time zone in
    milliseconds (ECMA-262); [Date_parse s] is the time value of
    [new Date(s)]; [URL_searchParams u] is [None] when [new URL(u)] throws
    and the [get] of its search parameters otherwise; [base64_utf8 s] is
    [Buffer.from(s, "base64").toString("utf-8")]; [JSON_parse s] is [None]
    when [JSON.parse(s)] throws; [storeFault n] tells whether the store
    rejects the n-th call made on it for a reason of its own. *)
Record Runtime := {
  Date_now : nat -> Z;
  LocalTZA : Z -> bool -> Z;
  Date_parse : string -> JsDate;
  URL_searchParams : string -> option (string -> option string);
  base64_utf8 : string -> string;
  JSON_parse : string -> option Parsed;
  storeFault : nat -> bool
}.

Definition set_storeFault (rt : Runtime) (f : nat -> bool) : Runtime :=
  {| Date_now := Date_now rt; LocalTZA := LocalTZA rt;
     Date_parse := Date_parse rt; URL_searchParams := URL_searchParams rt;
     base64_utf8 := base64_utf8 rt; JSON_parse := JSON_parse rt;
     storeFault := f |}.

(** ** The monad: state that survives a throw *)

Inductive Res (A : Type) :=
| Ok (a : A)
| Throw (e : Exn).
Arguments Ok {A} a.
Arguments Throw {A} e.

Definition M (A : Type) : Type := World -> Res A * World.

Definition ret {A} (a : A) : M A := fun w => (Ok a, w).

Definition bind {A B} (m : M A) (k : A -> M B) : M B := fun w =>
  match m w with
  | (Ok a, w1) => k a w1
  | (Throw e, w1) => (Throw e, w1)
  end.

Definition try_catch {A} (m : M A) (handler : Exn -> M A) : M A := fun w =>
  match m w with
  | (Ok a, w1) => (Ok a, w1)
  | (Throw e, w1) => handler e w1
  end.

Notation "'let!' x ':=' c 'in' k" := (bind c (fun x => k))
  (at level 10, x name, c at level 100, k at level 200).

Definition console_push (c : ConsoleEntry) : M unit := fun w =>
  (Ok tt, set_console w (console w ++ [c])).

(** ** Dates *)

Definition msPerDay : Z := 86400000.

(** [d.setHours(0, 0, 0, 0)] on the time value [t]: the local time of [t],
    cut to the start of its day, taken back to UTC.  Time values stay in
    the range of valid dates. *)
Definition setHours0 (rt : Runtime) (t : Z) : Z :=
  let local := (t + LocalTZA rt t true)%Z in
  let date := (local / msPerDay * msPerDay)%Z in
  (date - LocalTZA rt date false)%Z.

(** The UTC calendar date of [t] at 00:00. *)
Definition utcMidnight (t : Z) : Z := (t / msPerDay * msPerDay)%Z.

(** ** Operations of the store *)

(** Modelled from the spec: the store client ([getPrismaClient] of
    [shared/prisma]) is not among the sources.  Its operations are the
    collaborator interface of the spec, as the processor calls them:
    [upsert] updates the row that has the unique key and creates it
    otherwise; [update] increments a counter of the row that has the key
    and rejects when there is none; [create] appends a row and rejects on a
    unique key that is taken; [updateMany] updates every row that matches,
    however many; [findUnique] returns the row that has the key, if any.
    An operation returns its result and the new store, or the reason of
    the rejection. *)
Definition StoreResult (A : Type) : Type := ErrKind + A * Db.

Definition visitor_upsert (key : VisitorDbId) (create : Visitor)
    (update : Visitor -> Visitor) (d : Db) : StoreResult VisitorRecord :=
  match visitor d !! key with
  | Some row =>
      let row' := update row in
      inr ((key, row'), set_visitor d (<[key := row']> (visitor d)))
  | None =>
      inr ((key, create), set_visitor d (<[key := create]> (visitor d)))
  end.

Definition visitor_update (id : VisitorDbId) (update : Visitor -> Visitor)
    (d : Db) : StoreResult unit :=
  match visitor d !! id with
  | Some row => inr (tt, set_visitor d (<[id := update row]> (visitor d)))
  | None => inl RecordNotFound
  end.

Definition event_create (row : EventRow) (d : Db) : StoreResult unit :=
  inr (tt, set_event d (event d ++ [row])).

Definition variantAssignment_findUnique (key : VisitorDbId * string)
    (d : Db) : StoreResult (option string) :=
  inr (variantAssignment d !! key, d).

Definition variantAssignment_create (key : VisitorDbId * string)
    (variantId : string) (d : Db) : StoreResult unit :=
  match variantAssignment d !! key with
  | Some _ => inl UniqueConstraint
  | None =>
      inr (tt, set_variantAssignment d
                 (<[key := variantId]> (variantAssignment d)))
  end.

Definition variant_update (id : string) (update : VariantRow -> VariantRow)
    (d : Db) : StoreResult unit :=
  match variant d !! id with
  | Some row => inr (tt, set_variant d (<[id := update row]> (variant d)))
  | None => inl RecordNotFound
  end.

Definition experiment_update (id : string)
    (update : ExperimentRow -> ExperimentRow) (d : Db) : StoreResult unit :=
  match experiment d !! id with
  | Some row =>
      inr (tt, set_experiment d (<[id := update row]> (experiment d)))
  | None => inl RecordNotFound
  end.

Definition goalConversion_create (row : GoalConversionRow) (d : Db)
    : StoreResult unit :=
  inr (tt, set_goalConversion d (goalConversion d ++ [row])).

Definition experimentGoal_updateMany (where_ : ExperimentGoalRow -> bool)
    (update : ExperimentGoalRow -> ExperimentGoalRow) (d : Db)
    : StoreResult unit :=
  inr (tt, set_experimentGoal d
             (List.map (fun r => if where_ r then update r else r)
                       (experimentGoal d))).

Definition experimentDailyStat_upsert (key : string * Z)
    (create : DailyStatRow) (update : DailyStatRow -> DailyStatRow)
    (d : Db) : StoreResult unit :=
  match experimentDailyStat d !! key with
  | Some row =>
      inr (tt, set_experimentDailyStat d
                 (<[key := update row]> (experimentDailyStat d)))
  | None =>
      inr (tt, set_experimentDailyStat d
                 (<[key := create]> (experimentDailyStat d)))
  end.

Definition liveLog_create (row : LiveLogRow) (d : Db) : StoreResult unit :=
  inr (tt, set_liveLog d (liveLog d ++ [row])).

(** ** The processor *)

Section Processor.

Variable rt : Runtime.

(** An awaited call on the store: it rejects when the store faults on this
    call or when the operation itself does; the call is counted either
    way. *)
Definition storeCall {A} (op : StoreOp) (f : Db -> StoreResult A) : M A :=
  fun w =>
    let n := storeCalls w in
    let w1 := set_storeCalls w (S n) in
    if storeFault rt n then
      (Throw {| exn_call := n; exn_op := op; exn_kind := Rejected |}, w1)
    else
      match f (db w) with
      | inl k => (Throw {| exn_call := n; exn_op := op; exn_kind := k |}, w1)
      | inr (a, d) => (Ok a, set_db w1 d)
      end.

(** [Date.now()], also the time value of [new Date()]. *)
Definition now : M Z := fun w =>
  (Ok (Date_now rt (clockReads w)), set_clockReads w (S (clockReads w))).

Inductive StatField := Impressions | Conversions.

Definition is_conversions (f : StatField) : bool :=
  match f with Conversions => true | Impressions => false end.

(** A number in a boolean position: [undefined] and [0] are falsy. *)
Definition truthy_num (o : option Z) : bool :=
  match o with
  | Some v => negb (v =? 0)%Z
  | None => false
  end.

Definition num_or_zero (o : option Z) : Z :=
  match o with Some v => v | None => 0%Z end.

Definition dailyStat_create (field : StatField) (revenue : option Z)
    : DailyStatRow :=
  {| ds_impressions := if is_conversions field then 0 else 1;
     ds_conversions := if is_conversions field then 1 else 0;
     ds_revenue := num_or_zero revenue |}.

Definition dailyStat_update (field : StatField) (revenue : option Z)
    (row : DailyStatRow) : DailyStatRow :=
  {| ds_impressions :=
       if is_conversions field then ds_impressions row
       else (ds_impressions row + 1)%Z;
     ds_conversions :=
       if is_conversions field then (ds_conversions row + 1)%Z
       else ds_conversions row;
     ds_revenue :=
       if truthy_num revenue && is_conversions field
       then (ds_revenue row + num_or_zero revenue)%Z
       else ds_revenue row |}.

Definition updateDailyStat (experimentId : string) (field : StatField)
    (revenue : option Z) : M unit :=
  let! t := now in
  let today := setHours0 rt t in
  try_catch
    (storeCall ExperimentDailyStatUpsert
       (experimentDailyStat_upsert (experimentId, today)
          (dailyStat_create field revenue)
          (dailyStat_update field revenue)))
    (fun err => console_push (ErrorDailyStatUpdate err)).

Definition utm (evt : IncomingEvent) (name : string) : option string :=
  match URL_searchParams rt (ev_url evt) with
  | Some get => get name
  | None => None
  end.

Definition upsertVisitor (evt : IncomingEvent) : M VisitorRecord :=
  let projectId := ev_projectId evt in
  let visitorId := ev_visitorId evt in
  let ua := or_str (ev_userAgent evt) "" in
  let deviceType := detectDevice ua in
  let browser := detectBrowser ua in
  let os := detectOS ua in
  storeCall VisitorUpsert
    (visitor_upsert (projectId, visitorId)
       {| v_userAgent := ua;
          v_deviceType := deviceType;
          v_browser := browser;
          v_os := os;
          v_referrer := ev_referrer evt;
          v_utmSource := utm evt "utm_source";
          v_utmMedium := utm evt "utm_medium";
          v_utmCampaign := utm evt "utm_campaign";
          v_firstSeen := Date_parse rt (ev_timestamp evt);
          v_lastSeen := Date_parse rt (ev_timestamp evt);
          v_visitCount := 1;
          v_pageViews := 1 |}
       (fun row =>
          {| v_userAgent := v_userAgent row;
             v_deviceType := v_deviceType row;
             v_browser := v_browser row;
             v_os := v_os row;
             v_referrer := v_referrer row;
             v_utmSource := v_utmSource row;
             v_utmMedium := v_utmMedium row;
             v_utmCampaign := v_utmCampaign row;
             v_firstSeen := v_firstSeen row;
             v_lastSeen := Date_parse rt (ev_timestamp evt);
             v_visitCount := v_visitCount row;
             v_pageViews := (v_pageViews row + 1)%Z |})).

Definition incr_visitCount (row : Visitor) : Visitor :=
  {| v_userAgent := v_userAgent row;
     v_deviceType := v_deviceType row;
     v_browser := v_browser row;
     v_os := v_os row;
     v_referrer := v_referrer row;
     v_utmSource := v_utmSource row;
     v_utmMedium := v_utmMedium row;
     v_utmCampaign := v_utmCampaign row;
     v_firstSeen := v_firstSeen row;
     v_lastSeen := v_lastSeen row;
     v_visitCount := (v_visitCount row + 1)%Z;
     v_pageViews := v_pageViews row |}.

Definition handleSessionStart (visitorDbId : VisitorDbId)
    (evt : IncomingEvent) : M unit :=
  let! _ := storeCall VisitorUpdate
              (visitor_update visitorDbId incr_visitCount) in
  storeCall EventCreate
    (event_create
       {| e_projectId := ev_projectId evt;
          e_visitorId := visitorDbId;
          e_experimentId := None;
          e_variantId := None;
          e_eventType := "PAGE_VIEW";
          e_eventName := None;
          e_pageUrl := ev_url evt;
          e_eventData :=
            SessionData (ev_sessionId evt) (ev_referrer evt) true |}).

Definition incr_visitors (row : VariantRow) : VariantRow :=
  {| visitors := (visitors row + 1)%Z; conversions := conversions row |}.

Definition incr_conversions (row : VariantRow) : VariantRow :=
  {| visitors := visitors row; conversions := (conversions row + 1)%Z |}.

Definition incr_totalVisitors (row : ExperimentRow) : ExperimentRow :=
  {| totalVisitors := (totalVisitors row + 1)%Z;
     totalConversions := totalConversions row |}.

Definition incr_totalConversions (row : ExperimentRow) : ExperimentRow :=
  {| totalVisitors := totalVisitors row;
     totalConversions := (totalConversions row + 1)%Z |}.

Definition incr_goal (row : ExperimentGoalRow) : ExperimentGoalRow :=
  {| eg_experimentId := eg_experimentId row;
     eg_goalId := eg_goalId row;
     eg_conversions := (eg_conversions row + 1)%Z |}.

Definition dayMs : Z := (24 * 60 * 60 * 1000)%Z.

Definition viewEventRow (visitorDbId : VisitorDbId) (evt : IncomingEvent)
    (experimentId variantId : string) : EventRow :=
  {| e_projectId := ev_projectId evt;
     e_visitorId := visitorDbId;
     e_experimentId := Some experimentId;
     e_variantId := Some variantId;
     e_eventType := "EXPERIMENT_VIEW";
     e_eventName := None;
     e_pageUrl := ev_url evt;
     e_eventData := NoEventData |}.

Definition viewLogRow (evt : IncomingEvent)
    (experimentId variantId : string) (t : Z) : LiveLogRow :=
  {| l_experimentId := experimentId;
     l_visitorId := ev_visitorId evt;
     l_variantId := variantId;
     l_logType := "VISITOR_ASSIGNED";
     l_message :=
       "Visitor assigned to " ++ or_str (ev_variantName evt) variantId;
     l_details := AssignedDetails (ev_isControl evt) (ev_url evt);
     l_expiresAt := (t + dayMs)%Z |}.

Definition handleExperimentView (visitorDbId : VisitorDbId)
    (evt : IncomingEvent) : M unit :=
  match ev_experimentId evt, ev_variantId evt with
  | Some experimentId, Some variantId =>
      if negb (truthy (Some experimentId)) || negb (truthy (Some variantId))
      then ret tt
      else
        let! existingAssignment :=
          storeCall VariantAssignmentFindUnique
            (variantAssignment_findUnique (visitorDbId, experimentId)) in
        let! _ :=
          match existingAssignment with
          | Some _ => ret tt
          | None =>
              let! _ := storeCall VariantAssignmentCreate
                          (variantAssignment_create
                             (visitorDbId, experimentId) variantId) in
              let! _ := storeCall VariantUpdate
                          (variant_update variantId incr_visitors) in
              let! _ := storeCall ExperimentUpdate
                          (experiment_update experimentId
                             incr_totalVisitors) in
              updateDailyStat experimentId Impressions None
          end in
        let! _ := storeCall EventCreate
                    (event_create
                       (viewEventRow visitorDbId evt
                          experimentId variantId)) in
        let! t := now in
        storeCall LiveLogCreate
          (liveLog_create (viewLogRow evt experimentId variantId t))
  | _, _ => ret tt
  end.

(** [for (const x of l) { await body(x) }] *)
Fixpoint forEach {A} (l : list A) (body : A -> M unit) : M unit :=
  match l with
  | [] => ret tt
  | x :: rest => let! _ := body x in forEach rest body
  end.

Definition quote : string := String "034"%char EmptyString.

Definition conversionRow (visitorDbId : VisitorDbId) (evt : IncomingEvent)
    (goalId : string) (exp : AttributedExperiment) : GoalConversionRow :=
  {| gc_goalId := goalId;
     gc_experimentId := ae_experimentId exp;
     gc_variantId := ae_variantId exp;
     gc_visitorId := visitorDbId;
     gc_value := if truthy_num (ev_value evt) then ev_value evt else None;
     gc_currency := or_str (ev_currency evt) "TRY";
     gc_url := ev_url evt;
     gc_timestamp := ev_timestamp evt;
     gc_goalType := ev_goalType evt |}.

Definition conversionLogRow (evt : IncomingEvent) (goalId : string)
    (exp : AttributedExperiment) (t : Z) : LiveLogRow :=
  {| l_experimentId := ae_experimentId exp;
     l_visitorId := ev_visitorId evt;
     l_variantId := ae_variantId exp;
     l_logType := "GOAL_CONVERSION";
     l_message :=
       "Goal " ++ quote ++ or_str (ev_goalName evt) goalId ++ quote
       ++ " converted";
     l_details :=
       ConversionDetails (ev_goalType evt) (ev_value evt) (ev_url evt);
     l_expiresAt := (t + dayMs)%Z |}.

(** The body of the loop over the attributed experiments. *)
Definition convertOne (visitorDbId : VisitorDbId) (evt : IncomingEvent)
    (goalId : string) (exp : AttributedExperiment) : M unit :=
  let experimentId := ae_experimentId exp in
  let variantId := ae_variantId exp in
  let! _ := storeCall GoalConversionCreate
              (goalConversion_create
                 (conversionRow visitorDbId evt goalId exp)) in
  let! _ := storeCall VariantUpdate
              (variant_update variantId incr_conversions) in
  let! _ := storeCall ExperimentUpdate
              (experiment_update experimentId incr_totalConversions) in
  let! _ := storeCall ExperimentGoalUpdateMany
              (experimentGoal_updateMany
                 (fun r => String.eqb (eg_experimentId r) experimentId
                           && String.eqb (eg_goalId r) goalId)
                 incr_goal) in
  let! _ := updateDailyStat experimentId Conversions (ev_value evt) in
  let! t := now in
  storeCall LiveLogCreate
    (liveLog_create (conversionLogRow evt goalId exp t)).

Definition handleGoalConversion (visitorDbId : VisitorDbId)
    (evt : IncomingEvent) : M unit :=
  match ev_goalId evt, ev_attributedExperiments evt with
  | Some goalId, Some attributedExperiments =>
      if negb (truthy (Some goalId))
         || (length attributedExperiments =? 0)%nat
      then ret tt
      else forEach attributedExperiments
             (convertOne visitorDbId evt goalId)
  | _, _ => ret tt
  end.

(** [evt.attributedExperiments?.[0]] *)
Definition firstAttributed (evt : IncomingEvent)
    : option AttributedExperiment :=
  match ev_attributedExperiments evt with
  | Some (exp :: _) => Some exp
  | _ => None
  end.

Definition handleCustomEvent (visitorDbId : VisitorDbId)
    (evt : IncomingEvent) : M unit :=
  storeCall EventCreate
    (event_create
       {| e_projectId := ev_projectId evt;
          e_visitorId := visitorDbId;
          e_experimentId := ae_experimentId <$> firstAttributed evt;
          e_variantId := ae_variantId <$> firstAttributed evt;
          e_eventType := "CUSTOM";
          e_eventName := ev_eventName evt;
          e_pageUrl := ev_url evt;
          e_eventData := WholeEvent evt |}).

Definition handleGenericEvent (visitorDbId : VisitorDbId)
    (evt : IncomingEvent) : M unit :=
  storeCall EventCreate
    (event_create
       {| e_projectId := ev_projectId evt;
          e_visitorId := visitorDbId;
          e_experimentId := None;
          e_variantId := None;
          e_eventType := ev_eventType evt;
          e_eventName := None;
          e_pageUrl := ev_url evt;
          e_eventData := WholeEvent evt |}).

Definition processEvent (evt : IncomingEvent) : M unit :=
  let projectId := ev_projectId evt in
  let visitorId := ev_visitorId evt in
  let eventType := ev_eventType evt in
  if negb (truthy (Some projectId)) || negb (truthy (Some visitorId))
     || negb (truthy (Some eventType))
  then console_push (WarnMissingRequiredFields projectId visitorId eventType)
  else
    let! visitor := upsertVisitor evt in
    if String.eqb eventType "SESSION_START" then
      handleSessionStart (v_id visitor) evt
    else if String.eqb eventType "EXPERIMENT_VIEW" then
      handleExperimentView (v_id visitor) evt
    else if String.eqb eventType "GOAL_CONVERSION" then
      handleGoalConversion (v_id visitor) evt
    else if String.eqb eventType "CUSTOM_EVENT" then
      handleCustomEvent (v_id visitor) evt
    else
      handleGenericEvent (v_id visitor) evt.

(** ** The Firehose handler *)

Record FirehoseRecord := { recordId : string; data : string }.

Record OutputRecord := {
  out_recordId : string;
  out_result : string;
  out_data : string
}.

Definition outcome (record : FirehoseRecord) (result : string)
    : OutputRecord :=
  {| out_recordId := recordId record;
     out_result := result;
     out_data := data record |}.

(** The inner loop: an event that throws is logged and the loop goes on. *)
Definition processEvents (events : list IncomingEvent) : M unit :=
  forEach events (fun evt =>
    try_catch (processEvent evt)
      (fun err => console_push (ErrorEventProcessing err evt))).

(** One turn of the loop over the records; [output] is the array so far. *)
Definition processRecord (record : FirehoseRecord)
    (output : list OutputRecord) : M (list OutputRecord) :=
  try_catch
    (let payload := base64_utf8 rt (data record) in
     match JSON_parse rt payload with
     | None =>
         let! _ := console_push (ErrorInvalidJSON payload) in
         ret (output ++ [outcome record "ProcessingFailed"])%list
     | Some parsed =>
         let events :=
           match parsed with
           | PArray l => l
           | PSingle evt => [evt]
           end in
         let! _ := processEvents events in
         ret (output ++ [outcome record "Ok"])%list
     end)
    (fun err =>
       let! _ := console_push (ErrorRecordProcessing err) in
       ret (output ++ [outcome record "ProcessingFailed"])%list).

Fixpoint processRecords (records : list FirehoseRecord)
    (output : list OutputRecord) : M (list OutputRecord) :=
  match records with
  | [] => ret output
  | record :: rest =>
      let! output' := processRecord record output in
      processRecords rest output'
  end.

Definition handler (records : list FirehoseRecord)
    : M (list OutputRecord) :=
  let! _ := console_push (LogProcessing (length records)) in
  let! output := processRecords records [] in
  let! _ := console_push (LogProcessed (length output)) in
  ret output.

End Processor.

(** * Vocabulary of the properties *)

(** Two stores that differ at most in the visitor table. *)
Definition sameButVisitor (d d' : Db) : Prop :=
  event d' = event d /\
  variantAssignment d' = variantAssignment d /\
  variant d' = variant d /\
  experiment d' = experiment d /\
  goalConversion d' = goalConversion d /\
  experimentGoal d' = experimentGoal d /\
  experimentDailyStat d' = experimentDailyStat d /\
  liveLog d' = liveLog d.

(** The three correlation fields are present. *)
Definition required (evt : IncomingEvent) : bool :=
  truthy (Some (ev_projectId evt)) && truthy (Some (ev_visitorId evt))
  && truthy (Some (ev_eventType evt)).

(** A computation leaves a part of the store as it found it. *)
Definition keeps {A T} (proj : Db -> T) (m : M A) : Prop :=
  forall w, proj (db (snd (m w))) = proj (db w).

(** Every run of a computation relates the world it starts in to the world
    it ends in. *)
Definition steps {A} (R : World -> World -> Prop) (m : M A) : Prop :=
  forall w, R w (snd (m w)).

(** The row a touch of the daily statistics leaves at its key. *)
Definition touched (field : StatField) (revenue : option Z)
    (old : option DailyStatRow) : DailyStatRow :=
  match old with
  | Some row => dailyStat_update field revenue row
  | None => dailyStat_create field revenue
  end.

Definition impressions (d : Db) (key : string * Z) : Z :=
  from_option ds_impressions 0%Z (experimentDailyStat d !! key).

(** The experiments an event names: its own and the attributed ones. *)
Definition eventExperiments (evt : IncomingEvent) : list string :=
  (match ev_experimentId evt with Some x => [x] | None => [] end
   ++ match ev_attributedExperiments evt with
      | Some l => List.map ae_experimentId l
      | None => []
      end)%list.

(** Between [w] and [w'] every row of the daily statistics is untouched or
    sits at the key of one of the experiments [ids], at the local midnight
    of a clock reading made in between. *)
Definition dailyTouches (rt : Runtime) (ids : list string)
    (w w' : World) : Prop :=
  clockReads w <= clockReads w' /\
  forall key : string * Z,
    experimentDailyStat (db w') !! key = experimentDailyStat (db w) !! key \/
    (In (fst key) ids /\
     exists n, clockReads w <= n < clockReads w' /\
               snd key = setHours0 rt (Date_now rt n)).

(** Every assignment of [w] is still there, unchanged, in [w']. *)
Definition assignmentsKept (w w' : World) : Prop :=
  forall (key : VisitorDbId * string) (variantId : string),
    variantAssignment (db w) !! key = Some variantId ->
    variantAssignment (db w') !! key = Some variantId.

(** The console of [w'] extends the console of [w]. *)
Definition consoleGrows (w w' : World) : Prop :=
  exists more, console w' = (console w ++ more)%list.

(** What the daily statistics are after one conversion touch per
    attribution of [l], in order.  The loop reads the clock twice per
    attribution, first for the touch and then for the LiveLog row; [n] is
    the number of readings made before the loop. *)
Fixpoint dailyTouched (rt : Runtime) (revenue : option Z)
    (l : list AttributedExperiment) (n : nat)
    (m : gmap (string * Z) DailyStatRow) : gmap (string * Z) DailyStatRow :=
  match l with
  | [] => m
  | exp :: rest =>
      let key := (ae_experimentId exp, setHours0 rt (Date_now rt n)) in
      dailyTouched rt revenue rest (S (S n))
        (<[key := touched Conversions revenue (m !! key)]> m)
  end.

(** The LiveLog rows of the attributions of [l], in order. *)
Fixpoint conversionLogRows (rt : Runtime) (evt : IncomingEvent)
    (goalId : string) (l : list AttributedExperiment) (n : nat)
    : list LiveLogRow :=
  match l with
  | [] => []
  | exp :: rest =>
      conversionLogRow evt goalId exp (Date_now rt (S n))
      :: conversionLogRows rt evt goalId rest (S (S n))
  end.

(** One increment of the experiment-goal pairing of [exp] and [goalId]. *)
Definition goalCounted (goalId : string) (exp : AttributedExperiment)
    (rows : list ExperimentGoalRow) : list ExperimentGoalRow :=
  List.map
    (fun r => if String.eqb (eg_experimentId r) (ae_experimentId exp)
                 && String.eqb (eg_goalId r) goalId
              then incr_goal r else r)
    rows.

(** The conversions counted over all rows of the daily statistics. *)
Definition dailyConversions (m : gmap (string * Z) DailyStatRow) : Z :=
  map_fold (fun _ row acc => (ds_conversions row + acc)%Z) 0%Z m.

(** How many attributions of [l] name the variant, resp. the experiment. *)
Definition attributedTo (proj : AttributedExperiment -> string)
    (l : list AttributedExperiment) (id : string) : Z :=
  Z.of_nat (count_occ string_dec (List.map proj l) id).

(** The pairing row [r] after [n] more conversions. *)
Definition goalAdded (n : Z) (r : ExperimentGoalRow) : ExperimentGoalRow :=
  {| eg_experimentId := eg_experimentId r;
     eg_goalId := eg_goalId r;
     eg_conversions := (eg_conversions r + n)%Z |}.

(** A throw of the computation comes from the last store call it issued:
    nothing is done after the rejected call. *)
Definition throwsLast {A} (m : M A) : Prop :=
  forall w e w', m w = (Throw e, w') -> storeCalls w' = S (exn_call e).

Definition isEventError (c : ConsoleEntry) : bool :=
  match c with
  | ErrorEventProcessing _ _ => true
  | _ => false
  end.

(** The number of "Event processing error" entries of a console. *)
Definition eventErrors (c : list ConsoleEntry) : nat :=
  length (List.filter isEventError c).

Definition eventsOf (parsed : Parsed) : list IncomingEvent :=
  match parsed with
  | PArray l => l
  | PSingle evt => [evt]
  end.

(** [Handled rt events w m w']: the events are handled one after the other
    from [w] to [w']; each one either is processed to its end, or throws at
    a store call, after which it does nothing more and one error entry is
    logged for it; the next event starts from the world the previous one
    left, whether it failed or not.  [m] counts the events that failed. *)
Inductive Handled (rt : Runtime)
    : list IncomingEvent -> World -> nat -> World -> Prop :=
| Handled_nil w : Handled rt [] w 0 w
| Handled_ok evt rest w w1 m w2 :
    processEvent rt evt w = (Ok tt, w1) ->
    Handled rt rest w1 m w2 ->
    Handled rt (evt :: rest) w m w2
| Handled_failed evt rest w err w1 m w2 :
    processEvent rt evt w = (Throw err, w1) ->
    storeCalls w1 = S (exn_call err) ->
    Handled rt rest
      (set_console w1 (console w1 ++ [ErrorEventProcessing err evt]))
      m w2 ->
    Handled rt (evt :: rest) w (S m) w2.

(** Between [w] and [w'] no "Event processing error" has been logged. *)
Definition sameEventErrors (w w' : World) : Prop :=
  eventErrors (console w') = eventErrors (console w).

(** [replays n m m']: [m] never lowers the count of store calls, a throw
    of [m] carries the index of a call it issued, and every run of [m] that
    ends with at most [n] store calls issued is also a run of [m']. *)
Definition replays {A} (n : nat) (m m' : M A) : Prop :=
  (forall w, storeCalls w <= storeCalls (snd (m w))) /\
  (forall w e w', m w = (Throw e, w') -> storeCalls w <= exn_call e) /\
  (forall w r w1, m w = (r, w1) -> storeCalls w1 <= n -> m' w = (r, w1)).

(** No throw of the computation comes from a LiveLog write. *)
Definition notLog {A} (m : M A) : Prop :=
  forall w e w', m w = (Throw e, w') -> exn_op e <> LiveLogCreate.

(** The world [w] with one more LiveLog row. *)
Definition withLog (w : World) (row : LiveLogRow) : World :=
  set_db w (set_liveLog (db w) (liveLog (db w) ++ [row])).

(** What the store throws when it rejects, for a reason of its own, the
    LiveLog write issued as call [n]. *)
Definition logRejected (n : nat) : Exn :=
  {| exn_call := n; exn_op := LiveLogCreate; exn_kind := Rejected |}.

(** [rejectsLog n m m']: every run of [m] that returns issues a store
    call, and when the last call of such a run is call [n], that call is
    a LiveLog write that added its row, and [m'] run from the same world
    throws [logRejected n] and ends in the world of that run without the
    row. *)
Definition rejectsLog (n : nat) (m m' : M unit) : Prop :=
  (forall w w', m w = (Ok tt, w') -> storeCalls w < storeCalls w') /\
  (forall w w', m w = (Ok tt, w') -> storeCalls w' = S n ->
     exists row wf,
       w' = withLog wf row /\ m' w = (Throw (logRejected n), wf)).

(** The event with another timestamp. *)
Definition set_timestamp (evt : IncomingEvent) (timestamp : string)
    : IncomingEvent :=
  {| ev_projectId := ev_projectId evt; ev_visitorId := ev_visitorId evt;
     ev_sessionId := ev_sessionId evt; ev_timestamp := timestamp;
     ev_eventType := ev_eventType evt; ev_url := ev_url evt;
     ev_experimentId := ev_experimentId evt;
     ev_experimentName := ev_experimentName evt;
     ev_variantId := ev_variantId evt;
     ev_variantName := ev_variantName evt;
     ev_isControl := ev_isControl evt; ev_goalId := ev_goalId evt;
     ev_goalName := ev_goalName evt; ev_goalType := ev_goalType evt;
     ev_attributedExperiments := ev_attributedExperiments evt;
     ev_eventName := ev_eventName evt; ev_value := ev_value evt;
     ev_currency := ev_currency evt; ev_userAgent := ev_userAgent evt;
     ev_referrer := ev_referrer evt |}.

(** Two stores that agree on everything the processor reads back: they
    have the same visitors and the same tables, save for the columns of the
    visitors and for the Event and GoalConversion rows, which is where the
    timestamp of an event is written. *)
Definition sameButStampedDb (d1 d2 : Db) : Prop :=
  variantAssignment d1 = variantAssignment d2 /\
  variant d1 = variant d2 /\
  experiment d1 = experiment d2 /\
  experimentGoal d1 = experimentGoal d2 /\
  experimentDailyStat d1 = experimentDailyStat d2 /\
  liveLog d1 = liveLog d2 /\
  forall id : VisitorDbId, visitor d1 !! id = None <-> visitor d2 !! id = None.

Definition sameButStamped (w1 w2 : World) : Prop :=
  console w1 = console w2 /\
  storeCalls w1 = storeCalls w2 /\
  clockReads w1 = clockReads w2 /\
  sameButStampedDb (db w1) (db w2).

(** Two computations run in step: from worlds that agree they reach worlds
    that agree, both returning, with results related by [Q], or both
    throwing the same exception. *)
Definition inStep {A B} (Q : A -> B -> Prop) (m1 : M A) (m2 : M B) : Prop :=
  forall w1 w2,
    sameButStamped w1 w2 ->
    sameButStamped (snd (m1 w1)) (snd (m2 w2)) /\
    match fst (m1 w1), fst (m2 w2) with
    | Ok a, Ok b => Q a b
    | Throw e1, Throw e2 => e1 = e2
    | _, _ => False
    end.

(** ** Sample data *)

Definition ua_edge : string :=
  "Mozilla/5.0 (Windows NT 10.0; Win64; x64) AppleWebKit/537.36 (KHTML, like Gecko) Chrome/91.0.4472.124 Safari/537.36 Edg/91.0.864.59".

Definition ua_edge_firefox : string :=
  "Mozilla/5.0 Chrome/120.0 Safari/537.36 Edg/120.0 Firefox/121.0".

(** A runtime in UTC whose clock starts at 2024-01-03T12:00:00Z and moves
    by a millisecond per reading, and whose store never faults. *)
Definition ts_jan1 : string := "2024-01-01T12:00:00.000Z".
Definition ts_jan2 : string := "2024-01-02T08:30:00.000Z".

Definition sample_parse (s : string) : JsDate :=
  if String.eqb s ts_jan1 then Some 1704110400000%Z
  else if String.eqb s ts_jan2 then Some 1704184200000%Z
  else None.

(** A store with experiment "exp1", its variants "v1" and "v2", and goal
    "g1" paired with the experiment. *)
Definition sampleDb : Db :=
  {| visitor := ∅; event := []; variantAssignment := ∅;
     variant := {[ "v1" := {| visitors := 0; conversions := 0 |};
                   "v2" := {| visitors := 0; conversions := 0 |} ]};
     experiment := {[ "exp1" := {| totalVisitors := 0;
                                   totalConversions := 0 |} ]};
     goalConversion := [];
     experimentGoal := [ {| eg_experimentId := "exp1"; eg_goalId := "g1";
                            eg_conversions := 0 |} ];
     experimentDailyStat := ∅; liveLog := [] |}.

Definition world0 (d : Db) : World :=
  {| db := d; console := []; storeCalls := 0; clockReads := 0 |}.

Definition sampleEvent (eventType timestamp : string) : IncomingEvent :=
  {| ev_projectId := "p1"; ev_visitorId := "vis1"; ev_sessionId := "s1";
     ev_timestamp := timestamp; ev_eventType := eventType;
     ev_url := "https://shop.example/";
     ev_experimentId := None; ev_experimentName := None;
     ev_variantId := None; ev_variantName := None; ev_isControl := None;
     ev_goalId := None; ev_goalName := None; ev_goalType := None;
     ev_attributedExperiments := None; ev_eventName := None;
     ev_value := None; ev_currency := None;
     ev_userAgent := Some ua_edge; ev_referrer := None |}.

Definition set_view (evt : IncomingEvent)
    (experimentId variantId : option string) : IncomingEvent :=
  {| ev_projectId := ev_projectId evt; ev_visitorId := ev_visitorId evt;
     ev_sessionId := ev_sessionId evt; ev_timestamp := ev_timestamp evt;
     ev_eventType := ev_eventType evt; ev_url := ev_url evt;
     ev_experimentId := experimentId;
     ev_experimentName := ev_experimentName evt;
     ev_variantId := variantId; ev_variantName := ev_variantName evt;
     ev_isControl := ev_isControl evt; ev_goalId := ev_goalId evt;
     ev_goalName := ev_goalName evt; ev_goalType := ev_goalType evt;
     ev_attributedExperiments := ev_attributedExperiments evt;
     ev_eventName := ev_eventName evt; ev_value := ev_value evt;
     ev_currency := ev_currency evt; ev_userAgent := ev_userAgent evt;
     ev_referrer := ev_referrer evt |}.

Definition set_goal (evt : IncomingEvent) (goalId : option string)
    (attributed : option (list AttributedExperiment)) : IncomingEvent :=
  {| ev_projectId := ev_projectId evt; ev_visitorId := ev_visitorId evt;
     ev_sessionId := ev_sessionId evt; ev_timestamp := ev_timestamp evt;
     ev_eventType := ev_eventType evt; ev_url := ev_url evt;
     ev_experimentId := ev_experimentId evt;
     ev_experimentName := ev_experimentName evt;
     ev_variantId := ev_variantId evt;
     ev_variantName := ev_variantName evt;
     ev_isControl := ev_isControl evt; ev_goalId := goalId;
     ev_goalName := ev_goalName evt; ev_goalType := ev_goalType evt;
     ev_attributedExperiments := attributed;
     ev_eventName := ev_eventName evt; ev_value := ev_value evt;
     ev_currency := ev_currency evt; ev_userAgent := ev_userAgent evt;
     ev_referrer := ev_referrer evt |}.

Definition attribution (experimentId variantId : string)
    : AttributedExperiment :=
  {| ae_experimentId := experimentId; ae_experimentName := None;
     ae_variantId := variantId; ae_variantName := None |}.

Definition sessionStart1 : IncomingEvent :=
  sampleEvent "SESSION_START" ts_jan1.
Definition pageView2 : IncomingEvent := sampleEvent "PAGE_VIEW" ts_jan2.
Definition view1 : IncomingEvent :=
  set_view (sampleEvent "EXPERIMENT_VIEW" ts_jan1) (Some "exp1") (Some "v1").
Definition viewNoVariant : IncomingEvent :=
  set_view (sampleEvent "EXPERIMENT_VIEW" ts_jan1) (Some "exp1") None.
Definition conversionNone : IncomingEvent :=
  set_goal (sampleEvent "GOAL_CONVERSION" ts_jan1) (Some "g1") (Some []).
Definition conversion2 : IncomingEvent :=
  set_goal (sampleEvent "GOAL_CONVERSION" ts_jan1) (Some "g1")
    (Some [attribution "exp1" "v1"; attribution "exp1" "v2"]).

Definition sampleRecord : FirehoseRecord :=
  {| recordId := "record-1"; data := "sample-body" |}.

Definition sampleRuntime (fault : nat -> bool) : Runtime :=
  {| Date_now := fun n => (1704283200000 + Z.of_nat n)%Z;
     LocalTZA := fun _ _ => 0%Z;
     Date_parse := sample_parse;
     URL_searchParams := fun _ => Some (fun _ => None);
     base64_utf8 := fun s => s;
     JSON_parse := fun s =>
       if String.eqb s "sample-body"
       then Some (PArray [view1; conversion2; pageView2])
       else None;
     storeFault := fault |}.

Definition noFault : nat -> bool := fun _ => false.
Definition faultAt (n : nat) : nat -> bool := fun i => (i =? n)%nat.

(** The sample store after the first view of "exp1" by the sample
    visitor. *)
Definition viewed1 : World :=
  snd (processEvent (sampleRuntime noFault) view1 (world0 sampleDb)).

Definition jan3 : Z := 1704240000000%Z.

(** The sample store after the sample conversion with two attributions. *)
Definition converted2 : World :=
  snd (processEvent (sampleRuntime noFault) conversion2 (world0 sampleDb)).

(** The sample conversion under a store that rejects its seventh call, the
    LiveLog write of the first attribution. *)
Definition failed6 : World :=
  snd (processEvent (sampleRuntime (faultAt 6)) conversion2
         (world0 sampleDb)).

Definition rejected6 : Exn :=
  {| exn_call := 6; exn_op := LiveLogCreate; exn_kind := Rejected |}.

(** The sample conversion cut after its first attribution, and the sample
    store after it. *)
Definition conversion1 : IncomingEvent :=
  set_goal conversion2 (Some "g1") (Some [attribution "exp1" "v1"]).

Definition converted1 : World :=
  snd (processEvent (sampleRuntime noFault) conversion1 (world0 sampleDb)).

(** The sample view under a store that rejects its eighth call, the
    LiveLog write. *)
Definition failed7 : World :=
  snd (processEvent (sampleRuntime (faultAt 7)) view1 (world0 sampleDb)).

(** * Vocabulary of the further properties *)

(** The body of the record decodes to events. *)
Definition decodes (rt : Runtime) (record : FirehoseRecord) : bool :=
  match JSON_parse rt (base64_utf8 rt (data record)) with
  | Some _ => true
  | None => false
  end.

(** The outcome the handler reports for a record. *)
Definition recordOutcome (rt : Runtime) (record : FirehoseRecord)
    : OutputRecord :=
  outcome record (if decodes rt record then "Ok" else "ProcessingFailed").

Definition missingWarning (evt : IncomingEvent) : ConsoleEntry :=
  WarnMissingRequiredFields (ev_projectId evt) (ev_visitorId evt)
    (ev_eventType evt).

(** Every throw of the computation comes from an operation in [P]. *)
Definition throwsOnly {A} (P : StoreOp -> Prop) (m : M A) : Prop :=
  forall w e w', m w = (Throw e, w') -> P (exn_op e).

(** Every row of [m] is still in [m'], under the same key, and has grown
    in the sense of [le]. *)
Definition mapGrows `{Countable K} {V} (le : V -> V -> Prop)
    (m m' : gmap K V) : Prop :=
  forall k r, m !! k = Some r -> exists r', m' !! k = Some r' /\ le r r'.

Definition leVariant (r r' : VariantRow) : Prop :=
  (visitors r <= visitors r')%Z /\ (conversions r <= conversions r')%Z.

Definition leExperiment (r r' : ExperimentRow) : Prop :=
  (totalVisitors r <= totalVisitors r')%Z /\
  (totalConversions r <= totalConversions r')%Z.

Definition leDaily (r r' : DailyStatRow) : Prop :=
  (ds_impressions r <= ds_impressions r')%Z /\
  (ds_conversions r <= ds_conversions r')%Z.

Definition leGoal (r r' : ExperimentGoalRow) : Prop :=
  eg_experimentId r' = eg_experimentId r /\
  eg_goalId r' = eg_goalId r /\
  (eg_conversions r <= eg_conversions r')%Z.

(** The visitor [r'] is [r] some events later: what was recorded when the
    visitor was first seen is the same, the counters have not gone down. *)
Definition leVisitor (r r' : Visitor) : Prop :=
  v_userAgent r' = v_userAgent r /\
  v_deviceType r' = v_deviceType r /\
  v_browser r' = v_browser r /\
  v_os r' = v_os r /\
  v_referrer r' = v_referrer r /\
  v_utmSource r' = v_utmSource r /\
  v_utmMedium r' = v_utmMedium r /\
  v_utmCampaign r' = v_utmCampaign r /\
  v_firstSeen r' = v_firstSeen r /\
  (v_visitCount r <= v_visitCount r')%Z /\
  (v_pageViews r <= v_pageViews r')%Z.

(** [l'] is [l] with rows appended. *)
Definition appended {A} (l l' : list A) : Prop :=
  exists rows, l' = (l ++ rows)%list.

(** The store [d'] is the store [d] some processing later. *)
Definition storeGrows (d d' : Db) : Prop :=
  mapGrows leVisitor (visitor d) (visitor d') /\
  appended (event d) (event d') /\
  mapGrows eq (variantAssignment d) (variantAssignment d') /\
  mapGrows leVariant (variant d) (variant d') /\
  mapGrows leExperiment (experiment d) (experiment d') /\
  appended (goalConversion d) (goalConversion d') /\
  Forall2 leGoal (experimentGoal d) (experimentGoal d') /\
  mapGrows leDaily (experimentDailyStat d) (experimentDailyStat d') /\
  appended (liveLog d) (liveLog d').

Definition worldGrows (w w' : World) : Prop := storeGrows (db w) (db w').

(** The LiveLog rows written between [w] and [w'] come after the rows of
    [w], and each expires 86400000 ms after a clock reading made in
    between. *)
Definition logsFresh (rt : Runtime) (w w' : World) : Prop :=
  clockReads w <= clockReads w' /\
  exists rows,
    liveLog (db w') = (liveLog (db w) ++ rows)%list /\
    Forall (fun row =>
              exists n, clockReads w <= n < clockReads w' /\
                        l_expiresAt row = (Date_now rt n + 86400000)%Z)
           rows.

(** The tables other than Visitor, Event and VariantAssignment. *)
Definition sameStatistics (d d' : Db) : Prop :=
  variant d' = variant d /\
  experiment d' = experiment d /\
  goalConversion d' = goalConversion d /\
  experimentGoal d' = experimentGoal d /\
  experimentDailyStat d' = experimentDailyStat d /\
  liveLog d' = liveLog d.

(** ** Further sample data *)

(** An event without an event type. *)
Definition untyped : IncomingEvent := sampleEvent "" ts_jan1.

(** A custom event that carries a goal and two attributions. *)
Definition customEvent : IncomingEvent :=
  set_goal (sampleEvent "CUSTOM_EVENT" ts_jan1) (Some "g1")
    (Some [attribution "exp1" "v1"; attribution "exp1" "v2"]).

(** A view of a variant the store does not have. *)
Definition viewUnknown : IncomingEvent :=
  set_view (sampleEvent "EXPERIMENT_VIEW" ts_jan1) (Some "exp1") (Some "v9").

(** * The store client of a Lambda instance ([shared/prisma]) *)

Module Prisma.

(** [process.env] as far as the client reads it. *)
Record Env := { DATABASE_URL : option string; DEBUG : option string }.

(** A constructed client: the options it was constructed with, and
    [serial], which stands for the identity of the object: the number of
    clients the instance had constructed before this one. *)
Record PrismaClient := {
  datasource_url : option string;
  log : list string;
  serial : nat
}.

(** The module state of one Lambda instance: the variable [prisma], and
    what the instance has done so far: how many clients it constructed and
    which ones it disconnected. *)
Record Instance := {
  prisma : option PrismaClient;
  constructed : nat;
  disconnected : list PrismaClient
}.

(** The instance at cold start. *)
Definition cold : Instance :=
  {| prisma := None; constructed := 0; disconnected := [] |}.

Definition getPrismaClient (env : Env) (s : Instance)
    : PrismaClient * Instance :=
  match prisma s with
  | None =>
      let client :=
        {| datasource_url := DATABASE_URL env;
           log := match DEBUG env with
                  | Some "true" => ["query"; "error"; "warn"]
                  | _ => ["error"]
                  end;
           serial := constructed s |} in
      (client,
       {| prisma := Some client;
          constructed := S (constructed s);
          disconnected := disconnected s |})
  | Some client => (client, s)
  end.

(** [resolves] tells whether [$disconnect] resolves; when it rejects,
    [disconnectPrisma] rejects before the variable is cleared.  The result
    is [true] when [disconnectPrisma] resolves.  The function is taken as
    one step, from its test to the assignment after the [await]: this is
    the function in the runs in which the instance makes no other call on
    the client while a disconnection is pending.  Runs in which calls
    overlap a pending disconnection are not described. *)
Definition disconnectPrisma (resolves : bool) (s : Instance)
    : bool * Instance :=
  match prisma s with
  | Some client =>
      if resolves then
        (true,
         {| prisma := None;
            constructed := constructed s;
            disconnected := (disconnected s ++ [client])%list |})
      else (false, s)
  | None => (true, s)
  end.

(** What the code of an instance may do with the client, one call after
    the other. *)
Inductive Call :=
| Get (env : Env)
| Disconnect (resolves : bool).

Definition call (s : Instance) (c : Call) : Instance :=
  match c with
  | Get env => snd (getPrismaClient env s)
  | Disconnect resolves => snd (disconnectPrisma resolves s)
  end.

Definition run (calls : list Call) (s : Instance) : Instance :=
  fold_left call calls s.

Definition closes (c : Call) : bool :=
  match c with Disconnect true => true | _ => false end.

(** Two environments, and the instance after its first call under the
    first one. *)
Definition envQuiet : Env :=
  {| DATABASE_URL := Some "postgresql://db-a/abtest"; DEBUG := None |}.

Definition envDebug : Env :=
  {| DATABASE_URL := Some "postgresql://db-b/abtest";
     DEBUG := Some "true" |}.

Definition warm : Instance := snd (getPrismaClient envQuiet cold).

End Prisma.

(** * API responses ([shared/response.ts]) *)

Module Response.

(** The body of a response is a text: the empty text, or the JSON text of
    a value, which stands here for its text.  The value of an error body
    is the object literal of [error]; [err_details = None] is the property
    left [undefined], which the JSON text does not have. *)
Record ErrorBody (E : Type) := {
  err_error : bool;
  err_message : string;
  err_details : option E
}.

Arguments err_error {E}.
Arguments err_message {E}.
Arguments err_details {E}.

Inductive Body (A E : Type) :=
| Empty
| Stringify (data : A)
| StringifyError (e : ErrorBody E).

Arguments Empty {A E}.
Arguments Stringify {A E}.
Arguments StringifyError {A E}.

Record APIGatewayProxyResult (A E : Type) := {
  statusCode : Z;
  headers : gmap string string;
  body : Body A E
}.

Arguments statusCode {A E}.
Arguments headers {A E}.
Arguments body {A E}.

Definition defaultHeaders : gmap string string :=
  {[ "Content-Type" := "application/json";
     "Access-Control-Allow-Origin" := "*";
     "Access-Control-Allow-Methods" := "GET, POST, PUT, DELETE, OPTIONS";
     "Access-Control-Allow-Headers"
       := "Content-Type, Authorization, X-Api-Key" ]}.

(** A parameter with a default value: [None] is the argument left out. *)
Definition success {A E} (data : A) (statusCode : option Z)
    : APIGatewayProxyResult A E :=
  {| statusCode := default 200%Z statusCode;
     headers := defaultHeaders;
     body := Stringify data |}.

(** [maxAge] is a natural number; the template literal prints it in
    decimal. *)
Definition successWithCache {A E} (data : A) (maxAge : option N)
    : APIGatewayProxyResult A E :=
  {| statusCode := 200%Z;
     headers :=
       <["Cache-Control"
         := "public, max-age="
            ++ NilZero.string_of_uint (N.to_uint (default 60%N maxAge))]>
         defaultHeaders;
     body := Stringify data |}.

(** [process.env.DEBUG === "true"], for [DEBUG] the value of
    [process.env.DEBUG]. *)
Definition debugging (DEBUG : option string) : bool :=
  match DEBUG with
  | Some value => String.eqb value "true"
  | None => false
  end.

Definition error {A E} (DEBUG : option string) (message : string)
    (statusCode : option Z) (details : option E)
    : APIGatewayProxyResult A E :=
  {| statusCode := default 500%Z statusCode;
     headers := defaultHeaders;
     body :=
       StringifyError
         {| err_error := true;
            err_message := message;
            err_details := if debugging DEBUG then details else None |} |}.

Definition badRequest {A E} (DEBUG : option string) (message : string)
    : APIGatewayProxyResult A E :=
  error DEBUG message (Some 400%Z) None.

Definition unauthorized {A E} (DEBUG : option string)
    (message : option string) : APIGatewayProxyResult A E :=
  error DEBUG (default "Unauthorized" message) (Some 401%Z) None.

Definition forbidden {A E} (DEBUG : option string)
    (message : option string) : APIGatewayProxyResult A E :=
  error DEBUG (default "Forbidden" message) (Some 403%Z) None.

Definition notFound {A E} (DEBUG : option string)
    (message : option string) : APIGatewayProxyResult A E :=
  error DEBUG (default "Not found" message) (Some 404%Z) None.

Definition cors {A E} : APIGatewayProxyResult A E :=
  {| statusCode := 200%Z; headers := defaultHeaders; body := Empty |}.

End Response.

(** * The config handler ([config-handler/index.ts]) *)

Module ConfigHandler.

(** ** URL patterns *)

Definition backslash : ascii := "092"%char.

(** The characters of the class that [escapeRegex] replaces. *)
Definition isRegexSpecial (c : ascii) : bool :=
  existsb (Ascii.eqb c)
    (list_ascii_of_string ".*+?^${}()|[]" ++ [backslash]).

(** [str.replace(/[...]/g, "\\$&")]: every character of the class gets a
    backslash in front. *)
Fixpoint escapeRegex (str : string) : string :=
  match str with
  | EmptyString => EmptyString
  | String c rest =>
      if isRegexSpecial c
      then String backslash (String c (escapeRegex rest))
      else String c (escapeRegex rest)
  end.

Record Location := {
  loc_type : string;
  loc_matchType : string;
  loc_value : string
}.

(** The callback of [map] in [buildUrlPattern]. *)
Definition locationPattern (loc : Location) : string :=
  let value := escapeRegex (loc_value loc) in
  let matchType := loc_matchType loc in
  if String.eqb matchType "EXACTLY" then "^" ++ value ++ "$"
  else if String.eqb matchType "CONTAINS" then value
  else if String.eqb matchType "NOT_CONTAINS"
       then "^(? !.*" ++ value ++ ").*$"
  else if String.eqb matchType "STARTS_WITH" then "^" ++ value
  else if String.eqb matchType "ENDS_WITH" then value ++ "$"
  else if String.eqb matchType "REGEX" then loc_value loc
  else value.

(** [patterns.join(sep)] *)
Fixpoint join (sep : string) (patterns : list string) : string :=
  match patterns with
  | [] => ""
  | [p] => p
  | p :: rest => p ++ sep ++ join sep rest
  end.

Definition isUrl (loc : Location) : bool := String.eqb (loc_type loc) "URL".

(** [locations = None] is a value that is [null] or [undefined]. *)
Definition buildUrlPattern (locations : option (list Location)) : string :=
  match locations with
  | None => ".*"
  | Some locations =>
      if (length locations =? 0)%nat then ".*"
      else
        let patterns :=
          List.map locationPattern (List.filter isUrl locations) in
        if (0 <? length patterns)%nat then join "|" patterns else ".*"
  end.

Definition mapAudienceType (dbType : string) : string :=
  if String.prefix "DEVICE_" dbType then "DEVICE"
  else if String.prefix "BROWSER_" dbType then "BROWSER"
  else if String.prefix "OS_" dbType then "OS"
  else if String.eqb dbType "CUSTOM_COOKIE" then "COOKIE"
  else if String.eqb dbType "CUSTOM_QUERY_PARAM" then "QUERY_PARAM"
  else if String.eqb dbType "CUSTOM_JAVASCRIPT" then "JS_VAR"
  else if String.prefix "FROM_" dbType then "GEO"
  else if includes dbType "TRAFFIC" then "TRAFFIC_SOURCE"
  else if String.eqb dbType "NEW_VISITORS"
          || String.eqb dbType "RETURNING_VISITORS" then "VISITOR_TYPE"
  else if String.prefix "VISITING_" dbType then "TIME"
  else "OTHER".

(** ** What the queries select *)

Record Project := {
  p_id : string;
  p_name : string;
  p_domain : option string;
  p_globalJS : option string
}.

Record Audience := {
  aud_type : string;
  aud_condition : string;
  aud_operator : string;
  aud_value : option string
}.

(** A change is a JSON value; [v_changes = None] is a column that holds
    [null]. *)
Definition Change : Type := string.

Record Variant := {
  v_id : string;
  v_name : string;
  v_isControl : bool;
  v_trafficWeight : Z;
  v_changes : option (list Change)
}.

Record Experiment := {
  x_id : string;
  x_name : string;
  x_type : string;
  x_trafficAllocation : Z;
  x_locations : list Location;
  x_audiences : list Audience;
  x_variants : list Variant
}.

Record Goal := {
  g_id : string;
  g_name : string;
  g_type : string;
  g_urlPattern : option string;
  g_selector : option string;
  g_eventName : option string;
  g_revenueTracking : bool;
  g_experimentGoals : list string   (* the [experimentId] of each *)
}.

(** ** The SDK format ([shared/types]) *)

Record SDKAudience := {
  sa_type : string;
  sa_operator : string;
  sa_value : option string;
  sa_condition : string
}.

Record SDKVariant := {
  sv_id : string;
  sv_name : string;
  sv_isControl : bool;
  sv_trafficWeight : Z;
  sv_changes : list Change
}.

Record SDKExperiment := {
  se_id : string;
  se_name : string;
  se_type : string;
  se_status : string;
  se_trafficAllocation : Z;
  se_urlPattern : string;
  se_audiences : list SDKAudience;
  se_variants : list SDKVariant
}.

Record SDKGoal := {
  sg_id : string;
  sg_name : string;
  sg_type : string;
  sg_urlPattern : option string;
  sg_selector : option string;
  sg_eventName : option string;
  sg_revenueTracking : bool;
  sg_experimentIds : list string
}.

Record SDKConfig := {
  c_projectId : string;
  c_version : Z;
  c_experiments : list SDKExperiment;
  c_goals : list SDKGoal;
  c_globalJS : option string
}.

(** ** The handler *)

Record APIGatewayProxyEvent := {
  httpMethod : string;
  pathParameters : option (gmap string string)
}.

(** What a rejected query throws. *)
Definition Err : Type := string.

(** The world the handler runs in: the answers of the store to the three
    queries, each of which may reject; the wall clock; the environment.
    [experiment_findMany] and [goal_findMany] take the [projectId] of their
    [where] clause. *)
Record Backend := {
  project_findFirst : string -> Err + option Project;
  experiment_findMany : string -> Err + list Experiment;
  goal_findMany : string -> Err + list Goal;
  Date_now : Z;
  DEBUG : option string
}.

Definition Result : Type := Response.APIGatewayProxyResult SDKConfig Err.

Definition sdkAudience (aud : Audience) : SDKAudience :=
  {| sa_type := mapAudienceType (aud_type aud);
     sa_operator := aud_operator aud;
     sa_value := aud_value aud;
     sa_condition := aud_condition aud |}.

Definition sdkVariant (v : Variant) : SDKVariant :=
  {| sv_id := v_id v;
     sv_name := v_name v;
     sv_isControl := v_isControl v;
     sv_trafficWeight := v_trafficWeight v;
     sv_changes := default [] (v_changes v) |}.

Definition sdkExperiment (exp : Experiment) : SDKExperiment :=
  {| se_id := x_id exp;
     se_name := x_name exp;
     se_type := x_type exp;
     se_status := "RUNNING";
     se_trafficAllocation := x_trafficAllocation exp;
     se_urlPattern := buildUrlPattern (Some (x_locations exp));
     se_audiences := List.map sdkAudience (x_audiences exp);
     se_variants := List.map sdkVariant (x_variants exp) |}.

Definition sdkGoal (goal : Goal) : SDKGoal :=
  {| sg_id := g_id goal;
     sg_name := g_name goal;
     sg_type := g_type goal;
     sg_urlPattern := g_urlPattern goal;
     sg_selector := g_selector goal;
     sg_eventName := g_eventName goal;
     sg_revenueTracking := g_revenueTracking goal;
     sg_experimentIds := g_experimentGoals goal |}.

(** The body of the [try] block: [inl err] is a throw. *)
Definition respond (b : Backend) (event : APIGatewayProxyEvent)
    : Err + Result :=
  match pathParameters event ≫= (fun params => params !! "projectId") with
  | None | Some "" =>
      inr (Response.badRequest (DEBUG b) "Project ID is required")
  | Some projectId =>
      match project_findFirst b projectId with
      | inl err => inl err
      | inr None =>
          inr (Response.notFound (DEBUG b)
                 (Some "Project not found or inactive"))
      | inr (Some project) =>
          match experiment_findMany b (p_id project) with
          | inl err => inl err
          | inr experiments =>
              match goal_findMany b (p_id project) with
              | inl err => inl err
              | inr goals =>
                  let config :=
                    {| c_projectId := p_id project;
                       c_version := Date_now b;
                       c_experiments := List.map sdkExperiment experiments;
                       c_goals := List.map sdkGoal goals;
                       c_globalJS := p_globalJS project |} in
                  inr (Response.successWithCache config (Some 60%N))
              end
          end
      end
  end.

(** The handler returns its response and what it wrote with
    [console.error]. *)
Definition handler (b : Backend) (event : APIGatewayProxyEvent)
    : Result * list Err :=
  if String.eqb (httpMethod event) "OPTIONS" then (Response.cors, [])
  else
    match respond b event with
    | inr response => (response, [])
    | inl err =>
        (Response.error (DEBUG b) "Internal server error" (Some 500%Z)
           (Some err),
         [err])
    end.

(** ** Vocabulary of the properties *)

(** The syntax characters of a pattern, as the grammar of regular
    expressions lists them (ECMA-262, SyntaxCharacter): the characters
    that are, or begin, an operator when they are not behind a
    backslash. *)
Definition isSyntaxCharacter (c : ascii) : bool :=
  existsb (Ascii.eqb c)
    ["^"; "$"; backslash; "."; "*"; "+"; "?"; "("; ")"; "["; "]"; "{";
     "}"; "|"]%char.

(** The text a pattern stands for when it is a literal: a sequence of
    characters that are not syntax characters, each standing for itself,
    and of syntax characters behind a backslash, each standing for
    itself.  [None] when the pattern has an operator or an escape of
    another kind. *)
Fixpoint literal (pattern : string) : option string :=
  match pattern with
  | EmptyString => Some EmptyString
  | String c rest =>
      if Ascii.eqb c backslash then
        match rest with
        | EmptyString => None
        | String c' rest' =>
            if isSyntaxCharacter c' then String c' <$> literal rest'
            else None
        end
      else if isSyntaxCharacter c then None
      else String c <$> literal rest
  end.

Definition hasUrl (locations : list Location) : bool :=
  existsb isUrl locations.

(** ** Sample data *)

Definition sampleProject : Project :=
  {| p_id := "p1"; p_name := "Shop"; p_domain := Some "shop.example";
     p_globalJS := None |}.

Definition failing : Backend :=
  {| project_findFirst := fun _ => inr (Some sampleProject);
     experiment_findMany := fun _ => inl "connection reset";
     goal_findMany := fun _ => inr [];
     Date_now := 1704283200000%Z;
     DEBUG := None |}.

Definition sampleExperiment : Experiment :=
  {| x_id := "exp1"; x_name := "Checkout button"; x_type := "AB";
     x_trafficAllocation := 100;
     x_locations :=
       [ {| loc_type := "URL"; loc_matchType := "STARTS_WITH";
            loc_value := "https://shop.example/checkout?step=1" |};
         {| loc_type := "ELEMENT"; loc_matchType := "EXACTLY";
            loc_value := "#buy" |} ];
     x_audiences :=
       [ {| aud_type := "DEVICE_MOBILE"; aud_condition := "INCLUDE";
            aud_operator := "IS"; aud_value := None |} ];
     x_variants :=
       [ {| v_id := "v1"; v_name := "Control"; v_isControl := true;
            v_trafficWeight := 50; v_changes := None |};
         {| v_id := "v2"; v_name := "Green"; v_isControl := false;
            v_trafficWeight := 50; v_changes := Some ["{}"] |} ] |}.

Definition sampleGoal : Goal :=
  {| g_id := "g1"; g_name := "Purchase"; g_type := "URL_VISIT";
     g_urlPattern := Some "/thanks"; g_selector := None;
     g_eventName := None; g_revenueTracking := true;
     g_experimentGoals := ["exp1"] |}.

(** A backend that knows the sample project under its id and its API
    key. *)
Definition serving : Backend :=
  {| project_findFirst := fun projectId =>
       if String.eqb projectId "p1" || String.eqb projectId "key-1"
       then inr (Some sampleProject) else inr None;
     experiment_findMany := fun _ => inr [sampleExperiment];
     goal_findMany := fun _ => inr [sampleGoal];
     Date_now := 1704283200000%Z;
     DEBUG := Some "true" |}.

Definition getConfig (projectId : string) : APIGatewayProxyEvent :=
  {| httpMethod := "GET";
     pathParameters := Some {[ "projectId" := projectId ]} |}.

End ConfigHandler.
(** * Vocabulary of the properties of the config handler *)

(** The path parameter [projectId] of a request, when it is there and not
    empty. *)
Definition requestedProject (event : ConfigHandler.APIGatewayProxyEvent)
    : option string :=
  match ConfigHandler.pathParameters event
        ≫= (fun params => params !! "projectId") with
  | Some "" => None
  | o => o
  end.

(** The types an audience has in the SDK format. *)
Definition sdkAudienceTypes : list string :=
  ["DEVICE"; "BROWSER"; "OS"; "COOKIE"; "QUERY_PARAM"; "JS_VAR"; "GEO";
   "TRAFFIC_SOURCE"; "VISITOR_TYPE"; "TIME"; "OTHER"].

(** The first query of the run that rejects, if one does: the handler
    asks for the project, then for its experiments, then for its goals,
    and stops at the first rejection and when there is no project. *)
Definition firstRejection (b : ConfigHandler.Backend) (projectId : string)
    : option ConfigHandler.Err :=
  match ConfigHandler.project_findFirst b projectId with
  | inl err => Some err
  | inr None => None
  | inr (Some project) =>
      match ConfigHandler.experiment_findMany b
              (ConfigHandler.p_id project) with
      | inl err => Some err
      | inr _ =>
          match ConfigHandler.goal_findMany b
                  (ConfigHandler.p_id project) with
          | inl err => Some err
          | inr _ => None
          end
      end
  end.

(** Two worlds that differ at most in the console. *)
Definition sameButConsole (w1 w2 : World) : Prop :=
  db w1 = db w2 /\ storeCalls w1 = storeCalls w2 /\
  clockReads w1 = clockReads w2.

(** The computation does not read the console: from two worlds that
    differ in the console only it gives the same result and worlds that
    differ in the console only. *)
Definition consoleBlind {A} (m : M A) : Prop :=
  forall w1 w2, sameButConsole w1 w2 ->
    fst (m w1) = fst (m w2) /\ sameButConsole (snd (m w1)) (snd (m w2)).

(** What the handler logs for a record whose body does not decode. *)
Definition invalidJSON (rt : Runtime) (record : FirehoseRecord)
    : ConsoleEntry :=
  ErrorInvalidJSON (base64_utf8 rt (data record)).

(** A record whose body does not decode under the sample runtime. *)
Definition garbledRecord : FirehoseRecord :=
  {| recordId := "record-2"; data := "garbled" |}.

(** * Properties *)

(** ** Reasoning about runs *)

Lemma bind_Ok_inv {A B} (m : M A) (k : A -> M B) w b w' :
  bind m k w = (Ok b, w') ->
  exists a w1, m w = (Ok a, w1) /\ k a w1 = (Ok b, w').
Proof.
  unfold bind. destruct (m w) as [[a|e] w1]; intros H.
  - exists a, w1. split; [reflexivity | exact H].
  - discriminate H.
Qed.

Lemma bind_Throw_inv {A B} (m : M A) (k : A -> M B) w e w' :
  bind m k w = (Throw e, w') ->
  m w = (Throw e, w') \/
  exists a w1, m w = (Ok a, w1) /\ k a w1 = (Throw e, w').
Proof.
  unfold bind. destruct (m w) as [[a|e0] w1]; intros H.
  - right. exists a, w1. split; [reflexivity | exact H].
  - left. inversion H; subst. reflexivity.
Qed.

Lemma bind_Ok_eq {A B} (m : M A) (k : A -> M B) w a w1 :
  m w = (Ok a, w1) -> bind m k w = k a w1.
Proof. unfold bind. intros ->. reflexivity. Qed.

Lemma bind_Throw_eq {A B} (m : M A) (k : A -> M B) w e w1 :
  m w = (Throw e, w1) -> bind m k w = (Throw e, w1).
Proof. unfold bind. intros ->. reflexivity. Qed.

Lemma storeCall_Ok_inv {A} rt op (f : Db -> StoreResult A) w a w' :
  storeCall rt op f w = (Ok a, w') ->
  storeFault rt (storeCalls w) = false /\
  exists d, f (db w) = inr (a, d) /\
            w' = set_db (set_storeCalls w (S (storeCalls w))) d.
Proof.
  unfold storeCall. destruct (storeFault rt (storeCalls w)).
  - discriminate.
  - destruct (f (db w)) as [k|[a0 d]]; intros H; inversion H; subst.
    split; [reflexivity|]. exists d. split; reflexivity.
Qed.

Lemma storeCall_Throw_inv {A} rt op (f : Db -> StoreResult A) w e w' :
  storeCall rt op f w = (Throw e, w') ->
  exn_call e = storeCalls w /\ exn_op e = op /\
  w' = set_storeCalls w (S (storeCalls w)) /\
  (exn_kind e = Rejected \/ f (db w) = inl (exn_kind e)).
Proof.
  unfold storeCall. destruct (storeFault rt (storeCalls w)).
  - intros H; inversion H; subst; simpl. auto.
  - destruct (f (db w)) as [k|[a0 d]]; intros H; inversion H; subst; simpl.
    auto.
Qed.

Lemma sameButVisitor_refl d : sameButVisitor d d.
Proof. repeat split. Qed.

Lemma upsertVisitor_sameButVisitor rt evt w :
  sameButVisitor (db w) (db (snd (upsertVisitor rt evt w))).
Proof.
  unfold upsertVisitor, storeCall, visitor_upsert.
  destruct (storeFault rt (storeCalls w)); simpl.
  - apply sameButVisitor_refl.
  - destruct (visitor (db w) !! _); simpl; repeat split.
Qed.

Lemma processEvent_dropped rt evt w :
  required evt = false ->
  processEvent rt evt w =
  console_push
    (WarnMissingRequiredFields (ev_projectId evt) (ev_visitorId evt)
       (ev_eventType evt)) w.
Proof.
  unfold required, processEvent. intros H.
  destruct (truthy (Some (ev_projectId evt)));
    destruct (truthy (Some (ev_visitorId evt)));
    destruct (truthy (Some (ev_eventType evt)));
    simpl in *; try discriminate; reflexivity.
Qed.

Lemma processEvent_routed rt evt w :
  required evt = true ->
  processEvent rt evt w =
  bind (upsertVisitor rt evt)
    (fun visitor =>
       if String.eqb (ev_eventType evt) "SESSION_START" then
         handleSessionStart rt (v_id visitor) evt
       else if String.eqb (ev_eventType evt) "EXPERIMENT_VIEW" then
         handleExperimentView rt (v_id visitor) evt
       else if String.eqb (ev_eventType evt) "GOAL_CONVERSION" then
         handleGoalConversion rt (v_id visitor) evt
       else if String.eqb (ev_eventType evt) "CUSTOM_EVENT" then
         handleCustomEvent rt (v_id visitor) evt
       else
         handleGenericEvent rt (v_id visitor) evt) w.
Proof.
  unfold required, processEvent. intros H.
  destruct (truthy (Some (ev_projectId evt)));
    destruct (truthy (Some (ev_visitorId evt)));
    destruct (truthy (Some (ev_eventType evt)));
    simpl in *; try discriminate; reflexivity.
Qed.


(** ** Browser classification *)

Example detectBrowser_edge_ua : detectBrowser ua_edge = "edge".
Proof. reflexivity. Qed.

(** C8, as stated, fails: a user agent that contains "Chrome" and "Edg" and
    also "Firefox" is classified "firefox", since the Firefox rule comes
    before the Edg rule. *)
Lemma detectBrowser_chrome_edg_firefox :
  includes ua_edge_firefox "Chrome" = true /\
  includes ua_edge_firefox "Edg" = true /\
  detectBrowser ua_edge_firefox = "firefox" /\
  detectBrowser ua_edge_firefox <> "edge".
Proof. repeat split; try reflexivity. discriminate. Qed.

(** C8, amended: a user agent that contains both "Chrome" and "Edg" is
    never classified "chrome"; it is classified "edge" when it does not
    contain "Firefox", and "firefox" when it does. *)
Theorem detectBrowser_chrome_edg (ua : string) :
  includes ua "Chrome" = true ->
  includes ua "Edg" = true ->
  detectBrowser ua <> "chrome" /\
  (includes ua "Firefox" = false -> detectBrowser ua = "edge") /\
  (includes ua "Firefox" = true -> detectBrowser ua = "firefox").
Proof.
  intros Hc He. unfold detectBrowser. rewrite Hc, He. simpl.
  destruct (includes ua "Firefox"); simpl.
  - repeat split; try discriminate; reflexivity.
  - rewrite andb_false_r. repeat split; try discriminate; reflexivity.
Qed.

Lemma detectBrowser_chrome_edg_witness :
  includes ua_edge "Chrome" = true /\
  includes ua_edge "Edg" = true /\
  detectBrowser ua_edge <> "chrome" /\
  (includes ua_edge "Firefox" = false -> detectBrowser ua_edge = "edge") /\
  (includes ua_edge "Firefox" = true -> detectBrowser ua_edge = "firefox").
Proof.
  split; [reflexivity|]. split; [reflexivity|].
  apply (detectBrowser_chrome_edg ua_edge); reflexivity.
Defined.

(** ** Handlers that return at their guard *)

Lemma handleExperimentView_skip rt id evt w :
  truthy (ev_experimentId evt) && truthy (ev_variantId evt) = false ->
  handleExperimentView rt id evt w = (Ok tt, w).
Proof.
  unfold handleExperimentView. intros H.
  destruct (ev_experimentId evt) as [x|]; [|reflexivity].
  destruct (ev_variantId evt) as [v|]; [|reflexivity].
  destruct (truthy (Some x)); destruct (truthy (Some v));
    simpl in *; try discriminate; reflexivity.
Qed.

(** The goal is absent or the attribution list is absent or empty. *)
Lemma handleGoalConversion_skip rt id evt w :
  truthy (ev_goalId evt) = false \/
  ev_attributedExperiments evt = None \/
  ev_attributedExperiments evt = Some [] ->
  handleGoalConversion rt id evt w = (Ok tt, w).
Proof.
  unfold handleGoalConversion. intros H.
  destruct (ev_goalId evt) as [g|]; [|reflexivity].
  destruct (ev_attributedExperiments evt) as [l|]; [|reflexivity].
  destruct H as [H|[H|H]].
  - rewrite H. reflexivity.
  - discriminate.
  - inversion H; subst. rewrite orb_true_r. reflexivity.
Qed.

Lemma bind_skip {A} (m : M A) (k : A -> M unit) w :
  (forall a w1, k a w1 = (Ok tt, w1)) ->
  bind m k w = bind m (fun _ => ret tt) w.
Proof.
  intros H. unfold bind. destruct (m w) as [[a|e] w1]; [|reflexivity].
  apply H.
Qed.

Lemma upsert_only_sameButVisitor rt evt w :
  sameButVisitor (db w)
    (db (snd (bind (upsertVisitor rt evt) (fun _ => ret tt) w))).
Proof.
  pose proof (upsertVisitor_sameButVisitor rt evt w) as H.
  unfold bind. destruct (upsertVisitor rt evt w) as [[a|e] w1]; exact H.
Qed.

(** C10: an EXPERIMENT_VIEW without experimentId or without variantId makes
    the view handler return at once without a store call; processing the
    event writes what the visitor upsert before the routing writes and
    nothing else, so every table but the visitor table is unchanged. *)
Theorem view_without_ids_writes_visitor_only rt evt w :
  ev_eventType evt = "EXPERIMENT_VIEW" ->
  truthy (ev_experimentId evt) && truthy (ev_variantId evt) = false ->
  (forall id w0, handleExperimentView rt id evt w0 = (Ok tt, w0)) /\
  (required evt = true ->
   processEvent rt evt w =
   bind (upsertVisitor rt evt) (fun _ => ret tt) w) /\
  (required evt = false -> db (snd (processEvent rt evt w)) = db w) /\
  sameButVisitor (db w) (db (snd (processEvent rt evt w))).
Proof.
  intros Hty Hids.
  assert (Hskip : forall id w0,
             handleExperimentView rt id evt w0 = (Ok tt, w0))
    by (intros; apply handleExperimentView_skip; exact Hids).
  assert (Hrouted : required evt = true ->
            processEvent rt evt w =
            bind (upsertVisitor rt evt) (fun _ => ret tt) w).
  { intros Hreq. rewrite processEvent_routed by exact Hreq.
    rewrite Hty. simpl. apply bind_skip. intros a w1. apply Hskip. }
  split; [exact Hskip|]. split; [exact Hrouted|].
  destruct (required evt) eqn:Hreq.
  - split; [discriminate|]. rewrite Hrouted by reflexivity.
    apply upsert_only_sameButVisitor.
  - rewrite processEvent_dropped by exact Hreq. simpl.
    split; [reflexivity | apply sameButVisitor_refl].
Qed.

Lemma view_without_ids_writes_visitor_only_witness :
  ev_eventType viewNoVariant = "EXPERIMENT_VIEW" /\
  truthy (ev_experimentId viewNoVariant)
  && truthy (ev_variantId viewNoVariant) = false /\
  sameButVisitor (db (world0 sampleDb))
    (db (snd (processEvent (sampleRuntime noFault) viewNoVariant
                (world0 sampleDb)))).
Proof.
  split; [reflexivity|]. split; [reflexivity|].
  apply (view_without_ids_writes_visitor_only (sampleRuntime noFault)
           viewNoVariant (world0 sampleDb)); reflexivity.
Defined.

(** C3, as stated, fails: a GOAL_CONVERSION with an empty attribution list
    still creates the visitor row, because the visitor upsert runs before
    the routing. *)
Lemma conversion_without_attribution_creates_visitor :
  ev_eventType conversionNone = "GOAL_CONVERSION" /\
  ev_attributedExperiments conversionNone = Some [] /\
  visitor (db (world0 sampleDb)) !! ("p1", "vis1") = None /\
  (v_pageViews <$>
   visitor (db (snd (processEvent (sampleRuntime noFault) conversionNone
                       (world0 sampleDb)))) !! ("p1", "vis1")) = Some 1%Z /\
  storeCalls (snd (processEvent (sampleRuntime noFault) conversionNone
                     (world0 sampleDb))) = 1.
Proof. vm_compute. repeat split. Qed.

(** C3, amended: for a GOAL_CONVERSION whose goalId is absent or whose
    attribution list is absent or empty, the conversion handler returns at
    once without a store call; processing the event writes what the visitor
    upsert before the routing writes and nothing else: no GoalConversion,
    Event or LiveLog row and no counter increment. *)
Theorem conversion_without_attribution_writes_visitor_only rt evt w :
  ev_eventType evt = "GOAL_CONVERSION" ->
  (truthy (ev_goalId evt) = false \/
   ev_attributedExperiments evt = None \/
   ev_attributedExperiments evt = Some []) ->
  (forall id w0, handleGoalConversion rt id evt w0 = (Ok tt, w0)) /\
  (required evt = true ->
   processEvent rt evt w =
   bind (upsertVisitor rt evt) (fun _ => ret tt) w) /\
  (required evt = false -> db (snd (processEvent rt evt w)) = db w) /\
  sameButVisitor (db w) (db (snd (processEvent rt evt w))).
Proof.
  intros Hty Hnone.
  assert (Hskip : forall id w0,
             handleGoalConversion rt id evt w0 = (Ok tt, w0))
    by (intros; apply handleGoalConversion_skip; exact Hnone).
  assert (Hrouted : required evt = true ->
            processEvent rt evt w =
            bind (upsertVisitor rt evt) (fun _ => ret tt) w).
  { intros Hreq. rewrite processEvent_routed by exact Hreq.
    rewrite Hty. simpl. apply bind_skip. intros a w1. apply Hskip. }
  split; [exact Hskip|]. split; [exact Hrouted|].
  destruct (required evt) eqn:Hreq.
  - split; [discriminate|]. rewrite Hrouted by reflexivity.
    apply upsert_only_sameButVisitor.
  - rewrite processEvent_dropped by exact Hreq. simpl.
    split; [reflexivity | apply sameButVisitor_refl].
Qed.

Lemma conversion_without_attribution_writes_visitor_only_witness :
  ev_eventType conversionNone = "GOAL_CONVERSION" /\
  ev_attributedExperiments conversionNone = Some [] /\
  sameButVisitor (db (world0 sampleDb))
    (db (snd (processEvent (sampleRuntime noFault) conversionNone
                (world0 sampleDb)))).
Proof.
  split; [reflexivity|]. split; [reflexivity|].
  apply (conversion_without_attribution_writes_visitor_only
           (sampleRuntime noFault) conversionNone (world0 sampleDb));
    [reflexivity | right; right; reflexivity].
Defined.

(** ** Session starts *)

Lemma storeCall_Throw_db {A} rt op (f : Db -> StoreResult A) w e w' :
  storeCall rt op f w = (Throw e, w') -> db w' = db w.
Proof.
  intros H. apply storeCall_Throw_inv in H as (_ & _ & -> & _). reflexivity.
Qed.

Lemma upsertVisitor_event rt evt w r w' :
  upsertVisitor rt evt w = (r, w') -> event (db w') = event (db w).
Proof.
  intros H. pose proof (upsertVisitor_sameButVisitor rt evt w) as Hs.
  rewrite H in Hs. apply Hs.
Qed.

Lemma handleSessionStart_rows rt id evt w r w' :
  handleSessionStart rt id evt w = (r, w') ->
  exists rows,
    event (db w') = (event (db w) ++ rows)%list /\
    Forall (fun r => e_eventType r = "PAGE_VIEW" /\
                     e_eventData r =
                     SessionData (ev_sessionId evt) (ev_referrer evt) true)
           rows /\
    length rows <= 1 /\
    (r = Ok tt -> length rows = 1).
Proof.
  unfold handleSessionStart, bind.
  destruct (storeCall rt VisitorUpdate _ w) as [[[]|e] w1] eqn:E1.
  - apply storeCall_Ok_inv in E1 as (_ & d & Hd & ->).
    unfold visitor_update in Hd.
    destruct (visitor (db w) !! id); inversion Hd; subst; clear Hd.
    match goal with
    | |- storeCall _ _ ?f ?w0 = _ -> _ =>
        destruct (storeCall rt EventCreate f w0) as [[[]|e] w2] eqn:E2
    end; intros H; inversion H; subst; clear H.
    + apply storeCall_Ok_inv in E2 as (_ & d & Hd & ->).
      inversion Hd; subst; clear Hd. simpl.
      eexists (cons _ nil). split; [reflexivity|].
      split; [constructor; [split; reflexivity | constructor] |].
      split; [simpl; lia | reflexivity].
    + apply storeCall_Throw_db in E2. rewrite E2. simpl.
      exists []. rewrite app_nil_r. split; [reflexivity|].
      split; [constructor|]. split; [simpl; lia | discriminate].
  - intros H; inversion H; subst; clear H.
    apply storeCall_Throw_db in E1. rewrite E1.
    exists []. rewrite app_nil_r. split; [reflexivity|].
    split; [constructor|]. split; [simpl; lia | discriminate].
Qed.

(** A SESSION_START whose three store calls are taken is processed to its
    end and appends its row. *)
Lemma processEvent_session_start_run rt evt w :
  ev_eventType evt = "SESSION_START" ->
  required evt = true ->
  (forall i, i < 3 -> storeFault rt (i + storeCalls w) = false) ->
  exists w',
    processEvent rt evt w = (Ok tt, w') /\
    event (db w')
    = (event (db w)
       ++ [ {| e_projectId := ev_projectId evt;
               e_visitorId := (ev_projectId evt, ev_visitorId evt);
               e_experimentId := None;
               e_variantId := None;
               e_eventType := "PAGE_VIEW";
               e_eventName := None;
               e_pageUrl := ev_url evt;
               e_eventData :=
                 SessionData (ev_sessionId evt) (ev_referrer evt) true |} ])%list.
Proof.
  intros Hty Hreq Hf.
  assert (Hf0 := Hf 0 ltac:(lia)). assert (Hf1 := Hf 1 ltac:(lia)).
  assert (Hf2 := Hf 2 ltac:(lia)). simpl in Hf0, Hf1, Hf2.
  rewrite processEvent_routed by exact Hreq. rewrite Hty. simpl.
  unfold upsertVisitor, handleSessionStart, bind, storeCall.
  rewrite Hf0. unfold visitor_upsert.
  match goal with
  | |- context [@lookup ?K ?V ?T ?I ?k ?m] => destruct (@lookup K V T I k m)
  end;
    cbn [v_id fst snd storeCalls set_db set_storeCalls db];
    rewrite Hf1; unfold visitor_update;
    cbn [visitor set_visitor db set_db set_storeCalls];
    rewrite lookup_insert_eq;
    cbn [storeCalls set_db set_storeCalls]; rewrite Hf2;
    unfold event_create; eexists; (split; [reflexivity|]); reflexivity.
Qed.

(** C9: the Event row appended for a SESSION_START carries the event type
    "PAGE_VIEW" and the marker isSessionStart in its payload; no other
    Event row is appended for it, and the row is there whenever the event
    is processed without a throw.  When the event has its three
    correlation fields and the store takes its three calls, the event is
    processed without a throw and the row is appended: it is the row with
    the project and the visitor of the event, the event type "PAGE_VIEW",
    the URL of the event, and the session id, the referrer and
    isSessionStart = true as its payload. *)
Theorem session_start_row_is_page_view rt evt w :
  ev_eventType evt = "SESSION_START" ->
  exists rows,
    event (db (snd (processEvent rt evt w))) = (event (db w) ++ rows)%list /\
    Forall (fun r => e_eventType r = "PAGE_VIEW" /\
                     e_eventData r =
                     SessionData (ev_sessionId evt) (ev_referrer evt) true)
           rows /\
    length rows <= 1 /\
    (required evt = true ->
     fst (processEvent rt evt w) = Ok tt -> length rows = 1) /\
    (required evt = true ->
     (forall i, i < 3 -> storeFault rt (i + storeCalls w) = false) ->
     fst (processEvent rt evt w) = Ok tt /\
     rows
     = [ {| e_projectId := ev_projectId evt;
            e_visitorId := (ev_projectId evt, ev_visitorId evt);
            e_experimentId := None;
            e_variantId := None;
            e_eventType := "PAGE_VIEW";
            e_eventName := None;
            e_pageUrl := ev_url evt;
            e_eventData :=
              SessionData (ev_sessionId evt) (ev_referrer evt) true |} ]).
Proof.
  intros Hty.
  assert (Hrows : exists rows,
    event (db (snd (processEvent rt evt w))) = (event (db w) ++ rows)%list /\
    Forall (fun r => e_eventType r = "PAGE_VIEW" /\
                     e_eventData r =
                     SessionData (ev_sessionId evt) (ev_referrer evt) true)
           rows /\
    length rows <= 1 /\
    (required evt = true ->
     fst (processEvent rt evt w) = Ok tt -> length rows = 1)).
  { destruct (required evt) eqn:Hreq.
    - rewrite processEvent_routed by exact Hreq. rewrite Hty. simpl.
      unfold bind.
      destruct (upsertVisitor rt evt w) as [[a|e] w1] eqn:E1.
      + apply upsertVisitor_event in E1. rewrite <- E1.
        destruct (handleSessionStart rt (v_id a) evt w1) as [r w2] eqn:E2.
        apply handleSessionStart_rows in E2 as (rows & H1 & H2 & H3 & H4).
        exists rows. simpl. repeat split; auto.
      + apply upsertVisitor_event in E1. simpl. rewrite E1.
        exists []. rewrite app_nil_r. split; [reflexivity|].
        split; [constructor|]. split; [simpl; lia | discriminate].
    - rewrite processEvent_dropped by exact Hreq. simpl.
      exists []. rewrite app_nil_r. split; [reflexivity|].
      split; [constructor|]. split; [simpl; lia | discriminate]. }
  destruct Hrows as (rows & H1 & H2 & H3 & H4).
  exists rows. split; [exact H1|]. split; [exact H2|].
  split; [exact H3|]. split; [exact H4|].
  intros Hreq Hf.
  destruct (processEvent_session_start_run rt evt w Hty Hreq Hf)
    as (w' & Hrun & Hev).
  rewrite Hrun in *. split; [reflexivity|].
  simpl in H1. rewrite Hev in H1. apply app_inv_head in H1.
  symmetry. exact H1.
Qed.

Lemma session_start_row_is_page_view_witness :
  ev_eventType sessionStart1 = "SESSION_START" /\
  required sessionStart1 = true /\
  fst (processEvent (sampleRuntime noFault) sessionStart1 (world0 sampleDb))
  = Ok tt /\
  event (db (snd (processEvent (sampleRuntime noFault) sessionStart1
                    (world0 sampleDb))))
  = [ {| e_projectId := "p1";
         e_visitorId := ("p1", "vis1");
         e_experimentId := None;
         e_variantId := None;
         e_eventType := "PAGE_VIEW";
         e_eventName := None;
         e_pageUrl := "https://shop.example/";
         e_eventData := SessionData "s1" None true |} ].
Proof.
  split; [reflexivity|]. split; [reflexivity|].
  destruct (session_start_row_is_page_view (sampleRuntime noFault)
              sessionStart1 (world0 sampleDb) eq_refl)
    as (rows & Hev & _ & _ & _ & Hrun).
  destruct (Hrun eq_refl) as [Hok Hrows]; [intros i _; reflexivity|].
  split; [exact Hok|]. rewrite Hev, Hrows. reflexivity.
Defined.

(** ** Frame rules: what a computation leaves alone *)

Section Keeps.

Context {T : Type} (proj : Db -> T).

Lemma keeps_ret {A} (a : A) : keeps proj (ret a).
Proof. intros w. reflexivity. Qed.

Lemma keeps_bind {A B} (m : M A) (k : A -> M B) :
  keeps proj m -> (forall a, keeps proj (k a)) -> keeps proj (bind m k).
Proof.
  intros Hm Hk w. unfold bind. specialize (Hm w).
  destruct (m w) as [[a|e] w1]; simpl in *.
  - rewrite Hk. exact Hm.
  - exact Hm.
Qed.

Lemma keeps_try_catch {A} (m : M A) (h : Exn -> M A) :
  keeps proj m -> (forall e, keeps proj (h e)) ->
  keeps proj (try_catch m h).
Proof.
  intros Hm Hh w. unfold try_catch. specialize (Hm w).
  destruct (m w) as [[a|e] w1]; simpl in *.
  - exact Hm.
  - rewrite Hh. exact Hm.
Qed.

Lemma keeps_console_push c : keeps proj (console_push c).
Proof. intros w. reflexivity. Qed.

Lemma keeps_now rt : keeps proj (now rt).
Proof. intros w. reflexivity. Qed.

Lemma keeps_storeCall {A} rt op (f : Db -> StoreResult A) :
  (forall d a d', f d = inr (a, d') -> proj d' = proj d) ->
  keeps proj (storeCall rt op f).
Proof.
  intros Hf w. unfold storeCall.
  destruct (storeFault rt (storeCalls w)); [reflexivity|].
  destruct (f (db w)) as [k|[a d]] eqn:E; [reflexivity|].
  simpl. eapply Hf. exact E.
Qed.

Lemma keeps_forEach {A} (l : list A) (body : A -> M unit) :
  (forall x, keeps proj (body x)) -> keeps proj (forEach l body).
Proof.
  intros Hb. induction l as [|x l IH]; simpl.
  - apply keeps_ret.
  - apply keeps_bind; [apply Hb | intros _; exact IH].
Qed.

End Keeps.

(** The store operation [f] does not change the part [proj] of the store;
    closes the side condition of [keeps_storeCall]. *)
Ltac store_frame :=
  let d := fresh "d" in
  let a := fresh "a" in
  let d' := fresh "d'" in
  let H := fresh "H" in
  intros d a d' H;
  unfold visitor_upsert, visitor_update, event_create,
    variantAssignment_findUnique, variantAssignment_create,
    variant_update, experiment_update, goalConversion_create,
    experimentGoal_updateMany, experimentDailyStat_upsert,
    liveLog_create in H;
  repeat case_match; inversion H; subst; reflexivity.

Ltac keeps_step :=
  first
    [ apply keeps_ret
    | apply keeps_console_push
    | apply keeps_now
    | apply keeps_bind; [|intros ?]
    | apply keeps_try_catch; [|intros ?]
    | apply keeps_forEach; intros ?
    | apply keeps_storeCall; store_frame ].

Lemma keeps_updateDailyStat {T} (proj : Db -> T) rt x field revenue :
  (forall d s, proj (set_experimentDailyStat d s) = proj d) ->
  keeps proj (updateDailyStat rt x field revenue).
Proof.
  intros Hp. unfold updateDailyStat.
  apply keeps_bind; [apply keeps_now | intros t].
  apply keeps_try_catch; [|intros e; apply keeps_console_push].
  apply keeps_storeCall. intros d a d' H.
  unfold experimentDailyStat_upsert in H.
  destruct (experimentDailyStat d !! _); inversion H; subst; apply Hp.
Qed.

Lemma handleExperimentView_keeps_visitor rt id evt :
  keeps visitor (handleExperimentView rt id evt).
Proof.
  unfold handleExperimentView.
  destruct (ev_experimentId evt) as [x|]; [|apply keeps_ret].
  destruct (ev_variantId evt) as [v|]; [|apply keeps_ret].
  destruct (negb (truthy (Some x)) || negb (truthy (Some v)));
    [apply keeps_ret|].
  apply keeps_bind; [keeps_step | intros [va|]].
  - repeat keeps_step.
  - apply keeps_bind.
    + apply keeps_bind; [keeps_step | intros ?].
      apply keeps_bind; [keeps_step | intros ?].
      apply keeps_bind; [keeps_step | intros ?].
      apply keeps_updateDailyStat. reflexivity.
    + intros ?. repeat keeps_step.
Qed.

Lemma convertOne_keeps_visitor rt id evt g exp :
  keeps visitor (convertOne rt id evt g exp).
Proof.
  unfold convertOne.
  do 4 (apply keeps_bind; [keeps_step | intros ?]).
  apply keeps_bind; [apply keeps_updateDailyStat; reflexivity | intros ?].
  repeat keeps_step.
Qed.

Lemma handleGoalConversion_keeps_visitor rt id evt :
  keeps visitor (handleGoalConversion rt id evt).
Proof.
  unfold handleGoalConversion.
  destruct (ev_goalId evt) as [g|]; [|apply keeps_ret].
  destruct (ev_attributedExperiments evt) as [l|]; [|apply keeps_ret].
  destruct (negb (truthy (Some g)) || (length l =? 0)%nat);
    [apply keeps_ret|].
  apply keeps_forEach. intros exp. apply convertOne_keeps_visitor.
Qed.

Lemma handleCustomEvent_keeps_visitor rt id evt :
  keeps visitor (handleCustomEvent rt id evt).
Proof. unfold handleCustomEvent. keeps_step. Qed.

Lemma handleGenericEvent_keeps_visitor rt id evt :
  keeps visitor (handleGenericEvent rt id evt).
Proof. unfold handleGenericEvent. keeps_step. Qed.

(** ** Visitors *)

Lemma upsertVisitor_Ok rt evt w a w1 :
  upsertVisitor rt evt w = (Ok a, w1) ->
  let key : VisitorDbId := (ev_projectId evt, ev_visitorId evt) in
  v_id a = key /\
  visitor (db w1) = <[key := snd a]> (visitor (db w)) /\
  match visitor (db w) !! key with
  | None =>
      v_visitCount (snd a) = 1%Z /\ v_pageViews (snd a) = 1%Z /\
      v_firstSeen (snd a) = Date_parse rt (ev_timestamp evt) /\
      v_lastSeen (snd a) = Date_parse rt (ev_timestamp evt)
  | Some row =>
      v_visitCount (snd a) = v_visitCount row /\
      v_pageViews (snd a) = (v_pageViews row + 1)%Z /\
      v_firstSeen (snd a) = v_firstSeen row /\
      v_lastSeen (snd a) = Date_parse rt (ev_timestamp evt)
  end.
Proof.
  unfold upsertVisitor. intros H.
  apply storeCall_Ok_inv in H as (_ & d & Hd & ->).
  unfold visitor_upsert in Hd. cbv zeta.
  destruct (visitor (db w) !! _);
    inversion Hd; subst; simpl; repeat split; reflexivity.
Qed.

Lemma handleSessionStart_Ok rt id evt w w' :
  handleSessionStart rt id evt w = (Ok tt, w') ->
  exists row, visitor (db w) !! id = Some row /\
              visitor (db w') = <[id := incr_visitCount row]> (visitor (db w)).
Proof.
  unfold handleSessionStart. intros H.
  apply bind_Ok_inv in H as ([] & w1 & H1 & H2).
  apply storeCall_Ok_inv in H1 as (_ & d & Hd & ->).
  apply storeCall_Ok_inv in H2 as (_ & d2 & Hd2 & ->).
  unfold visitor_update in Hd.
  destruct (visitor (db w) !! id) as [row|] eqn:E; inversion Hd; subst.
  inversion Hd2; subst. exists row. split; reflexivity.
Qed.

(** C7, as stated, fails: when the first event of a visitor is a
    SESSION_START, the row is created with visitCount 1 and the session
    handler increments it at once, so the event leaves visitCount 2. *)
Lemma first_session_start_leaves_visitCount_2 :
  required sessionStart1 = true /\
  visitor (db (world0 sampleDb)) !! ("p1", "vis1") = None /\
  fst (processEvent (sampleRuntime noFault) sessionStart1
         (world0 sampleDb)) = Ok tt /\
  (v_visitCount <$>
   visitor (db (snd (processEvent (sampleRuntime noFault) sessionStart1
                       (world0 sampleDb)))) !! ("p1", "vis1")) = Some 2%Z.
Proof. vm_compute. repeat split. Qed.

(** C7, amended: processing an event that has its required fields, without
    a throw, leaves a row for (projectId, visitorId).  If there was none,
    the upsert creates it with visitCount 1, pageViews 1 and firstSeen and
    lastSeen at the event timestamp; the session handler then adds 1 to
    visitCount when the event is a SESSION_START, so that the event leaves
    visitCount 2 in that case and 1 otherwise.  If there was one, lastSeen
    is the event timestamp, pageViews is one more, firstSeen is unchanged,
    and visitCount is unchanged, plus 1 when the event is a
    SESSION_START. *)
Theorem visitor_row_after_event rt evt w w' :
  required evt = true ->
  processEvent rt evt w = (Ok tt, w') ->
  let key : VisitorDbId := (ev_projectId evt, ev_visitorId evt) in
  let started :=
    if String.eqb (ev_eventType evt) "SESSION_START" then 1%Z else 0%Z in
  exists upserted w0 row',
    upsertVisitor rt evt w = (Ok (key, upserted), w0) /\
    visitor (db w0) !! key = Some upserted /\
    visitor (db w') !! key = Some row' /\
    match visitor (db w) !! key with
    | None =>
        v_visitCount upserted = 1%Z /\
        v_visitCount row' = (1 + started)%Z /\
        v_pageViews row' = 1%Z /\
        v_firstSeen row' = Date_parse rt (ev_timestamp evt) /\
        v_lastSeen row' = Date_parse rt (ev_timestamp evt)
    | Some row =>
        v_visitCount upserted = v_visitCount row /\
        v_visitCount row' = (v_visitCount row + started)%Z /\
        v_pageViews row' = (v_pageViews row + 1)%Z /\
        v_firstSeen row' = v_firstSeen row /\
        v_lastSeen row' = Date_parse rt (ev_timestamp evt)
    end.
Proof.
  intros Hreq H key started.
  rewrite processEvent_routed in H by exact Hreq.
  apply bind_Ok_inv in H as ([id upserted] & w1 & Hup & Hh).
  apply upsertVisitor_Ok in Hup as Hfacts.
  destruct Hfacts as (Hid & Hv1 & Hrow).
  fold key in Hid, Hv1, Hrow. simpl in Hid, Hv1, Hrow. subst id.
  simpl in Hh.
  assert (Hlook : visitor (db w1) !! key = Some upserted)
    by (rewrite Hv1; apply lookup_insert_eq).
  exists upserted, w1.
  subst started.
  destruct (String.eqb (ev_eventType evt) "SESSION_START").
  - apply handleSessionStart_Ok in Hh as (row1 & Hr1 & Hv').
    rewrite Hlook in Hr1. inversion Hr1; subst row1.
    exists (incr_visitCount upserted).
    split; [exact Hup|]. split; [exact Hlook|]. split.
    + rewrite Hv'. apply lookup_insert_eq.
    + destruct (visitor (db w) !! key); simpl;
        destruct Hrow as (-> & -> & -> & ->); repeat split; lia.
  - assert (Hk : visitor (db w') = visitor (db w1)).
    { destruct (String.eqb (ev_eventType evt) "EXPERIMENT_VIEW").
      { pose proof (handleExperimentView_keeps_visitor rt key evt w1) as K.
        rewrite Hh in K. exact K. }
      destruct (String.eqb (ev_eventType evt) "GOAL_CONVERSION").
      { pose proof (handleGoalConversion_keeps_visitor rt key evt w1) as K.
        rewrite Hh in K. exact K. }
      destruct (String.eqb (ev_eventType evt) "CUSTOM_EVENT").
      { pose proof (handleCustomEvent_keeps_visitor rt key evt w1) as K.
        rewrite Hh in K. exact K. }
      pose proof (handleGenericEvent_keeps_visitor rt key evt w1) as K.
      rewrite Hh in K. exact K. }
    exists upserted.
    split; [exact Hup|]. split; [exact Hlook|]. split.
    + rewrite Hk. exact Hlook.
    + destruct (visitor (db w) !! key);
        destruct Hrow as (-> & -> & -> & ->); repeat split; lia.
Qed.

Lemma visitor_row_after_event_witness :
  required sessionStart1 = true /\
  fst (processEvent (sampleRuntime noFault) sessionStart1
         (world0 sampleDb)) = Ok tt /\
  exists row',
    visitor (db (snd (processEvent (sampleRuntime noFault) sessionStart1
                        (world0 sampleDb)))) !! ("p1", "vis1") = Some row' /\
    v_visitCount row' = 2%Z /\ v_pageViews row' = 1%Z /\
    v_firstSeen row' = Some 1704110400000%Z /\
    v_lastSeen row' = Some 1704110400000%Z.
Proof.
  split; [reflexivity|]. split; [reflexivity|].
  destruct (visitor_row_after_event (sampleRuntime noFault) sessionStart1
              (world0 sampleDb)
              (snd (processEvent (sampleRuntime noFault) sessionStart1
                      (world0 sampleDb))))
    as (upserted & w0 & row' & _ & _ & Hrow & Hfields);
    [reflexivity | reflexivity |].
  exists row'. split; [exact Hrow|].
  destruct Hfields as (_ & Hfields). exact Hfields.
Defined.

(** ** Daily statistics *)

Lemma updateDailyStat_run rt x field revenue w :
  let key : string * Z := (x, setHours0 rt (Date_now rt (clockReads w))) in
  exists w',
    updateDailyStat rt x field revenue w = (Ok tt, w') /\
    clockReads w' = S (clockReads w) /\
    storeCalls w' = S (storeCalls w) /\
    ((storeFault rt (storeCalls w) = false /\
      console w' = console w /\
      db w' = set_experimentDailyStat (db w)
                (<[key := touched field revenue
                            (experimentDailyStat (db w) !! key)]>
                   (experimentDailyStat (db w)))) \/
     (storeFault rt (storeCalls w) = true /\
      db w' = db w /\
      exists e, console w' = (console w ++ [ErrorDailyStatUpdate e])%list)).
Proof.
  intros key. unfold updateDailyStat, bind, now, try_catch, storeCall.
  simpl. destruct (storeFault rt (storeCalls w)) eqn:Hf.
  - eexists. split; [reflexivity|]. simpl.
    split; [reflexivity|]. split; [reflexivity|].
    right. split; [reflexivity|]. split; [reflexivity|].
    eexists. reflexivity.
  - unfold experimentDailyStat_upsert. fold key.
    destruct (experimentDailyStat (db w) !! key) eqn:E; simpl;
      (eexists; split; [reflexivity|]; simpl;
       split; [reflexivity|]; split; [reflexivity|];
       left; split; [reflexivity|]; split; reflexivity).
Qed.

(** ** Invariants of runs *)

Section Steps.

Context (R : World -> World -> Prop).
Hypothesis Rrefl : forall w, R w w.
Hypothesis Rtrans : forall a b c, R a b -> R b c -> R a c.

Lemma steps_ret {A} (a : A) : steps R (ret a).
Proof. intros w. apply Rrefl. Qed.

Lemma steps_bind {A B} (m : M A) (k : A -> M B) :
  steps R m -> (forall a, steps R (k a)) -> steps R (bind m k).
Proof.
  intros Hm Hk w. unfold bind. specialize (Hm w).
  destruct (m w) as [[a|e] w1]; simpl in *.
  - eapply Rtrans; [exact Hm | apply Hk].
  - exact Hm.
Qed.

Lemma steps_try_catch {A} (m : M A) (h : Exn -> M A) :
  steps R m -> (forall e, steps R (h e)) -> steps R (try_catch m h).
Proof.
  intros Hm Hh w. unfold try_catch. specialize (Hm w).
  destruct (m w) as [[a|e] w1]; simpl in *.
  - exact Hm.
  - eapply Rtrans; [exact Hm | apply Hh].
Qed.

Lemma steps_forEach {A} (l : list A) (body : A -> M unit) :
  (forall x, In x l -> steps R (body x)) -> steps R (forEach l body).
Proof.
  induction l as [|x l IH]; simpl; intros Hb.
  - apply steps_ret.
  - apply steps_bind; [apply Hb; left; reflexivity |].
    intros _. apply IH. intros y Hy. apply Hb. right. exact Hy.
Qed.

(** A store call relates the worlds when counting the call does and when the
    effect of the operation does. *)
Lemma steps_storeCall {A} rt op (f : Db -> StoreResult A) :
  (forall w, R w (set_storeCalls w (S (storeCalls w)))) ->
  (forall w a d, f (db w) = inr (a, d) ->
                 R w (set_db (set_storeCalls w (S (storeCalls w))) d)) ->
  steps R (storeCall rt op f).
Proof.
  intros Hc Hf w. unfold storeCall.
  destruct (storeFault rt (storeCalls w)); [apply Hc|].
  destruct (f (db w)) as [k|[a d]] eqn:E; [apply Hc|].
  simpl. eapply Hf. exact E.
Qed.

End Steps.

Lemma dailyTouches_refl rt ids w : dailyTouches rt ids w w.
Proof. split; [lia|]. intros key. left. reflexivity. Qed.

Lemma dailyTouches_trans rt ids a b c :
  dailyTouches rt ids a b -> dailyTouches rt ids b c ->
  dailyTouches rt ids a c.
Proof.
  intros [Hab Kab] [Hbc Kbc]. split; [lia|]. intros key.
  destruct (Kbc key) as [E2|(Hin & n & Hn & Hk)].
  - destruct (Kab key) as [E1|(Hin & n & Hn & Hk)].
    + left. congruence.
    + right. split; [exact Hin|]. exists n. split; [lia | exact Hk].
  - right. split; [exact Hin|]. exists n. split; [lia | exact Hk].
Qed.

(** Store calls that leave the daily statistics alone. *)
Lemma dailyTouches_storeCall {A} rt ids op (f : Db -> StoreResult A) :
  (forall d a d', f d = inr (a, d') ->
                  experimentDailyStat d' = experimentDailyStat d) ->
  steps (dailyTouches rt ids) (storeCall rt op f).
Proof.
  intros Hf. apply steps_storeCall.
  - intros w. split; [simpl; lia|]. intros key. left. reflexivity.
  - intros w a d E. split; [simpl; lia|]. intros key. left. simpl.
    rewrite (Hf _ _ _ E). reflexivity.
Qed.

Lemma dailyTouches_now rt ids : steps (dailyTouches rt ids) (now rt).
Proof. intros w. split; [simpl; lia|]. intros key. left. reflexivity. Qed.

Lemma dailyTouches_console_push rt ids c :
  steps (dailyTouches rt ids) (console_push c).
Proof. intros w. split; [simpl; lia|]. intros key. left. reflexivity. Qed.

Lemma dailyTouches_updateDailyStat rt ids x field revenue :
  In x ids ->
  steps (dailyTouches rt ids) (updateDailyStat rt x field revenue).
Proof.
  intros Hin w.
  destruct (updateDailyStat_run rt x field revenue w)
    as (w' & -> & Hc & _ & [(_ & _ & Hdb)|(_ & Hdb & _)]); simpl.
  - split; [lia|]. intros key. rewrite Hdb. simpl.
    destruct (decide
                (key = (x, setHours0 rt (Date_now rt (clockReads w)))))
      as [->|Hne].
    + right. split; [exact Hin|]. exists (clockReads w).
      split; [lia | reflexivity].
    + left. apply lookup_insert_ne. congruence.
  - split; [lia|]. intros key. left. rewrite Hdb. reflexivity.
Qed.

Ltac daily_step :=
  first
    [ apply steps_ret; apply dailyTouches_refl
    | apply dailyTouches_console_push
    | apply dailyTouches_now
    | apply dailyTouches_storeCall; store_frame
    | apply steps_bind; [apply dailyTouches_trans | | intros ?]
    | apply steps_try_catch;
      [apply dailyTouches_trans | | intros ?] ].

Lemma dailyTouches_upsertVisitor rt ids evt :
  steps (dailyTouches rt ids) (upsertVisitor rt evt).
Proof. unfold upsertVisitor. daily_step. Qed.

Lemma dailyTouches_handleSessionStart rt ids id evt :
  steps (dailyTouches rt ids) (handleSessionStart rt id evt).
Proof. unfold handleSessionStart. repeat daily_step. Qed.

Lemma dailyTouches_handleExperimentView rt id evt :
  steps (dailyTouches rt (eventExperiments evt))
        (handleExperimentView rt id evt).
Proof.
  unfold handleExperimentView, eventExperiments.
  destruct (ev_experimentId evt) as [x|];
    [|apply steps_ret; apply dailyTouches_refl].
  destruct (ev_variantId evt) as [v|];
    [|apply steps_ret; apply dailyTouches_refl].
  destruct (negb (truthy (Some x)) || negb (truthy (Some v)));
    [apply steps_ret; apply dailyTouches_refl|].
  daily_step; [daily_step|]. destruct a as [va|].
  - repeat daily_step.
  - daily_step.
    + do 3 (daily_step; [daily_step|]).
      apply dailyTouches_updateDailyStat. left. reflexivity.
    + repeat daily_step.
Qed.

Lemma dailyTouches_convertOne rt ids id evt g exp :
  In (ae_experimentId exp) ids ->
  steps (dailyTouches rt ids) (convertOne rt id evt g exp).
Proof.
  intros Hin. unfold convertOne.
  do 4 (daily_step; [daily_step|]).
  daily_step; [apply dailyTouches_updateDailyStat; exact Hin|].
  repeat daily_step.
Qed.

Lemma dailyTouches_handleGoalConversion rt id evt :
  steps (dailyTouches rt (eventExperiments evt))
        (handleGoalConversion rt id evt).
Proof.
  unfold handleGoalConversion, eventExperiments.
  destruct (ev_goalId evt) as [g|];
    [|apply steps_ret; apply dailyTouches_refl].
  destruct (ev_attributedExperiments evt) as [l|];
    [|apply steps_ret; apply dailyTouches_refl].
  destruct (negb (truthy (Some g)) || (length l =? 0)%nat);
    [apply steps_ret; apply dailyTouches_refl|].
  apply steps_forEach;
    [apply dailyTouches_refl | apply dailyTouches_trans |].
  intros exp Hexp. apply dailyTouches_convertOne.
  apply in_or_app. right. apply in_map. exact Hexp.
Qed.

Lemma dailyTouches_processEvent rt evt :
  steps (dailyTouches rt (eventExperiments evt)) (processEvent rt evt).
Proof.
  unfold processEvent.
  destruct (negb (truthy (Some (ev_projectId evt)))
            || negb (truthy (Some (ev_visitorId evt)))
            || negb (truthy (Some (ev_eventType evt)))).
  - apply dailyTouches_console_push.
  - apply steps_bind;
      [apply dailyTouches_trans | apply dailyTouches_upsertVisitor
      | intros a].
    destruct (String.eqb (ev_eventType evt) "SESSION_START");
      [apply dailyTouches_handleSessionStart|].
    destruct (String.eqb (ev_eventType evt) "EXPERIMENT_VIEW");
      [apply dailyTouches_handleExperimentView|].
    destruct (String.eqb (ev_eventType evt) "GOAL_CONVERSION");
      [apply dailyTouches_handleGoalConversion|].
    destruct (String.eqb (ev_eventType evt) "CUSTOM_EVENT").
    + unfold handleCustomEvent. daily_step.
    + unfold handleGenericEvent. daily_step.
Qed.

(** ** Two runs that differ in the timestamp of the event *)

Lemma inStep_ret {A B} (Q : A -> B -> Prop) a b :
  Q a b -> inStep Q (ret a) (ret b).
Proof. intros HQ w1 w2 HR. split; [exact HR | exact HQ]. Qed.

Lemma inStep_bind {A B A' B'} (Q : A -> B -> Prop) (Q' : A' -> B' -> Prop)
    (m1 : M A) (m2 : M B) (k1 : A -> M A') (k2 : B -> M B') :
  inStep Q m1 m2 ->
  (forall a b, Q a b -> inStep Q' (k1 a) (k2 b)) ->
  inStep Q' (bind m1 k1) (bind m2 k2).
Proof.
  intros Hm Hk w1 w2 HR. unfold bind. specialize (Hm w1 w2 HR).
  destruct (m1 w1) as [[a|e1] w1']; destruct (m2 w2) as [[b|e2] w2'];
    simpl in Hm; destruct Hm as [HR' HQ]; try contradiction.
  - apply Hk; assumption.
  - simpl. split; assumption.
Qed.

Lemma inStep_try_catch {A B} (Q : A -> B -> Prop)
    (m1 : M A) (m2 : M B) (h1 : Exn -> M A) (h2 : Exn -> M B) :
  inStep Q m1 m2 ->
  (forall e, inStep Q (h1 e) (h2 e)) ->
  inStep Q (try_catch m1 h1) (try_catch m2 h2).
Proof.
  intros Hm Hh w1 w2 HR. unfold try_catch. specialize (Hm w1 w2 HR).
  destruct (m1 w1) as [[a|e1] w1']; destruct (m2 w2) as [[b|e2] w2'];
    simpl in Hm; destruct Hm as [HR' HQ]; try contradiction.
  - simpl. split; assumption.
  - subst e2. apply Hh. exact HR'.
Qed.

Lemma inStep_forEach {A} (l : list A) (body1 body2 : A -> M unit) :
  (forall x, inStep eq (body1 x) (body2 x)) ->
  inStep eq (forEach l body1) (forEach l body2).
Proof.
  intros Hb. induction l as [|x l IH]; simpl.
  - apply inStep_ret. reflexivity.
  - eapply inStep_bind; [apply Hb | intros _ _ _; exact IH].
Qed.

Lemma inStep_now rt : inStep eq (now rt) (now rt).
Proof.
  intros w1 w2 (Hc & Hs & Hr & Hd). unfold now. simpl.
  rewrite Hr. repeat split; simpl; try assumption; try reflexivity;
    apply Hd.
Qed.

Lemma inStep_console_push c : inStep eq (console_push c) (console_push c).
Proof.
  intros w1 w2 (Hc & Hs & Hr & Hd). unfold console_push. simpl.
  rewrite Hc. repeat split; simpl; try assumption; try reflexivity;
    apply Hd.
Qed.

(** Two store calls run in step when their operations do. *)
Lemma inStep_storeCall {A B} (Q : A -> B -> Prop) rt op
    (f1 : Db -> StoreResult A) (f2 : Db -> StoreResult B) :
  (forall d1 d2, sameButStampedDb d1 d2 ->
     match f1 d1, f2 d2 with
     | inl k1, inl k2 => k1 = k2
     | inr (a, d1'), inr (b, d2') => Q a b /\ sameButStampedDb d1' d2'
     | _, _ => False
     end) ->
  inStep Q (storeCall rt op f1) (storeCall rt op f2).
Proof.
  intros Hf w1 w2 (Hc & Hs & Hr & Hd). unfold storeCall. rewrite Hs.
  destruct (storeFault rt (storeCalls w2)); simpl.
  - split; [|reflexivity]. split; [exact Hc|]. split; [reflexivity|].
    split; [exact Hr | exact Hd].
  - specialize (Hf _ _ Hd).
    destruct (f1 (db w1)) as [k1|[a d1']];
      destruct (f2 (db w2)) as [k2|[b d2']]; try contradiction; simpl.
    + subst k2. split; [|reflexivity]. split; [exact Hc|].
      split; [reflexivity|]. split; [exact Hr | exact Hd].
    + destruct Hf as [HQ Hd']. split; [|exact HQ]. split; [exact Hc|].
      split; [reflexivity|]. split; [exact Hr | exact Hd'].
Qed.

(** An operation that reads and writes only tables on which the two stores
    agree. *)
Ltac same_op :=
  let d1 := fresh "d1" in
  let d2 := fresh "d2" in
  let Hva := fresh "Hva" in
  let Hvar := fresh "Hvar" in
  let Hexp := fresh "Hexp" in
  let Hgoal := fresh "Hgoal" in
  let Hds := fresh "Hds" in
  let Hll := fresh "Hll" in
  let Hvis := fresh "Hvis" in
  intros d1 d2 (Hva & Hvar & Hexp & Hgoal & Hds & Hll & Hvis);
  unfold event_create, variantAssignment_findUnique,
    variantAssignment_create, variant_update, experiment_update,
    goalConversion_create, experimentGoal_updateMany,
    experimentDailyStat_upsert, liveLog_create;
  rewrite ?Hva, ?Hvar, ?Hexp, ?Hgoal, ?Hds, ?Hll;
  repeat match goal with
         | |- context [@lookup ?K ?V ?T ?I ?k ?m] =>
             destruct (@lookup K V T I k m)
         end;
  simpl;
  first
    [ reflexivity
    | split; [reflexivity|];
      repeat (split;
              [simpl; first [assumption | reflexivity | congruence]|]);
      simpl; exact Hvis ].

Lemma visitor_absent_insert (m1 m2 : gmap VisitorDbId Visitor) key r1 r2 :
  (forall id, m1 !! id = None <-> m2 !! id = None) ->
  forall id, <[key := r1]> m1 !! id = None <-> <[key := r2]> m2 !! id = None.
Proof.
  intros H id. destruct (decide (key = id)) as [->|Hne].
  - rewrite !lookup_insert_eq. split; discriminate.
  - rewrite !lookup_insert_ne by exact Hne. apply H.
Qed.

Lemma inStep_visitor_upsert rt key c1 c2 u1 u2 :
  inStep (fun a b => v_id a = v_id b)
    (storeCall rt VisitorUpsert (visitor_upsert key c1 u1))
    (storeCall rt VisitorUpsert (visitor_upsert key c2 u2)).
Proof.
  apply inStep_storeCall.
  intros d1 d2 (Hva & Hvar & Hexp & Hgoal & Hds & Hll & Hvis).
  unfold visitor_upsert.
  destruct (visitor d1 !! key) as [r1|] eqn:E1;
    destruct (visitor d2 !! key) as [r2|] eqn:E2;
    try (apply Hvis in E1; congruence);
    try (apply Hvis in E2; congruence);
    (split; [reflexivity|]); simpl;
    repeat (split; [assumption|]); apply visitor_absent_insert; exact Hvis.
Qed.

Lemma inStep_visitor_update rt id u :
  inStep eq (storeCall rt VisitorUpdate (visitor_update id u))
            (storeCall rt VisitorUpdate (visitor_update id u)).
Proof.
  apply inStep_storeCall.
  intros d1 d2 (Hva & Hvar & Hexp & Hgoal & Hds & Hll & Hvis).
  unfold visitor_update.
  destruct (visitor d1 !! id) as [r1|] eqn:E1;
    destruct (visitor d2 !! id) as [r2|] eqn:E2;
    try (apply Hvis in E1; congruence);
    try (apply Hvis in E2; congruence);
    try reflexivity.
  split; [reflexivity|]. simpl.
  repeat (split; [assumption|]). apply visitor_absent_insert. exact Hvis.
Qed.

Ltac instep :=
  first
    [ apply inStep_ret; reflexivity
    | apply inStep_now
    | apply inStep_console_push
    | apply inStep_visitor_update
    | apply (inStep_storeCall eq); same_op
    | eapply (inStep_bind eq); [instep | intros ? ? ?; subst; instep]
    | apply inStep_try_catch; [instep | intros ?; instep]
    | apply inStep_forEach; intros ?; instep ].

Lemma inStep_updateDailyStat rt x field revenue :
  inStep eq (updateDailyStat rt x field revenue)
            (updateDailyStat rt x field revenue).
Proof. unfold updateDailyStat. instep. Qed.

Lemma inStep_handleExperimentView rt vid evt :
  inStep eq (handleExperimentView rt vid evt)
            (handleExperimentView rt vid evt).
Proof.
  unfold handleExperimentView.
  destruct (ev_experimentId evt) as [x|]; [|instep].
  destruct (ev_variantId evt) as [v|]; [|instep].
  destruct (negb (truthy (Some x)) || negb (truthy (Some v))); [instep|].
  eapply (inStep_bind eq); [instep | intros existing ? <-].
  eapply (inStep_bind eq);
    [ destruct existing;
      [ instep
      | do 3 (eapply (inStep_bind eq); [instep | intros ? ? ?; subst]);
        apply inStep_updateDailyStat ]
    | intros ? ? ?; subst; instep ].
Qed.

(** The loop body writes the timestamp only into the GoalConversion row. *)
Lemma inStep_convertOne rt vid evt timestamp g exp :
  inStep eq (convertOne rt vid (set_timestamp evt timestamp) g exp)
            (convertOne rt vid evt g exp).
Proof.
  unfold convertOne.
  do 4 (eapply (inStep_bind eq); [instep | intros ? ? ?; subst]).
  eapply (inStep_bind eq); [apply inStep_updateDailyStat | intros ? ? ?; subst].
  instep.
Qed.

Lemma inStep_handleGoalConversion rt vid evt timestamp :
  inStep eq (handleGoalConversion rt vid (set_timestamp evt timestamp))
            (handleGoalConversion rt vid evt).
Proof.
  unfold handleGoalConversion. cbn [set_timestamp ev_goalId
                                    ev_attributedExperiments].
  destruct (ev_goalId evt) as [g|]; [|instep].
  destruct (ev_attributedExperiments evt) as [l|]; [|instep].
  destruct (negb (truthy (Some g)) || (length l =? 0)%nat); [instep|].
  apply inStep_forEach. intros exp. apply inStep_convertOne.
Qed.

Lemma inStep_processEvent rt evt timestamp :
  inStep eq (processEvent rt (set_timestamp evt timestamp))
            (processEvent rt evt).
Proof.
  unfold processEvent. cbn [set_timestamp ev_projectId ev_visitorId
                            ev_eventType].
  destruct (negb (truthy (Some (ev_projectId evt)))
            || negb (truthy (Some (ev_visitorId evt)))
            || negb (truthy (Some (ev_eventType evt)))); [instep|].
  eapply inStep_bind.
  { unfold upsertVisitor. apply inStep_visitor_upsert. }
  intros a b Hab. cbv beta in Hab. rewrite Hab.
  destruct (String.eqb (ev_eventType evt) "SESSION_START").
  { unfold handleSessionStart. instep. }
  destruct (String.eqb (ev_eventType evt) "EXPERIMENT_VIEW").
  { exact (inStep_handleExperimentView rt (v_id b) evt). }
  destruct (String.eqb (ev_eventType evt) "GOAL_CONVERSION").
  { apply inStep_handleGoalConversion. }
  destruct (String.eqb (ev_eventType evt) "CUSTOM_EVENT").
  - unfold handleCustomEvent. instep.
  - unfold handleGenericEvent. instep.
Qed.

(** C1, as stated, fails: an EXPERIMENT_VIEW stamped 2024-01-01T12:00Z and
    processed on 2024-01-03 (in UTC) touches the row of 2024-01-03, the day
    of processing, and no row of 2024-01-01, the day of the event. *)
Lemma daily_stat_row_is_not_at_event_day :
  Date_parse (sampleRuntime noFault) (ev_timestamp view1)
  = Some 1704110400000%Z /\
  utcMidnight 1704110400000 = 1704067200000%Z /\
  experimentDailyStat
    (db (snd (processEvent (sampleRuntime noFault) view1
                (world0 sampleDb)))) !! ("exp1", 1704067200000%Z) = None /\
  experimentDailyStat
    (db (snd (processEvent (sampleRuntime noFault) view1
                (world0 sampleDb)))) !! ("exp1", 1704240000000%Z)
  = Some {| ds_impressions := 1; ds_conversions := 0; ds_revenue := 0 |}.
Proof. vm_compute. repeat split. Qed.

Lemma sameButStamped_refl w : sameButStamped w w.
Proof. repeat split; intros H; exact H. Qed.

(** C1, amended: every ExperimentDailyStat row that processing an event
    creates or changes is keyed by (experimentId, d), where experimentId is
    one of the experiments the event names and d is a reading of the wall
    clock made while the event is processed, set back to 00:00 of its day
    in the local time zone of the process.  The timestamp of the event
    plays no part: the same event with any other timestamp leaves the same
    daily statistics. *)
Theorem daily_stat_key_is_local_midnight_of_clock rt evt w :
  (forall key : string * Z,
     experimentDailyStat (db (snd (processEvent rt evt w))) !! key
     <> experimentDailyStat (db w) !! key ->
     In (fst key) (eventExperiments evt) /\
     exists n,
       clockReads w <= n < clockReads (snd (processEvent rt evt w)) /\
       snd key = setHours0 rt (Date_now rt n)) /\
  (forall timestamp,
     experimentDailyStat
       (db (snd (processEvent rt (set_timestamp evt timestamp) w)))
     = experimentDailyStat (db (snd (processEvent rt evt w)))).
Proof.
  split.
  - intros key Hne.
    destruct (dailyTouches_processEvent rt evt w) as [_ H].
    destruct (H key) as [E|Hk]; [contradiction | exact Hk].
  - intros timestamp.
    destruct (inStep_processEvent rt evt timestamp w w
                (sameButStamped_refl w)) as [(_ & _ & _ & Hdb) _].
    apply Hdb.
Qed.

Lemma daily_stat_key_is_local_midnight_of_clock_witness :
  experimentDailyStat (db viewed1) !! ("exp1", jan3)
  <> experimentDailyStat (db (world0 sampleDb)) !! ("exp1", jan3) /\
  In "exp1" (eventExperiments view1) /\
  exists n,
    0 <= n < clockReads viewed1 /\
    jan3 = setHours0 (sampleRuntime noFault)
             (Date_now (sampleRuntime noFault) n).
Proof.
  assert (Hne : experimentDailyStat (db viewed1) !! ("exp1", jan3)
                <> experimentDailyStat (db (world0 sampleDb))
                     !! ("exp1", jan3))
    by (vm_compute; discriminate).
  split; [exact Hne|].
  destruct (daily_stat_key_is_local_midnight_of_clock
              (sampleRuntime noFault) view1 (world0 sampleDb))
    as [Hkey _].
  exact (Hkey ("exp1", jan3) Hne).
Defined.

(** ** Experiment views *)

Lemma truthy_Some s : s <> "" -> truthy (Some s) = true.
Proof.
  intros H. unfold truthy. apply negb_true_iff. apply String.eqb_neq.
  exact H.
Qed.

Lemma app_one_neq {A} (l : list A) (x : A) : (l ++ [x])%list <> l.
Proof.
  intros H. apply (f_equal (@length A)) in H.
  rewrite length_app in H. simpl in H. lia.
Qed.

Lemma impressions_touched d (key : string * Z) :
  from_option ds_impressions 0%Z
    (Some (touched Impressions None (experimentDailyStat d !! key)))
  = (impressions d key + 1)%Z.
Proof.
  unfold impressions. destruct (experimentDailyStat d !! key); reflexivity.
Qed.

Lemma handleExperimentView_Ok rt vid evt x v w w' :
  ev_experimentId evt = Some x ->
  ev_variantId evt = Some v ->
  x <> "" -> v <> "" ->
  handleExperimentView rt vid evt w = (Ok tt, w') ->
  console w' = console w ->
  let day := setHours0 rt (Date_now rt (clockReads w)) in
  (exists t,
     event (db w') = (event (db w) ++ [viewEventRow vid evt x v])%list /\
     liveLog (db w') = (liveLog (db w) ++ [viewLogRow evt x v t])%list) /\
  match variantAssignment (db w) !! (vid, x) with
  | None =>
      variantAssignment (db w')
      = <[(vid, x) := v]> (variantAssignment (db w)) /\
      (exists r, variant (db w) !! v = Some r /\
                 variant (db w') = <[v := incr_visitors r]> (variant (db w)))
      /\
      (exists r, experiment (db w) !! x = Some r /\
                 experiment (db w')
                 = <[x := incr_totalVisitors r]> (experiment (db w))) /\
      experimentDailyStat (db w')
      = <[(x, day) := touched Impressions None
                        (experimentDailyStat (db w) !! (x, day))]>
          (experimentDailyStat (db w))
  | Some _ =>
      variantAssignment (db w') = variantAssignment (db w) /\
      variant (db w') = variant (db w) /\
      experiment (db w') = experiment (db w) /\
      experimentDailyStat (db w') = experimentDailyStat (db w)
  end.
Proof.
  intros Hx Hv Hxne Hvne H Hcon day.
  unfold handleExperimentView in H. rewrite Hx, Hv in H.
  rewrite (truthy_Some x Hxne), (truthy_Some v Hvne) in H. simpl in H.
  apply bind_Ok_inv in H as (existing & w1 & H1 & H).
  apply storeCall_Ok_inv in H1 as (_ & d1 & Hd1 & ->).
  unfold variantAssignment_findUnique in Hd1. inversion Hd1; subst.
  clear Hd1.
  apply bind_Ok_inv in H as ([] & w2 & H2 & H).
  apply bind_Ok_inv in H as ([] & w3 & H3 & H).
  apply storeCall_Ok_inv in H3 as (_ & d3 & Hd3 & ->).
  unfold event_create in Hd3. inversion Hd3; subst. clear Hd3.
  apply bind_Ok_inv in H as (t & w4 & H4 & H).
  unfold now in H4. inversion H4; subst. clear H4.
  apply storeCall_Ok_inv in H as (_ & d5 & Hd5 & ->).
  unfold liveLog_create in Hd5. inversion Hd5; subst. clear Hd5.
  simpl in Hcon. simpl.
  destruct (variantAssignment (db w) !! (vid, x)) as [va|] eqn:E.
  - inversion H2; subst. simpl.
    split; [eexists; split; reflexivity|]. repeat split.
  - apply bind_Ok_inv in H2 as ([] & w5 & H5 & H2).
    apply storeCall_Ok_inv in H5 as (_ & d5 & Hd5 & ->).
    unfold variantAssignment_create in Hd5. simpl in Hd5.
    rewrite E in Hd5. inversion Hd5; subst. clear Hd5.
    apply bind_Ok_inv in H2 as ([] & w6 & H6 & H2).
    apply storeCall_Ok_inv in H6 as (_ & d6 & Hd6 & ->).
    unfold variant_update in Hd6. simpl in Hd6.
    destruct (variant (db w) !! v) as [rv|] eqn:Ev; inversion Hd6; subst.
    clear Hd6.
    apply bind_Ok_inv in H2 as ([] & w7 & H7 & H2).
    apply storeCall_Ok_inv in H7 as (_ & d7 & Hd7 & ->).
    unfold experiment_update in Hd7. simpl in Hd7.
    destruct (experiment (db w) !! x) as [rx|] eqn:Ex; inversion Hd7; subst.
    clear Hd7.
    match type of H2 with
    | updateDailyStat _ _ _ _ ?w0 = _ =>
        destruct (updateDailyStat_run rt x Impressions None w0)
          as (w8 & Hrun & _ & _ & Hcase)
    end.
    rewrite Hrun in H2. inversion H2; subst w2. clear H2 Hrun.
    destruct Hcase as [(_ & _ & Hdb)|(_ & _ & e & Hc)].
    + rewrite Hdb. simpl.
      split; [eexists; split; reflexivity|].
      split; [reflexivity|].
      split; [exists rv; split; reflexivity|].
      split; [exists rx; split; reflexivity|]. reflexivity.
    + simpl in Hc. rewrite Hc in Hcon. apply app_one_neq in Hcon.
      contradiction.
Qed.

Lemma assignmentsKept_refl w : assignmentsKept w w.
Proof. intros key a H. exact H. Qed.

Lemma assignmentsKept_trans a b c :
  assignmentsKept a b -> assignmentsKept b c -> assignmentsKept a c.
Proof. intros Hab Hbc key x H. apply Hbc, Hab, H. Qed.

Lemma assignmentsKept_storeCall {A} rt op (f : Db -> StoreResult A) :
  (forall d a d', f d = inr (a, d') ->
     forall key x, variantAssignment d !! key = Some x ->
                   variantAssignment d' !! key = Some x) ->
  steps assignmentsKept (storeCall rt op f).
Proof.
  intros Hf. apply steps_storeCall.
  - intros w key x H. exact H.
  - intros w a d E key x H. simpl. eapply Hf; [exact E | exact H].
Qed.

Ltac assignment_frame :=
  let d := fresh "d" in
  let a := fresh "a" in
  let d' := fresh "d'" in
  let H := fresh "H" in
  let key := fresh "key" in
  let x := fresh "x" in
  let Hk := fresh "Hk" in
  intros d a d' H key x Hk;
  unfold visitor_upsert, visitor_update, event_create,
    variantAssignment_findUnique, variantAssignment_create,
    variant_update, experiment_update, goalConversion_create,
    experimentGoal_updateMany, experimentDailyStat_upsert,
    liveLog_create in H;
  repeat case_match; inversion H; subst; simpl;
  first [ exact Hk | rewrite lookup_insert_ne; [exact Hk | congruence] ].

Ltac assignment_step :=
  first
    [ apply steps_ret; apply assignmentsKept_refl
    | apply assignmentsKept_storeCall; assignment_frame
    | apply steps_bind; [apply assignmentsKept_trans | | intros ?]
    | apply steps_try_catch; [apply assignmentsKept_trans | | intros ?]
    | (intros ? ? ? H; exact H) ].

Lemma assignmentsKept_updateDailyStat rt x field revenue :
  steps assignmentsKept (updateDailyStat rt x field revenue).
Proof. unfold updateDailyStat. repeat assignment_step. Qed.

Lemma assignmentsKept_handleExperimentView rt id evt :
  steps assignmentsKept (handleExperimentView rt id evt).
Proof.
  unfold handleExperimentView.
  destruct (ev_experimentId evt) as [x|]; [|assignment_step].
  destruct (ev_variantId evt) as [v|]; [|assignment_step].
  destruct (negb (truthy (Some x)) || negb (truthy (Some v)));
    [assignment_step|].
  assignment_step; [assignment_step|]. destruct a as [va|].
  - repeat assignment_step.
  - assignment_step.
    + do 3 (assignment_step; [assignment_step|]).
      apply assignmentsKept_updateDailyStat.
    + repeat assignment_step.
Qed.

Lemma assignmentsKept_handleGoalConversion rt id evt :
  steps assignmentsKept (handleGoalConversion rt id evt).
Proof.
  unfold handleGoalConversion.
  destruct (ev_goalId evt) as [g|]; [|assignment_step].
  destruct (ev_attributedExperiments evt) as [l|]; [|assignment_step].
  destruct (negb (truthy (Some g)) || (length l =? 0)%nat);
    [assignment_step|].
  apply steps_forEach;
    [apply assignmentsKept_refl | apply assignmentsKept_trans |].
  intros exp _. unfold convertOne.
  do 4 (assignment_step; [assignment_step|]).
  assignment_step; [apply assignmentsKept_updateDailyStat|].
  repeat assignment_step.
Qed.

(** No processing of an event removes or changes an assignment. *)
Lemma assignmentsKept_processEvent rt evt :
  steps assignmentsKept (processEvent rt evt).
Proof.
  unfold processEvent.
  destruct (negb (truthy (Some (ev_projectId evt)))
            || negb (truthy (Some (ev_visitorId evt)))
            || negb (truthy (Some (ev_eventType evt)))).
  - intros w key x H. exact H.
  - apply steps_bind; [apply assignmentsKept_trans | |intros a].
    { unfold upsertVisitor. assignment_step. }
    destruct (String.eqb (ev_eventType evt) "SESSION_START").
    { unfold handleSessionStart. repeat assignment_step. }
    destruct (String.eqb (ev_eventType evt) "EXPERIMENT_VIEW");
      [apply assignmentsKept_handleExperimentView|].
    destruct (String.eqb (ev_eventType evt) "GOAL_CONVERSION");
      [apply assignmentsKept_handleGoalConversion|].
    destruct (String.eqb (ev_eventType evt) "CUSTOM_EVENT").
    + unfold handleCustomEvent. assignment_step.
    + unfold handleGenericEvent. assignment_step.
Qed.

Lemma upsertVisitor_Ok_world rt evt w a w1 :
  upsertVisitor rt evt w = (Ok a, w1) ->
  v_id a = (ev_projectId evt, ev_visitorId evt) /\
  console w1 = console w /\
  clockReads w1 = clockReads w /\
  storeCalls w1 = S (storeCalls w) /\
  sameButVisitor (db w) (db w1).
Proof.
  intros H. pose proof (upsertVisitor_sameButVisitor rt evt w) as Hs.
  rewrite H in Hs. apply upsertVisitor_Ok in H as Hid.
  destruct Hid as (Hid & _).
  unfold upsertVisitor in H.
  apply storeCall_Ok_inv in H as (_ & d & _ & ->).
  repeat split; try exact Hid; apply Hs.
Qed.

(** C2: take an EXPERIMENT_VIEW with a projectId, a visitorId, an
    experimentId and a variantId, processed without a throw and without a
    logged error.  It appends exactly one Event row and one LiveLog row.
    If the visitor had no assignment for the experiment, it creates exactly
    one VariantAssignment row and adds exactly 1 to the visitor counter of
    the variant, to the total-visitors counter of the experiment and to the
    impression counter of the day: the variant row becomes the row with
    visitors + 1 and the same conversions, the experiment row the row with
    totalVisitors + 1 and the same totalConversions, and no other row of
    these tables changes.  If the visitor had one, the
    assignments, both counters and the daily statistics are unchanged.
    Afterwards the visitor has an assignment for the experiment, and no
    later event removes or changes it, so every subsequent view of the pair
    is a repeat view. *)
Theorem experiment_view_first_and_repeat rt evt x v w w' :
  required evt = true ->
  ev_eventType evt = "EXPERIMENT_VIEW" ->
  ev_experimentId evt = Some x ->
  ev_variantId evt = Some v ->
  x <> "" -> v <> "" ->
  processEvent rt evt w = (Ok tt, w') ->
  console w' = console w ->
  let vid : VisitorDbId := (ev_projectId evt, ev_visitorId evt) in
  let day := setHours0 rt (Date_now rt (clockReads w)) in
  (exists t,
     event (db w') = (event (db w) ++ [viewEventRow vid evt x v])%list /\
     liveLog (db w') = (liveLog (db w) ++ [viewLogRow evt x v t])%list) /\
  match variantAssignment (db w) !! (vid, x) with
  | None =>
      variantAssignment (db w')
      = <[(vid, x) := v]> (variantAssignment (db w)) /\
      size (variantAssignment (db w'))
      = S (size (variantAssignment (db w))) /\
      (exists r, variant (db w) !! v = Some r /\
                 variant (db w')
                 = <[v := {| visitors := (visitors r + 1)%Z;
                             conversions := conversions r |}]>
                     (variant (db w)))
      /\
      (exists r, experiment (db w) !! x = Some r /\
                 experiment (db w')
                 = <[x := {| totalVisitors := (totalVisitors r + 1)%Z;
                             totalConversions := totalConversions r |}]>
                     (experiment (db w))) /\
      impressions (db w') (x, day) = (impressions (db w) (x, day) + 1)%Z /\
      (forall key, key <> (x, day) ->
         experimentDailyStat (db w') !! key
         = experimentDailyStat (db w) !! key)
  | Some _ =>
      variantAssignment (db w') = variantAssignment (db w) /\
      variant (db w') = variant (db w) /\
      experiment (db w') = experiment (db w) /\
      experimentDailyStat (db w') = experimentDailyStat (db w)
  end /\
  is_Some (variantAssignment (db w') !! (vid, x)) /\
  (forall evt2 w2, assignmentsKept w2 (snd (processEvent rt evt2 w2))).
Proof.
  intros Hreq Hty Hx Hv Hxne Hvne H Hcon vid day.
  rewrite processEvent_routed in H by exact Hreq.
  rewrite Hty in H. simpl in H.
  apply bind_Ok_inv in H as (a & w1 & Hup & Hh).
  apply upsertVisitor_Ok_world in Hup
    as (Hid & Hc1 & Hr1 & _ & Hs).
  destruct Hs as (Hev & Hva & Hvar & Hexp & _ & _ & Hds & Hll).
  fold vid in Hid. rewrite Hid in Hh.
  apply (handleExperimentView_Ok rt vid evt x v w1 w' Hx Hv Hxne Hvne) in Hh;
    [|congruence].
  rewrite Hr1, Hev, Hll, Hva, Hvar, Hexp, Hds in Hh. fold day in Hh.
  destruct Hh as (Hrows & Hcase).
  split; [exact Hrows|].
  assert (Hsome : is_Some (variantAssignment (db w') !! (vid, x))).
  { destruct (variantAssignment (db w) !! (vid, x)) as [va|] eqn:E.
    - destruct Hcase as (-> & _). rewrite E. eexists. reflexivity.
    - destruct Hcase as (-> & _). rewrite lookup_insert_eq.
      eexists. reflexivity. }
  split; [|split; [exact Hsome | intros; apply assignmentsKept_processEvent]].
  destruct (variantAssignment (db w) !! (vid, x)) as [va|] eqn:E.
  - exact Hcase.
  - destruct Hcase as (Hva' & Hvar' & Hexp' & Hds').
    split; [exact Hva'|].
    split; [rewrite Hva'; apply map_size_insert_None; exact E|].
    split; [exact Hvar'|]. split; [exact Hexp'|].
    split.
    + unfold impressions at 1. rewrite Hds', lookup_insert_eq.
      apply impressions_touched.
    + intros key Hne. rewrite Hds'. apply lookup_insert_ne. congruence.
Qed.

Lemma experiment_view_first_and_repeat_witness :
  required view1 = true /\
  ev_eventType view1 = "EXPERIMENT_VIEW" /\
  ev_experimentId view1 = Some "exp1" /\
  ev_variantId view1 = Some "v1" /\
  processEvent (sampleRuntime noFault) view1 (world0 sampleDb)
  = (Ok tt, viewed1) /\
  console viewed1 = console (world0 sampleDb) /\
  variantAssignment (db (world0 sampleDb)) !! (("p1", "vis1"), "exp1")
  = None /\
  size (variantAssignment (db viewed1))
  = S (size (variantAssignment (db (world0 sampleDb)))) /\
  variant (db (world0 sampleDb)) !! "v1"
  = Some {| visitors := 0; conversions := 0 |} /\
  variant (db viewed1) !! "v1"
  = Some {| visitors := 1; conversions := 0 |} /\
  experiment (db (world0 sampleDb)) !! "exp1"
  = Some {| totalVisitors := 0; totalConversions := 0 |} /\
  experiment (db viewed1) !! "exp1"
  = Some {| totalVisitors := 1; totalConversions := 0 |} /\
  impressions (db viewed1) ("exp1", jan3)
  = (impressions (db (world0 sampleDb)) ("exp1", jan3) + 1)%Z.
Proof.
  assert (Hrun : processEvent (sampleRuntime noFault) view1
                   (world0 sampleDb) = (Ok tt, viewed1))
    by (vm_compute; reflexivity).
  assert (Hnone : variantAssignment (db (world0 sampleDb))
                    !! (("p1", "vis1"), "exp1") = None)
    by (vm_compute; reflexivity).
  assert (Hv0 : variant (db (world0 sampleDb)) !! "v1"
                = Some {| visitors := 0; conversions := 0 |})
    by (vm_compute; reflexivity).
  assert (Hx0 : experiment (db (world0 sampleDb)) !! "exp1"
                = Some {| totalVisitors := 0; totalConversions := 0 |})
    by (vm_compute; reflexivity).
  do 4 (split; [reflexivity|]). split; [exact Hrun|].
  split; [reflexivity|]. split; [exact Hnone|].
  destruct (experiment_view_first_and_repeat (sampleRuntime noFault) view1
              "exp1" "v1" (world0 sampleDb) viewed1)
    as (_ & Hcase & _);
    [reflexivity | reflexivity | reflexivity | reflexivity
    | discriminate | discriminate | exact Hrun | reflexivity |].
  match type of Hcase with
  | match ?l with _ => _ end =>
      assert (El : l = None) by (vm_compute; reflexivity);
      rewrite El in Hcase
  end.
  destruct Hcase as (_ & Hsize & (rv & Hrv & Hvar) & (rx & Hrx & Hexp)
                     & Himp & _).
  rewrite Hv0 in Hrv. inversion Hrv; subst rv.
  rewrite Hx0 in Hrx. inversion Hrx; subst rx.
  split; [exact Hsize|]. split; [exact Hv0|].
  split; [rewrite Hvar; apply lookup_insert_eq|].
  split; [exact Hx0|].
  split; [rewrite Hexp; apply lookup_insert_eq | exact Himp].
Defined.

(** ** Goal conversions *)

Lemma consoleGrows_refl w : consoleGrows w w.
Proof. exists []. rewrite app_nil_r. reflexivity. Qed.

Lemma consoleGrows_trans a b c :
  consoleGrows a b -> consoleGrows b c -> consoleGrows a c.
Proof.
  intros [m1 H1] [m2 H2]. exists (m1 ++ m2)%list.
  rewrite H2, H1, app_assoc. reflexivity.
Qed.

Lemma consoleGrows_between a b c :
  consoleGrows a b -> consoleGrows b c -> console c = console a ->
  console b = console a.
Proof.
  intros [m1 H1] [m2 H2] H. rewrite H2, H1, <- app_assoc in H.
  rewrite <- (app_nil_r (console a)) in H at 2.
  apply app_inv_head in H. apply app_eq_nil in H as [-> _].
  rewrite H1, app_nil_r. reflexivity.
Qed.

Lemma consoleGrows_storeCall {A} rt op (f : Db -> StoreResult A) :
  steps consoleGrows (storeCall rt op f).
Proof.
  apply steps_storeCall.
  - intros w. exists []. simpl. rewrite app_nil_r. reflexivity.
  - intros w a d _. exists []. simpl. rewrite app_nil_r. reflexivity.
Qed.

Lemma alter_Some `{Countable K} {A} (f : A -> A) (m : gmap K A) i x :
  m !! i = Some x -> alter f i m = <[i := f x]> m.
Proof.
  intros E. rewrite <- (insert_id m i x E) at 1. apply alter_insert_eq.
Qed.

Lemma consoleGrows_now rt : steps consoleGrows (now rt).
Proof. intros w. exists []. simpl. rewrite app_nil_r. reflexivity. Qed.

Lemma consoleGrows_console_push c : steps consoleGrows (console_push c).
Proof. intros w. exists [c]. reflexivity. Qed.

Ltac console_step :=
  first
    [ apply steps_ret; apply consoleGrows_refl
    | apply consoleGrows_storeCall
    | apply consoleGrows_now
    | apply consoleGrows_console_push
    | apply steps_bind; [apply consoleGrows_trans | | intros ?]
    | apply steps_try_catch; [apply consoleGrows_trans | | intros ?] ].

Lemma consoleGrows_convertOne rt id evt g exp :
  steps consoleGrows (convertOne rt id evt g exp).
Proof. unfold convertOne, updateDailyStat. repeat console_step. Qed.

Lemma consoleGrows_forEach_convertOne rt id evt g l :
  steps consoleGrows (forEach l (convertOne rt id evt g)).
Proof.
  apply steps_forEach;
    [apply consoleGrows_refl | apply consoleGrows_trans |].
  intros exp _. apply consoleGrows_convertOne.
Qed.

(** One turn of the loop that neither throws nor logs an error. *)
Lemma convertOne_Ok rt vid evt g exp w w' :
  convertOne rt vid evt g exp w = (Ok tt, w') ->
  console w' = console w ->
  let key : string * Z :=
    (ae_experimentId exp, setHours0 rt (Date_now rt (clockReads w))) in
  clockReads w' = S (S (clockReads w)) /\
  goalConversion (db w')
  = (goalConversion (db w) ++ [conversionRow vid evt g exp])%list /\
  variant (db w')
  = alter incr_conversions (ae_variantId exp) (variant (db w)) /\
  experiment (db w')
  = alter incr_totalConversions (ae_experimentId exp) (experiment (db w)) /\
  experimentGoal (db w') = goalCounted g exp (experimentGoal (db w)) /\
  experimentDailyStat (db w')
  = <[key := touched Conversions (ev_value evt)
               (experimentDailyStat (db w) !! key)]>
      (experimentDailyStat (db w)) /\
  liveLog (db w')
  = (liveLog (db w)
     ++ [conversionLogRow evt g exp (Date_now rt (S (clockReads w)))])%list /\
  visitor (db w') = visitor (db w) /\
  event (db w') = event (db w) /\
  variantAssignment (db w') = variantAssignment (db w).
Proof.
  intros H Hcon key. unfold convertOne in H.
  apply bind_Ok_inv in H as ([] & w1 & H1 & H).
  apply storeCall_Ok_inv in H1 as (_ & d1 & Hd1 & ->).
  unfold goalConversion_create in Hd1. inversion Hd1; subst. clear Hd1.
  apply bind_Ok_inv in H as ([] & w2 & H2 & H).
  apply storeCall_Ok_inv in H2 as (_ & d2 & Hd2 & ->).
  unfold variant_update in Hd2. simpl in Hd2.
  destruct (variant (db w) !! ae_variantId exp) as [rv|] eqn:Ev;
    inversion Hd2; subst. clear Hd2.
  apply bind_Ok_inv in H as ([] & w3 & H3 & H).
  apply storeCall_Ok_inv in H3 as (_ & d3 & Hd3 & ->).
  unfold experiment_update in Hd3. simpl in Hd3.
  destruct (experiment (db w) !! ae_experimentId exp) as [rx|] eqn:Ex;
    inversion Hd3; subst. clear Hd3.
  apply bind_Ok_inv in H as ([] & w4 & H4 & H).
  apply storeCall_Ok_inv in H4 as (_ & d4 & Hd4 & ->).
  unfold experimentGoal_updateMany in Hd4. inversion Hd4; subst. clear Hd4.
  apply bind_Ok_inv in H as ([] & w5 & H5 & H).
  match type of H5 with
  | updateDailyStat _ _ _ _ ?w0 = _ =>
      destruct (updateDailyStat_run rt (ae_experimentId exp) Conversions
                  (ev_value evt) w0)
        as (w6 & Hrun & Hclock & _ & Hcase)
  end.
  rewrite Hrun in H5. inversion H5; subst w6. clear H5 Hrun.
  apply bind_Ok_inv in H as (t & w7 & H7 & H).
  unfold now in H7. inversion H7; subst. clear H7.
  apply storeCall_Ok_inv in H as (_ & d8 & Hd8 & ->).
  unfold liveLog_create in Hd8. inversion Hd8; subst. clear Hd8.
  simpl in Hcon, Hclock, Hcase. simpl.
  destruct Hcase as [(_ & _ & Hdb)|(_ & _ & e & Hc)].
  - rewrite Hdb, Hclock. simpl. fold key.
    split; [reflexivity|]. split; [reflexivity|].
    split; [symmetry; apply alter_Some; exact Ev|].
    split; [symmetry; apply alter_Some; exact Ex|].
    repeat split.
  - rewrite Hc in Hcon. apply app_one_neq in Hcon. contradiction.
Qed.

Lemma conversionLogRows_length rt evt g l n :
  length (conversionLogRows rt evt g l n) = length l.
Proof.
  revert n. induction l as [|exp l IH]; intros n; simpl.
  - reflexivity.
  - rewrite IH. reflexivity.
Qed.

(** The whole loop, when it neither throws nor logs an error. *)
Lemma forEach_convertOne_Ok rt vid evt g l : forall w w',
  forEach l (convertOne rt vid evt g) w = (Ok tt, w') ->
  console w' = console w ->
  goalConversion (db w')
  = (goalConversion (db w) ++ List.map (conversionRow vid evt g) l)%list /\
  liveLog (db w')
  = (liveLog (db w) ++ conversionLogRows rt evt g l (clockReads w))%list /\
  variant (db w')
  = fold_left (fun m exp => alter incr_conversions (ae_variantId exp) m)
      l (variant (db w)) /\
  experiment (db w')
  = fold_left
      (fun m exp => alter incr_totalConversions (ae_experimentId exp) m)
      l (experiment (db w)) /\
  experimentGoal (db w')
  = fold_left (fun rows exp => goalCounted g exp rows)
      l (experimentGoal (db w)) /\
  experimentDailyStat (db w')
  = dailyTouched rt (ev_value evt) l (clockReads w)
      (experimentDailyStat (db w)) /\
  visitor (db w') = visitor (db w) /\
  event (db w') = event (db w) /\
  variantAssignment (db w') = variantAssignment (db w).
Proof.
  induction l as [|exp l IH]; intros w w' H Hcon; simpl in H.
  - inversion H; subst. simpl. rewrite !app_nil_r. repeat split.
  - apply bind_Ok_inv in H as ([] & w1 & H1 & H2).
    assert (G1 : consoleGrows w w1).
    { pose proof (consoleGrows_convertOne rt vid evt g exp w) as G.
      rewrite H1 in G. exact G. }
    assert (G2 : consoleGrows w1 w').
    { pose proof (consoleGrows_forEach_convertOne rt vid evt g l w1) as G.
      rewrite H2 in G. exact G. }
    assert (Hc1 : console w1 = console w)
      by (eapply consoleGrows_between; eassumption).
    apply convertOne_Ok in H1
      as (Hclock & Hgc & Hvar & Hexp & Hgoal & Hds & Hll & Hvis & Hev & Hva);
      [|exact Hc1].
    apply IH in H2
      as (Hgc' & Hll' & Hvar' & Hexp' & Hgoal' & Hds' & Hvis' & Hev' & Hva');
      [|congruence].
    rewrite Hgc', Hll', Hvar', Hexp', Hgoal', Hds', Hvis', Hev', Hva'.
    rewrite Hgc, Hll, Hvar, Hexp, Hgoal, Hds, Hvis, Hev, Hva, Hclock.
    simpl. rewrite <- !app_assoc. simpl. repeat split.
Qed.

(** Counting the increments of a fold of [alter]. *)
Lemma fold_alter_count {A} (proj : AttributedExperiment -> string)
    (f : A -> A) (c : A -> Z) l :
  (forall r, c (f r) = (c r + 1)%Z) ->
  forall (m : gmap string A) id r,
    m !! id = Some r ->
    exists r',
      fold_left (fun m exp => alter f (proj exp) m) l m !! id = Some r' /\
      c r' = (c r + attributedTo proj l id)%Z.
Proof.
  intros Hc. unfold attributedTo.
  induction l as [|exp l IH]; intros m id r Hm; simpl.
  - exists r. split; [exact Hm | lia].
  - destruct (string_dec (proj exp) id) as [->|Hne].
    + destruct (IH (alter f id m) id (f r)) as (r' & Hr' & Hcount).
      { rewrite lookup_alter_eq, Hm. reflexivity. }
      exists r'. split; [exact Hr'|]. rewrite Hcount, Hc. lia.
    + destruct (IH (alter f (proj exp) m) id r) as (r' & Hr' & Hcount).
      { rewrite lookup_alter_ne by exact Hne. exact Hm. }
      exists r'. split; [exact Hr' | exact Hcount].
Qed.

Lemma dailyConversions_touched revenue m (key : string * Z) :
  dailyConversions
    (<[key := touched Conversions revenue (m !! key)]> m)
  = (dailyConversions m + 1)%Z.
Proof.
  unfold dailyConversions.
  destruct (m !! key) as [row|] eqn:E.
  - rewrite <- insert_delete_eq.
    rewrite map_fold_insert_L;
      [| intros; lia | apply lookup_delete_eq].
    rewrite (map_fold_delete_L _ _ key row m); [| intros; lia | exact E].
    simpl. lia.
  - rewrite map_fold_insert_L; [| intros; lia | exact E].
    simpl. lia.
Qed.

Lemma dailyConversions_dailyTouched rt revenue l : forall n m,
  dailyConversions (dailyTouched rt revenue l n m)
  = (dailyConversions m + Z.of_nat (length l))%Z.
Proof.
  induction l as [|exp l IH]; intros n m.
  - simpl. lia.
  - cbn [dailyTouched length]. rewrite IH, dailyConversions_touched. lia.
Qed.

Lemma attributedTo_nil proj id : attributedTo proj [] id = 0%Z.
Proof. reflexivity. Qed.

Lemma attributedTo_cons proj exp l id :
  attributedTo proj (exp :: l) id
  = ((if String.eqb id (proj exp) then 1 else 0)
     + attributedTo proj l id)%Z.
Proof.
  unfold attributedTo. cbn [List.map].
  destruct (string_dec (proj exp) id) as [E|Hne].
  - rewrite (count_occ_cons_eq string_dec _ E), Nat2Z.inj_succ.
    rewrite <- E, String.eqb_refl. lia.
  - rewrite (count_occ_cons_neq string_dec _ Hne).
    assert (Hf : String.eqb id (proj exp) = false)
      by (apply String.eqb_neq; congruence).
    rewrite Hf. lia.
Qed.

Lemma goalCounted_fold g l : forall rows,
  fold_left (fun rows exp => goalCounted g exp rows) l rows
  = List.map
      (fun r => goalAdded
                  (if String.eqb (eg_goalId r) g
                   then attributedTo ae_experimentId l (eg_experimentId r)
                   else 0%Z) r)
      rows.
Proof.
  induction l as [|exp l IH]; intros rows; cbn [fold_left].
  - rewrite <- (map_id rows) at 1. apply map_ext. intros [x y c].
    rewrite attributedTo_nil. unfold goalAdded. simpl.
    destruct (String.eqb y g); f_equal; lia.
  - rewrite IH. unfold goalCounted. rewrite map_map. apply map_ext.
    intros [x y c]. rewrite attributedTo_cons.
    unfold goalAdded, incr_goal. simpl.
    destruct (String.eqb x (ae_experimentId exp)) eqn:Ex;
      destruct (String.eqb y g) eqn:Ey;
      simpl; rewrite ?Ex, ?Ey; simpl; rewrite ?Ey; f_equal; lia.
Qed.

(** C4: take a GOAL_CONVERSION with a projectId, a visitorId, a goalId and
    the attributions [l], k of them with k >= 1, duplicates allowed,
    processed without a throw and without a logged error.  It appends
    exactly k GoalConversion rows and exactly k LiveLog rows, one per
    attribution in order.  It applies one increment per attribution, with
    no deduplication: the conversion counter of a variant grows by the
    number of attributions that name the variant, the total-conversion
    counter of an experiment and the counter of its pairing with the goal
    grow by the number of attributions that name the experiment, and the
    daily statistics receive one conversion touch per attribution, so that
    their conversions grow by k in total. *)
Theorem conversion_applies_every_attribution rt evt g l w w' :
  required evt = true ->
  ev_eventType evt = "GOAL_CONVERSION" ->
  ev_goalId evt = Some g ->
  g <> "" ->
  ev_attributedExperiments evt = Some l ->
  1 <= length l ->
  processEvent rt evt w = (Ok tt, w') ->
  console w' = console w ->
  let vid : VisitorDbId := (ev_projectId evt, ev_visitorId evt) in
  goalConversion (db w')
  = (goalConversion (db w) ++ List.map (conversionRow vid evt g) l)%list /\
  length (goalConversion (db w'))
  = length (goalConversion (db w)) + length l /\
  liveLog (db w')
  = (liveLog (db w) ++ conversionLogRows rt evt g l (clockReads w))%list /\
  length (liveLog (db w')) = length (liveLog (db w)) + length l /\
  (forall id r, variant (db w) !! id = Some r ->
     exists r', variant (db w') !! id = Some r' /\
                conversions r'
                = (conversions r + attributedTo ae_variantId l id)%Z) /\
  (forall id r, experiment (db w) !! id = Some r ->
     exists r', experiment (db w') !! id = Some r' /\
                totalConversions r'
                = (totalConversions r
                   + attributedTo ae_experimentId l id)%Z) /\
  experimentGoal (db w')
  = List.map
      (fun r => goalAdded
                  (if String.eqb (eg_goalId r) g
                   then attributedTo ae_experimentId l (eg_experimentId r)
                   else 0%Z) r)
      (experimentGoal (db w)) /\
  experimentDailyStat (db w')
  = dailyTouched rt (ev_value evt) l (clockReads w)
      (experimentDailyStat (db w)) /\
  dailyConversions (experimentDailyStat (db w'))
  = (dailyConversions (experimentDailyStat (db w))
     + Z.of_nat (length l))%Z.
Proof.
  intros Hreq Hty Hg Hgne Hl Hk H Hcon vid.
  rewrite processEvent_routed in H by exact Hreq.
  rewrite Hty in H. simpl in H.
  apply bind_Ok_inv in H as (a & w1 & Hup & Hh).
  apply upsertVisitor_Ok_world in Hup as (Hid & Hc1 & Hr1 & _ & Hs).
  destruct Hs as (_ & _ & Hvar & Hexp & Hgc & Hgoal & Hds & Hll).
  fold vid in Hid. rewrite Hid in Hh.
  unfold handleGoalConversion in Hh. rewrite Hg, Hl in Hh.
  rewrite (truthy_Some g Hgne) in Hh. simpl in Hh.
  destruct l as [|exp l]; [simpl in Hk; lia|]. simpl length in Hh.
  change (S (length l) =? 0)%nat with false in Hh.
  apply forEach_convertOne_Ok in Hh
    as (Hgc' & Hll' & Hvar' & Hexp' & Hgoal' & Hds' & _); [|congruence].
  rewrite Hgc, Hll, Hvar, Hexp, Hgoal, Hds, Hr1 in *.
  split; [exact Hgc'|].
  split; [rewrite Hgc', length_app, length_map; reflexivity|].
  split; [exact Hll'|].
  split; [rewrite Hll', length_app, conversionLogRows_length; reflexivity|].
  split.
  { intros id r Hr. rewrite Hvar'.
    apply (fold_alter_count ae_variantId incr_conversions conversions);
      [intros; reflexivity | exact Hr]. }
  split.
  { intros id r Hr. rewrite Hexp'.
    apply (fold_alter_count ae_experimentId incr_totalConversions
             totalConversions); [intros; reflexivity | exact Hr]. }
  split; [rewrite Hgoal'; apply goalCounted_fold|].
  split; [exact Hds'|].
  rewrite Hds'. apply dailyConversions_dailyTouched.
Qed.

Lemma conversion_applies_every_attribution_witness :
  required conversion2 = true /\
  ev_eventType conversion2 = "GOAL_CONVERSION" /\
  ev_goalId conversion2 = Some "g1" /\
  ev_attributedExperiments conversion2
  = Some [attribution "exp1" "v1"; attribution "exp1" "v2"] /\
  processEvent (sampleRuntime noFault) conversion2 (world0 sampleDb)
  = (Ok tt, converted2) /\
  console converted2 = console (world0 sampleDb) /\
  length (goalConversion (db converted2))
  = length (goalConversion (db (world0 sampleDb))) + 2 /\
  length (liveLog (db converted2))
  = length (liveLog (db (world0 sampleDb))) + 2 /\
  dailyConversions (experimentDailyStat (db converted2))
  = (dailyConversions (experimentDailyStat (db (world0 sampleDb)))
     + 2)%Z.
Proof.
  assert (Hrun : processEvent (sampleRuntime noFault) conversion2
                   (world0 sampleDb) = (Ok tt, converted2))
    by (vm_compute; reflexivity).
  do 4 (split; [reflexivity|]). split; [exact Hrun|].
  split; [reflexivity|].
  destruct (conversion_applies_every_attribution (sampleRuntime noFault)
              conversion2 "g1"
              [attribution "exp1" "v1"; attribution "exp1" "v2"]
              (world0 sampleDb) converted2)
    as (_ & Hgc & _ & Hll & _ & _ & _ & _ & Hds);
    [reflexivity | reflexivity | reflexivity | discriminate | reflexivity
    | simpl; lia | exact Hrun | reflexivity |].
  split; [exact Hgc|]. split; [exact Hll | exact Hds].
Defined.

(** ** Failing events *)

Lemma throwsLast_ret {A} (a : A) : throwsLast (ret a).
Proof. intros w e w' H. discriminate H. Qed.

Lemma throwsLast_bind {A B} (m : M A) (k : A -> M B) :
  throwsLast m -> (forall a, throwsLast (k a)) -> throwsLast (bind m k).
Proof.
  intros Hm Hk w e w' H. apply bind_Throw_inv in H as [H|(a & w1 & _ & H)].
  - eapply Hm. exact H.
  - eapply Hk. exact H.
Qed.

Lemma throwsLast_storeCall {A} rt op (f : Db -> StoreResult A) :
  throwsLast (storeCall rt op f).
Proof.
  intros w e w' H. apply storeCall_Throw_inv in H as (-> & _ & -> & _).
  reflexivity.
Qed.

Lemma throwsLast_now rt : throwsLast (now rt).
Proof. intros w e w' H. discriminate H. Qed.

Lemma throwsLast_console_push c : throwsLast (console_push c).
Proof. intros w e w' H. discriminate H. Qed.

Lemma throwsLast_updateDailyStat rt x field revenue :
  throwsLast (updateDailyStat rt x field revenue).
Proof.
  intros w e w' H.
  destruct (updateDailyStat_run rt x field revenue w) as (w1 & Hrun & _).
  rewrite Hrun in H. discriminate H.
Qed.

Lemma throwsLast_forEach {A} (l : list A) (body : A -> M unit) :
  (forall x, throwsLast (body x)) -> throwsLast (forEach l body).
Proof.
  intros Hb. induction l as [|x l IH]; simpl.
  - apply throwsLast_ret.
  - apply throwsLast_bind; [apply Hb | intros _; exact IH].
Qed.

Ltac throws_step :=
  first
    [ apply throwsLast_ret
    | apply throwsLast_storeCall
    | apply throwsLast_now
    | apply throwsLast_console_push
    | apply throwsLast_updateDailyStat
    | apply throwsLast_bind; [|intros ?]
    | apply throwsLast_forEach; intros ? ].

Lemma throwsLast_processEvent rt evt : throwsLast (processEvent rt evt).
Proof.
  unfold processEvent.
  destruct (negb (truthy (Some (ev_projectId evt)))
            || negb (truthy (Some (ev_visitorId evt)))
            || negb (truthy (Some (ev_eventType evt))));
    [apply throwsLast_console_push|].
  apply throwsLast_bind; [unfold upsertVisitor; throws_step | intros a].
  destruct (String.eqb (ev_eventType evt) "SESSION_START").
  { unfold handleSessionStart. repeat throws_step. }
  destruct (String.eqb (ev_eventType evt) "EXPERIMENT_VIEW").
  { unfold handleExperimentView.
    destruct (ev_experimentId evt) as [x|]; [|throws_step].
    destruct (ev_variantId evt) as [v|]; [|throws_step].
    destruct (negb (truthy (Some x)) || negb (truthy (Some v)));
      [throws_step|].
    throws_step; [throws_step|].
    throws_step; [destruct a0; repeat throws_step|].
    repeat throws_step. }
  destruct (String.eqb (ev_eventType evt) "GOAL_CONVERSION").
  { unfold handleGoalConversion.
    destruct (ev_goalId evt) as [g|]; [|throws_step].
    destruct (ev_attributedExperiments evt) as [l|]; [|throws_step].
    destruct (negb (truthy (Some g)) || (length l =? 0)%nat);
      [throws_step|].
    unfold convertOne. repeat throws_step. }
  destruct (String.eqb (ev_eventType evt) "CUSTOM_EVENT").
  - unfold handleCustomEvent. throws_step.
  - unfold handleGenericEvent. throws_step.
Qed.

Lemma processEvents_Handled rt events : forall w,
  exists m w',
    m <= length events /\
    processEvents rt events w = (Ok tt, w') /\
    Handled rt events w m w'.
Proof.
  unfold processEvents.
  induction events as [|evt rest IH]; intros w; simpl.
  - exists 0, w. split; [lia|]. split; [reflexivity | constructor].
  - unfold bind, try_catch.
    destruct (processEvent rt evt w) as [[[]|err] w1] eqn:E.
    + destruct (IH w1) as (m & w' & Hm & Hrun & Hh).
      exists m, w'. split; [lia|]. split; [exact Hrun|].
      eapply Handled_ok; eassumption.
    + simpl.
      destruct (IH (set_console w1
                      (console w1 ++ [ErrorEventProcessing err evt])))
        as (m & w' & Hm & Hrun & Hh).
      exists (S m), w'. split; [lia|]. split; [exact Hrun|].
      eapply Handled_failed; [exact E | | exact Hh].
      eapply throwsLast_processEvent. exact E.
Qed.

Lemma sameEventErrors_refl w : sameEventErrors w w.
Proof. reflexivity. Qed.

Lemma sameEventErrors_trans a b c :
  sameEventErrors a b -> sameEventErrors b c -> sameEventErrors a c.
Proof. unfold sameEventErrors. intros -> ->. reflexivity. Qed.

Lemma eventErrors_app c1 c2 :
  eventErrors (c1 ++ c2) = eventErrors c1 + eventErrors c2.
Proof. unfold eventErrors. rewrite List.filter_app, length_app. reflexivity. Qed.

Lemma sameEventErrors_storeCall {A} rt op (f : Db -> StoreResult A) :
  steps sameEventErrors (storeCall rt op f).
Proof. apply steps_storeCall; intros; reflexivity. Qed.

Lemma sameEventErrors_now rt : steps sameEventErrors (now rt).
Proof. intros w. reflexivity. Qed.

Lemma sameEventErrors_dailyStatError e :
  steps sameEventErrors (console_push (ErrorDailyStatUpdate e)).
Proof.
  intros w. unfold sameEventErrors. simpl. rewrite eventErrors_app.
  unfold eventErrors. simpl. lia.
Qed.

Lemma sameEventErrors_warn p v t :
  steps sameEventErrors (console_push (WarnMissingRequiredFields p v t)).
Proof.
  intros w. unfold sameEventErrors. simpl. rewrite eventErrors_app.
  unfold eventErrors. simpl. lia.
Qed.

Ltac errors_step :=
  first
    [ apply steps_ret; apply sameEventErrors_refl
    | apply sameEventErrors_storeCall
    | apply sameEventErrors_now
    | apply sameEventErrors_dailyStatError
    | apply sameEventErrors_warn
    | apply steps_bind; [apply sameEventErrors_trans | | intros ?]
    | apply steps_try_catch; [apply sameEventErrors_trans | | intros ?]
    | apply steps_forEach;
      [apply sameEventErrors_refl | apply sameEventErrors_trans
      | intros ? _] ].

Lemma sameEventErrors_processEvent rt evt :
  steps sameEventErrors (processEvent rt evt).
Proof.
  unfold processEvent.
  destruct (negb (truthy (Some (ev_projectId evt)))
            || negb (truthy (Some (ev_visitorId evt)))
            || negb (truthy (Some (ev_eventType evt))));
    [errors_step|].
  errors_step; [unfold upsertVisitor; errors_step|].
  destruct (String.eqb (ev_eventType evt) "SESSION_START").
  { unfold handleSessionStart. repeat errors_step. }
  destruct (String.eqb (ev_eventType evt) "EXPERIMENT_VIEW").
  { unfold handleExperimentView, updateDailyStat.
    destruct (ev_experimentId evt) as [x|]; [|errors_step].
    destruct (ev_variantId evt) as [v|]; [|errors_step].
    destruct (negb (truthy (Some x)) || negb (truthy (Some v)));
      [errors_step|].
    errors_step; [errors_step|].
    errors_step; [destruct a0; repeat errors_step|].
    repeat errors_step. }
  destruct (String.eqb (ev_eventType evt) "GOAL_CONVERSION").
  { unfold handleGoalConversion.
    destruct (ev_goalId evt) as [g|]; [|errors_step].
    destruct (ev_attributedExperiments evt) as [l|]; [|errors_step].
    destruct (negb (truthy (Some g)) || (length l =? 0)%nat);
      [errors_step|].
    unfold convertOne, updateDailyStat. repeat errors_step. }
  destruct (String.eqb (ev_eventType evt) "CUSTOM_EVENT").
  - unfold handleCustomEvent. errors_step.
  - unfold handleGenericEvent. errors_step.
Qed.

Lemma Handled_eventErrors rt events w m w' :
  Handled rt events w m w' ->
  eventErrors (console w') = eventErrors (console w) + m.
Proof.
  induction 1 as [w|evt rest w w1 m w2 Hrun _ IH
                 |evt rest w err w1 m w2 Hrun _ _ IH].
  - lia.
  - pose proof (sameEventErrors_processEvent rt evt w) as Hs.
    rewrite Hrun in Hs. unfold sameEventErrors in Hs. simpl in Hs. lia.
  - pose proof (sameEventErrors_processEvent rt evt w) as Hs.
    rewrite Hrun in Hs. unfold sameEventErrors in Hs. simpl in Hs.
    simpl in IH. rewrite eventErrors_app in IH.
    change (eventErrors [ErrorEventProcessing err evt]) with 1 in IH. lia.
Qed.

(** C6: a record whose body decodes to N events is accepted: its outcome
    is "Ok" with the record id and the original body.  The events are
    handled in order; M of them, M <= N, fail at a store call.  Each
    failing event does nothing after the rejected call, keeps what it had
    written before it, and is logged with one "Event processing error"
    entry; the N - M others are processed to their end, each from the world
    the previous event left. *)
Theorem record_accepted_despite_failing_events rt record output w parsed :
  JSON_parse rt (base64_utf8 rt (data record)) = Some parsed ->
  exists m w',
    m <= length (eventsOf parsed) /\
    processRecord rt record output w
    = (Ok (output ++ [ {| out_recordId := recordId record;
                          out_result := "Ok";
                          out_data := data record |} ])%list, w') /\
    Handled rt (eventsOf parsed) w m w' /\
    eventErrors (console w') = eventErrors (console w) + m.
Proof.
  intros Hparse.
  destruct (processEvents_Handled rt (eventsOf parsed) w)
    as (m & w' & Hm & Hrun & Hh).
  exists m, w'. split; [exact Hm|]. split.
  - unfold processRecord, try_catch. rewrite Hparse.
    fold (eventsOf parsed). unfold bind. rewrite Hrun. reflexivity.
  - split; [exact Hh | eapply Handled_eventErrors; exact Hh].
Qed.

Lemma record_accepted_despite_failing_events_witness :
  JSON_parse (sampleRuntime (faultAt 10))
    (base64_utf8 (sampleRuntime (faultAt 10)) (data sampleRecord))
  = Some (PArray [view1; conversion2; pageView2]) /\
  exists m w',
    m <= 3 /\
    processRecord (sampleRuntime (faultAt 10)) sampleRecord []
      (world0 sampleDb)
    = (Ok [ {| out_recordId := "record-1"; out_result := "Ok";
               out_data := "sample-body" |} ], w') /\
    Handled (sampleRuntime (faultAt 10)) [view1; conversion2; pageView2]
      (world0 sampleDb) m w' /\
    eventErrors (console w') = eventErrors (console (world0 sampleDb)) + m.
Proof.
  split; [reflexivity|].
  apply (record_accepted_despite_failing_events (sampleRuntime (faultAt 10))
           sampleRecord [] (world0 sampleDb)
           (PArray [view1; conversion2; pageView2])).
  reflexivity.
Defined.

(** In the sample record the second event fails at its third store call:
    one error is logged, the conversion row written before the failure
    stays, and the third event is processed. *)
Example sample_record_one_failure :
  let w' := snd (processRecord (sampleRuntime (faultAt 10)) sampleRecord []
                   (world0 sampleDb)) in
  eventErrors (console w') = 1 /\
  length (goalConversion (db w')) = 1 /\
  length (event (db w')) = 2.
Proof. vm_compute. repeat split. Qed.

(** ** A run and the same run under a store that faults differently *)

Section Replay.

Variable rt : Runtime.
Variable f' : nat -> bool.
Variable n : nat.
Hypothesis Hagree : forall i, i < n -> f' i = storeFault rt i.

Lemma replays_ret {A} (a : A) : replays n (ret a) (ret a).
Proof.
  split; [intros w; simpl; lia|]. split.
  - intros w e w' H. discriminate H.
  - intros w r w1 H _. exact H.
Qed.

Lemma replays_bind {A B} (m m' : M A) (k k' : A -> M B) :
  replays n m m' -> (forall a, replays n (k a) (k' a)) ->
  replays n (bind m k) (bind m' k').
Proof.
  intros (Hm1 & Hm2 & Hm3) Hk. split; [|split].
  - intros w. unfold bind. specialize (Hm1 w).
    destruct (m w) as [[a|e] w1]; simpl in *; [|exact Hm1].
    destruct (Hk a) as (Hk1 & _). specialize (Hk1 w1). lia.
  - intros w e w' H. apply bind_Throw_inv in H as [H|(a & w1 & Ha & H)].
    + eapply Hm2. exact H.
    + destruct (Hk a) as (_ & Hk2 & _). apply Hk2 in H.
      specialize (Hm1 w). rewrite Ha in Hm1. simpl in Hm1. lia.
  - intros w r w2 H Hn. unfold bind in *.
    destruct (m w) as [[a|e] w1] eqn:E.
    + destruct (Hk a) as (Hk1 & _ & Hk3).
      assert (Hw1 : storeCalls w1 <= n).
      { specialize (Hk1 w1). rewrite H in Hk1. simpl in Hk1. lia. }
      rewrite (Hm3 w (Ok a) w1 E Hw1). apply Hk3; assumption.
    + inversion H; subst. rewrite (Hm3 w (Throw e) w2 E Hn). reflexivity.
Qed.

Lemma replays_try_catch {A} (m m' : M A) (h h' : Exn -> M A) :
  replays n m m' -> (forall e, replays n (h e) (h' e)) ->
  replays n (try_catch m h) (try_catch m' h').
Proof.
  intros (Hm1 & Hm2 & Hm3) Hh. split; [|split].
  - intros w. unfold try_catch. specialize (Hm1 w).
    destruct (m w) as [[a|e] w1]; simpl in *; [exact Hm1|].
    destruct (Hh e) as (Hh1 & _). specialize (Hh1 w1). lia.
  - intros w e w' H. unfold try_catch in H.
    destruct (m w) as [[a|e0] w1] eqn:E; [discriminate H|].
    destruct (Hh e0) as (_ & Hh2 & _). apply Hh2 in H.
    specialize (Hm1 w). rewrite E in Hm1. simpl in Hm1. lia.
  - intros w r w2 H Hn. unfold try_catch in *.
    destruct (m w) as [[a|e] w1] eqn:E.
    + inversion H; subst. rewrite (Hm3 w (Ok a) w2 E Hn). reflexivity.
    + destruct (Hh e) as (Hh1 & _ & Hh3).
      assert (Hw1 : storeCalls w1 <= n).
      { specialize (Hh1 w1). rewrite H in Hh1. simpl in Hh1. lia. }
      rewrite (Hm3 w (Throw e) w1 E Hw1). apply Hh3; assumption.
Qed.

Lemma replays_storeCall {A} op (f : Db -> StoreResult A) :
  replays n (storeCall rt op f) (storeCall (set_storeFault rt f') op f).
Proof.
  split; [|split].
  - intros w. unfold storeCall.
    destruct (storeFault rt (storeCalls w)); simpl; [lia|].
    destruct (f (db w)) as [k|[a d]]; simpl; lia.
  - intros w e w' H. apply storeCall_Throw_inv in H as (-> & _). lia.
  - intros w r w1 H Hn.
    assert (Hlt : storeCalls w < n).
    { unfold storeCall in H.
      destruct (storeFault rt (storeCalls w));
        [inversion H; subst; simpl in Hn; lia|].
      destruct (f (db w)) as [k|[a d]]; inversion H; subst;
        simpl in Hn; lia. }
    unfold storeCall in *. simpl. rewrite (Hagree _ Hlt). exact H.
Qed.

Lemma replays_now : replays n (now rt) (now (set_storeFault rt f')).
Proof.
  split; [intros w; simpl; lia|]. split.
  - intros w e w' H. discriminate H.
  - intros w r w1 H _. exact H.
Qed.

Lemma replays_console_push c :
  replays n (console_push c) (console_push c).
Proof.
  split; [intros w; simpl; lia|]. split.
  - intros w e w' H. discriminate H.
  - intros w r w1 H _. exact H.
Qed.

Lemma replays_forEach {A} (l : list A) (body body' : A -> M unit) :
  (forall x, replays n (body x) (body' x)) ->
  replays n (forEach l body) (forEach l body').
Proof.
  intros Hb. induction l as [|x l IH]; simpl.
  - apply replays_ret.
  - apply replays_bind; [apply Hb | intros _; exact IH].
Qed.

End Replay.

Ltac replay_step :=
  first
    [ apply replays_ret
    | eapply replays_storeCall; eassumption
    | apply replays_now
    | apply replays_console_push
    | apply replays_bind; [|intros ?]
    | apply replays_try_catch; [|intros ?]
    | apply replays_forEach; intros ? ].

Lemma replays_updateDailyStat rt f' n x field revenue :
  (forall i, i < n -> f' i = storeFault rt i) ->
  replays n (updateDailyStat rt x field revenue)
            (updateDailyStat (set_storeFault rt f') x field revenue).
Proof. intros Hagree. unfold updateDailyStat. repeat replay_step. Qed.

Lemma replays_upsertVisitor rt f' n evt :
  (forall i, i < n -> f' i = storeFault rt i) ->
  replays n (upsertVisitor rt evt)
            (upsertVisitor (set_storeFault rt f') evt).
Proof. intros Hagree. unfold upsertVisitor. replay_step. Qed.

Lemma replays_convertOne rt f' n vid evt g exp :
  (forall i, i < n -> f' i = storeFault rt i) ->
  replays n (convertOne rt vid evt g exp)
            (convertOne (set_storeFault rt f') vid evt g exp).
Proof.
  intros Hagree. unfold convertOne.
  do 4 (replay_step; [replay_step|]).
  replay_step; [apply replays_updateDailyStat; exact Hagree|].
  repeat replay_step.
Qed.

(** *** Throws that do not come from a LiveLog write *)

Lemma notLog_ret {A} (a : A) : notLog (ret a).
Proof. intros w e w' H. discriminate H. Qed.

Lemma notLog_bind {A B} (m : M A) (k : A -> M B) :
  notLog m -> (forall a, notLog (k a)) -> notLog (bind m k).
Proof.
  intros Hm Hk w e w' H. apply bind_Throw_inv in H as [H|(a & w1 & _ & H)].
  - eapply Hm. exact H.
  - eapply Hk. exact H.
Qed.

Lemma notLog_storeCall {A} rt op (f : Db -> StoreResult A) :
  op <> LiveLogCreate -> notLog (storeCall rt op f).
Proof.
  intros Hop w e w' H. apply storeCall_Throw_inv in H as (_ & -> & _).
  exact Hop.
Qed.

Lemma notLog_updateDailyStat rt x field revenue :
  notLog (updateDailyStat rt x field revenue).
Proof.
  intros w e w' H.
  destruct (updateDailyStat_run rt x field revenue w) as (w1 & Hrun & _).
  rewrite Hrun in H. discriminate H.
Qed.

Ltac notlog_step :=
  first
    [ apply notLog_ret
    | apply notLog_storeCall; discriminate
    | apply notLog_updateDailyStat
    | apply notLog_bind; [|intros ?] ].

Ltac notlog_all := repeat notlog_step.

Lemma notLog_upsertVisitor rt evt : notLog (upsertVisitor rt evt).
Proof. unfold upsertVisitor. notlog_step. Qed.

(** Only views and conversions write to the LiveLog. *)
Lemma log_failure_event_type rt evt w e w1 :
  processEvent rt evt w = (Throw e, w1) ->
  exn_op e = LiveLogCreate ->
  ev_eventType evt = "EXPERIMENT_VIEW" \/
  ev_eventType evt = "GOAL_CONVERSION".
Proof.
  intros H Hop. unfold processEvent in H.
  destruct (negb (truthy (Some (ev_projectId evt)))
            || negb (truthy (Some (ev_visitorId evt)))
            || negb (truthy (Some (ev_eventType evt))));
    [discriminate H|].
  apply bind_Throw_inv in H as [H|(a & wa & _ & H)].
  { exfalso. exact (notLog_upsertVisitor rt evt _ _ _ H Hop). }
  destruct (String.eqb (ev_eventType evt) "SESSION_START").
  { assert (N : notLog (handleSessionStart rt (v_id a) evt))
      by (unfold handleSessionStart; notlog_all).
    exfalso. exact (N _ _ _ H Hop). }
  destruct (String.eqb (ev_eventType evt) "EXPERIMENT_VIEW") eqn:Ev.
  { left. apply String.eqb_eq. exact Ev. }
  destruct (String.eqb (ev_eventType evt) "GOAL_CONVERSION") eqn:Eg.
  { right. apply String.eqb_eq. exact Eg. }
  exfalso.
  destruct (String.eqb (ev_eventType evt) "CUSTOM_EVENT").
  - assert (N : notLog (handleCustomEvent rt (v_id a) evt))
      by (unfold handleCustomEvent; notlog_all).
    exact (N _ _ _ H Hop).
  - assert (N : notLog (handleGenericEvent rt (v_id a) evt))
      by (unfold handleGenericEvent; notlog_all).
    exact (N _ _ _ H Hop).
Qed.

(** C5, as stated, fails: when the LiveLog write of the first of two
    attributions is rejected, the event throws there; the second
    attribution is not processed, so one GoalConversion row is written
    instead of two and the second variant is not counted. *)
Lemma livelog_failure_drops_remaining_attributions :
  fst (processEvent (sampleRuntime (faultAt 6)) conversion2
         (world0 sampleDb))
  = Throw {| exn_call := 6; exn_op := LiveLogCreate;
             exn_kind := Rejected |} /\
  length (goalConversion
            (db (snd (processEvent (sampleRuntime (faultAt 6)) conversion2
                        (world0 sampleDb))))) = 1 /\
  length (goalConversion (db converted2)) = 2 /\
  (conversions <$>
   variant (db (snd (processEvent (sampleRuntime (faultAt 6)) conversion2
                       (world0 sampleDb)))) !! "v2") = Some 0%Z /\
  (conversions <$> variant (db converted2) !! "v2") = Some 1%Z.
Proof. vm_compute. repeat split. Qed.

Lemma processEvents_cons_failed rt evt rest w err w1 :
  processEvent rt evt w = (Throw err, w1) ->
  processEvents rt (evt :: rest) w
  = processEvents rt rest
      (set_console w1 (console w1 ++ [ErrorEventProcessing err evt])).
Proof.
  intros H. unfold processEvents. simpl. unfold bind, try_catch.
  rewrite H. reflexivity.
Qed.

(** *** The run in which the store rejects a LiveLog write *)

Section RejectedLog.

Variable rt : Runtime.
Variable f' : nat -> bool.
Variable n : nat.
Hypothesis Hagree : forall i, i < n -> f' i = storeFault rt i.
Hypothesis Hfault : f' n = true.

Lemma rejectsLog_now_log (row : Z -> LiveLogRow) :
  rejectsLog n
    (let! t := now rt in
     storeCall rt LiveLogCreate (liveLog_create (row t)))
    (let! t := now (set_storeFault rt f') in
     storeCall (set_storeFault rt f') LiveLogCreate
       (liveLog_create (row t))).
Proof.
  split.
  - intros w w' H. unfold bind, now, storeCall, liveLog_create in H.
    cbn [storeCalls set_clockReads] in H.
    destruct (storeFault rt (storeCalls w)); inversion H; subst.
    simpl. lia.
  - intros w w' H Hn. unfold bind, now, storeCall, liveLog_create in *.
    cbn [storeCalls set_clockReads storeFault set_storeFault] in *.
    destruct (storeFault rt (storeCalls w)); inversion H; subst; clear H.
    simpl in Hn. inversion Hn; subst n. rewrite Hfault.
    eexists. eexists. split; [|reflexivity]. reflexivity.
Qed.

Lemma rejectsLog_bind {A} (m m' : M A) (k k' : A -> M unit) :
  replays n m m' ->
  (forall a, rejectsLog n (k a) (k' a)) ->
  rejectsLog n (bind m k) (bind m' k').
Proof.
  intros (Hm1 & _ & Hm3) Hk. split.
  - intros w w' H. apply bind_Ok_inv in H as (a & wa & Ha & H).
    destruct (Hk a) as [Hadv _]. apply Hadv in H.
    specialize (Hm1 w). rewrite Ha in Hm1. simpl in Hm1. lia.
  - intros w w' H Hn. apply bind_Ok_inv in H as (a & wa & Ha & H).
    destruct (Hk a) as [Hadv Hrej].
    pose proof (Hadv _ _ H) as Hlt.
    destruct (Hrej _ _ H Hn) as (row & wf & Hw & Hthrow).
    exists row, wf. split; [exact Hw|].
    rewrite (bind_Ok_eq m' k' w a wa); [exact Hthrow|].
    apply Hm3; [exact Ha | lia].
Qed.

(** The loop over the attributions up to [exp], whose LiveLog write is
    the last call, against the loop over all the attributions. *)
Lemma rejectsLog_forEach {A} (body body' : A -> M unit) done exp rest :
  (forall x, replays n (body x) (body' x)) ->
  (forall x, rejectsLog n (body x) (body' x)) ->
  rejectsLog n (forEach (done ++ [exp]) body)
               (forEach (done ++ exp :: rest) body').
Proof.
  intros Hrep Hrej. induction done as [|a done IH]; simpl.
  - destruct (Hrej exp) as [Hadv Hlast]. split.
    + intros w w' H. apply bind_Ok_inv in H as ([] & wa & Ha & H).
      inversion H; subst. eapply Hadv. exact Ha.
    + intros w w' H Hn. apply bind_Ok_inv in H as ([] & wa & Ha & H).
      inversion H; subst.
      destruct (Hlast _ _ Ha Hn) as (row & wf & Hw & Hthrow).
      exists row, wf. split; [exact Hw|].
      apply bind_Throw_eq. exact Hthrow.
  - apply rejectsLog_bind; [apply Hrep | intros _; exact IH].
Qed.

Lemma rejectsLog_convertOne vid evt g exp :
  rejectsLog n (convertOne rt vid evt g exp)
               (convertOne (set_storeFault rt f') vid evt g exp).
Proof.
  unfold convertOne.
  do 4 (apply rejectsLog_bind; [replay_step | intros _]).
  apply rejectsLog_bind;
    [apply replays_updateDailyStat; exact Hagree | intros _].
  apply rejectsLog_now_log.
Qed.

Lemma rejectsLog_handleExperimentView vid evt :
  truthy (ev_experimentId evt) && truthy (ev_variantId evt) = true ->
  rejectsLog n (handleExperimentView rt vid evt)
               (handleExperimentView (set_storeFault rt f') vid evt).
Proof.
  intros Hids. unfold handleExperimentView.
  destruct (ev_experimentId evt) as [x|]; [|discriminate Hids].
  destruct (ev_variantId evt) as [v|];
    [|rewrite andb_false_r in Hids; discriminate Hids].
  apply andb_prop in Hids as [Hx Hv]. rewrite Hx, Hv. simpl.
  apply rejectsLog_bind; [replay_step | intros existing].
  apply rejectsLog_bind.
  { destruct existing; [replay_step|].
    do 3 (replay_step; [replay_step|]).
    apply replays_updateDailyStat. exact Hagree. }
  intros _. apply rejectsLog_bind; [replay_step | intros _].
  apply rejectsLog_now_log.
Qed.

Lemma rejectsLog_view evt :
  required evt = true ->
  ev_eventType evt = "EXPERIMENT_VIEW" ->
  truthy (ev_experimentId evt) && truthy (ev_variantId evt) = true ->
  rejectsLog n (processEvent rt evt)
               (processEvent (set_storeFault rt f') evt).
Proof.
  intros Hreq Hty Hids.
  assert (H : rejectsLog n
    (bind (upsertVisitor rt evt)
       (fun a => handleExperimentView rt (v_id a) evt))
    (bind (upsertVisitor (set_storeFault rt f') evt)
       (fun a => handleExperimentView (set_storeFault rt f') (v_id a) evt))).
  { apply rejectsLog_bind;
      [apply replays_upsertVisitor; exact Hagree | intros a].
    apply rejectsLog_handleExperimentView. exact Hids. }
  destruct H as [Hadv Hrej]. split.
  - intros w w' Hrun. rewrite processEvent_routed in Hrun by exact Hreq.
    rewrite Hty in Hrun. apply (Hadv w w'). exact Hrun.
  - intros w w' Hrun Hn. rewrite processEvent_routed in Hrun by exact Hreq.
    rewrite Hty in Hrun.
    destruct (Hrej w w' Hrun Hn) as (row & wf & Hw & Hthrow).
    exists row, wf. split; [exact Hw|].
    rewrite processEvent_routed by exact Hreq. rewrite Hty. exact Hthrow.
Qed.

Lemma rejectsLog_conversion evt g done exp rest :
  required evt = true ->
  ev_eventType evt = "GOAL_CONVERSION" ->
  ev_goalId evt = Some g ->
  g <> "" ->
  ev_attributedExperiments evt = Some (done ++ exp :: rest)%list ->
  rejectsLog n
    (processEvent rt (set_goal evt (Some g) (Some (done ++ [exp])%list)))
    (processEvent (set_storeFault rt f') evt).
Proof.
  intros Hreq Hty Hg Hgne Hl.
  assert (H : rejectsLog n
    (bind (upsertVisitor rt evt)
       (fun a => forEach (done ++ [exp])
                   (convertOne rt (v_id a) evt g)))
    (bind (upsertVisitor (set_storeFault rt f') evt)
       (fun a => forEach (done ++ exp :: rest)
                   (convertOne (set_storeFault rt f') (v_id a) evt g)))).
  { apply rejectsLog_bind;
      [apply replays_upsertVisitor; exact Hagree | intros a].
    apply rejectsLog_forEach.
    - intros x. apply replays_convertOne. exact Hagree.
    - intros x. apply rejectsLog_convertOne. }
  assert (Lcut : forall w,
    processEvent rt (set_goal evt (Some g) (Some (done ++ [exp])%list)) w
    = bind (upsertVisitor rt evt)
        (fun a => forEach (done ++ [exp])
                    (convertOne rt (v_id a) evt g)) w).
  { intros w. rewrite processEvent_routed by exact Hreq.
    cbn [ev_eventType set_goal]. rewrite Hty. simpl String.eqb. cbv iota.
    unfold handleGoalConversion.
    cbn [ev_goalId ev_attributedExperiments set_goal].
    rewrite (truthy_Some g Hgne). simpl negb. simpl orb.
    assert (Hlen : (length (done ++ [exp]) =? 0)%nat = false)
      by (apply Nat.eqb_neq; rewrite length_app; simpl; lia).
    rewrite Hlen. reflexivity. }
  assert (Lall : forall w,
    processEvent (set_storeFault rt f') evt w
    = bind (upsertVisitor (set_storeFault rt f') evt)
        (fun a => forEach (done ++ exp :: rest)
                    (convertOne (set_storeFault rt f') (v_id a) evt g)) w).
  { intros w. rewrite processEvent_routed by exact Hreq.
    rewrite Hty. simpl String.eqb. cbv iota.
    unfold handleGoalConversion. rewrite Hg, Hl.
    rewrite (truthy_Some g Hgne). simpl negb. simpl orb.
    assert (Hlen : (length (done ++ exp :: rest) =? 0)%nat = false)
      by (apply Nat.eqb_neq; rewrite length_app; simpl; lia).
    rewrite Hlen. reflexivity. }
  destruct H as [Hadv Hrej]. split.
  - intros w w' Hrun. rewrite Lcut in Hrun. apply (Hadv w w'). exact Hrun.
  - intros w w' Hrun Hn. rewrite Lcut in Hrun.
    destruct (Hrej w w' Hrun Hn) as (row & wf & Hw & Hthrow).
    exists row, wf. split; [exact Hw|]. rewrite Lall. exact Hthrow.
Qed.

End RejectedLog.

(** C5, amended: a rejected LiveLog write is not swallowed where it
    happens.  Let the store reject call [n] for a reason of its own and
    answer the calls before it as in a run in which call [n] is the
    LiveLog write and is taken.  For an EXPERIMENT_VIEW with its ids that
    run is the run of the event, whose last call is the write; for a
    GOAL_CONVERSION it is the run of the event with its attribution list
    cut after some attribution, whose last call is the write of that
    attribution.  Then the event throws at the write, with the rejection
    of the store as the exception: nothing more is done for the event,
    and the per-event catch of the handler logs the error and goes on with
    the events that follow.  The world the event leaves is the world of
    the other run, the LiveLog row apart: for a view all other effects are
    applied exactly as if the write had succeeded; for a conversion the
    attributions up to the one whose write was rejected are applied in
    full and the remaining ones not at all.  Only an EXPERIMENT_VIEW or a
    GOAL_CONVERSION throws at a LiveLog write, and a throw is the last
    thing an event does. *)
Theorem livelog_failure_fails_the_event rt f' n evt w w' :
  (forall i, i < n -> f' i = storeFault rt i) ->
  f' n = true ->
  required evt = true ->
  storeCalls w' = S n ->
  let rt' := set_storeFault rt f' in
  (ev_eventType evt = "EXPERIMENT_VIEW" ->
   truthy (ev_experimentId evt) && truthy (ev_variantId evt) = true ->
   processEvent rt evt w = (Ok tt, w') ->
   exists row wf,
     w' = withLog wf row /\
     processEvent rt' evt w = (Throw (logRejected n), wf) /\
     storeCalls wf = S n /\
     forall rest,
       processEvents rt' (evt :: rest) w
       = processEvents rt' rest
           (set_console wf
              (console wf ++ [ErrorEventProcessing (logRejected n) evt])))
  /\
  (ev_eventType evt = "GOAL_CONVERSION" ->
   forall g done exp rest,
     ev_goalId evt = Some g -> g <> "" ->
     ev_attributedExperiments evt = Some (done ++ exp :: rest)%list ->
     processEvent rt (set_goal evt (Some g) (Some (done ++ [exp])%list)) w
     = (Ok tt, w') ->
     exists row wf,
       w' = withLog wf row /\
       processEvent rt' evt w = (Throw (logRejected n), wf) /\
       storeCalls wf = S n /\
       forall rest',
         processEvents rt' (evt :: rest') w
         = processEvents rt' rest'
             (set_console wf
                (console wf ++ [ErrorEventProcessing (logRejected n) evt])))
  /\
  (forall err w1,
     processEvent rt' evt w = (Throw err, w1) ->
     storeCalls w1 = S (exn_call err) /\
     (exn_op err = LiveLogCreate ->
      ev_eventType evt = "EXPERIMENT_VIEW" \/
      ev_eventType evt = "GOAL_CONVERSION")).
Proof.
  intros Hagree Hfault Hreq Hn rt'. split; [|split].
  - intros Hty Hids Hrun.
    destruct (rejectsLog_view rt f' n Hagree Hfault evt Hreq Hty Hids)
      as [_ Hrej].
    destruct (Hrej w w' Hrun Hn) as (row & wf & Hw & Hthrow).
    exists row, wf. split; [exact Hw|]. split; [exact Hthrow|].
    split; [rewrite Hw in Hn; exact Hn|].
    intros rest. apply processEvents_cons_failed. exact Hthrow.
  - intros Hty g done exp rest Hg Hgne Hl Hrun.
    destruct (rejectsLog_conversion rt f' n Hagree Hfault evt g done exp
                rest Hreq Hty Hg Hgne Hl) as [_ Hrej].
    destruct (Hrej w w' Hrun Hn) as (row & wf & Hw & Hthrow).
    exists row, wf. split; [exact Hw|]. split; [exact Hthrow|].
    split; [rewrite Hw in Hn; exact Hn|].
    intros rest'. apply processEvents_cons_failed. exact Hthrow.
  - intros err w1 Hthrow.
    split; [eapply throwsLast_processEvent; exact Hthrow|].
    intros Hop. eapply log_failure_event_type; eassumption.
Qed.

Lemma livelog_failure_fails_the_event_witness :
  (forall i, i < 6 -> faultAt 6 i = storeFault (sampleRuntime noFault) i) /\
  faultAt 6 6 = true /\
  required conversion2 = true /\
  processEvent (sampleRuntime noFault) conversion1 (world0 sampleDb)
  = (Ok tt, converted1) /\
  storeCalls converted1 = 7 /\
  processEvent (sampleRuntime (faultAt 6)) conversion2 (world0 sampleDb)
  = (Throw rejected6, failed6) /\
  (exists row, converted1 = withLog failed6 row) /\
  length (goalConversion (db failed6)) = 1 /\
  processEvent (sampleRuntime noFault) view1 (world0 sampleDb)
  = (Ok tt, viewed1) /\
  storeCalls viewed1 = 8 /\
  processEvent (sampleRuntime (faultAt 7)) view1 (world0 sampleDb)
  = (Throw (logRejected 7), failed7) /\
  (exists row, viewed1 = withLog failed7 row).
Proof.
  assert (Hagree6 : forall i, i < 6 ->
            faultAt 6 i = storeFault (sampleRuntime noFault) i).
  { intros i Hi. unfold faultAt. simpl. apply Nat.eqb_neq. lia. }
  assert (Hagree7 : forall i, i < 7 ->
            faultAt 7 i = storeFault (sampleRuntime noFault) i).
  { intros i Hi. unfold faultAt. simpl. apply Nat.eqb_neq. lia. }
  assert (Hrun1 : processEvent (sampleRuntime noFault) conversion1
                    (world0 sampleDb) = (Ok tt, converted1))
    by (vm_compute; reflexivity).
  assert (Hrun6 : processEvent (sampleRuntime (faultAt 6)) conversion2
                    (world0 sampleDb) = (Throw rejected6, failed6))
    by (vm_compute; reflexivity).
  assert (Hview : processEvent (sampleRuntime noFault) view1
                    (world0 sampleDb) = (Ok tt, viewed1))
    by (vm_compute; reflexivity).
  assert (Hrun7 : processEvent (sampleRuntime (faultAt 7)) view1
                    (world0 sampleDb) = (Throw (logRejected 7), failed7))
    by (vm_compute; reflexivity).
  assert (Hn6 : storeCalls converted1 = 7) by (vm_compute; reflexivity).
  assert (Hn7 : storeCalls viewed1 = 8) by (vm_compute; reflexivity).
  split; [exact Hagree6|]. split; [reflexivity|]. split; [reflexivity|].
  split; [exact Hrun1|]. split; [exact Hn6|]. split; [exact Hrun6|].
  destruct (livelog_failure_fails_the_event (sampleRuntime noFault)
              (faultAt 6) 6 conversion2 (world0 sampleDb) converted1
              Hagree6 eq_refl eq_refl Hn6) as (_ & Hconv & _).
  destruct (Hconv eq_refl "g1" [] (attribution "exp1" "v1")
              [attribution "exp1" "v2"] eq_refl ltac:(discriminate)
              eq_refl Hrun1) as (row & wf & Hw & Hthrow & _).
  change (set_storeFault (sampleRuntime noFault) (faultAt 6))
    with (sampleRuntime (faultAt 6)) in Hthrow.
  rewrite Hrun6 in Hthrow. inversion Hthrow; subst wf.
  split; [exists row; exact Hw|].
  split; [vm_compute; reflexivity|].
  split; [exact Hview|]. split; [exact Hn7|]. split; [exact Hrun7|].
  destruct (livelog_failure_fails_the_event (sampleRuntime noFault)
              (faultAt 7) 7 view1 (world0 sampleDb) viewed1
              Hagree7 eq_refl eq_refl Hn7) as (Hv & _ & _).
  destruct (Hv eq_refl eq_refl Hview) as (row7 & wf7 & Hw7 & Hthrow7 & _).
  change (set_storeFault (sampleRuntime noFault) (faultAt 7))
    with (sampleRuntime (faultAt 7)) in Hthrow7.
  rewrite Hrun7 in Hthrow7. inversion Hthrow7; subst wf7.
  exists row7. exact Hw7.
Defined.

(** * Further properties of the event processor *)

(** ** The batch *)

Lemma processRecord_outcome rt record output w :
  exists w',
    processRecord rt record output w
    = (Ok (output ++ [recordOutcome rt record])%list, w').
Proof.
  unfold processRecord, recordOutcome, decodes, try_catch.
  destruct (JSON_parse rt (base64_utf8 rt (data record))) as [parsed|].
  - destruct (processEvents_Handled rt (eventsOf parsed) w)
      as (m & w' & _ & Hrun & _).
    exists w'. fold (eventsOf parsed). unfold bind. rewrite Hrun.
    reflexivity.
  - eexists. reflexivity.
Qed.

Lemma processRecords_outcome rt records : forall output w,
  exists w',
    processRecords rt records output w
    = (Ok (output ++ List.map (recordOutcome rt) records)%list, w').
Proof.
  induction records as [|record rest IH]; intros output w; simpl.
  - exists w. rewrite app_nil_r. reflexivity.
  - destruct (processRecord_outcome rt record output w) as (w1 & H1).
    destruct (IH (output ++ [recordOutcome rt record])%list w1)
      as (w' & H2).
    exists w'. unfold bind. rewrite H1, H2, <- app_assoc. reflexivity.
Qed.

(** X1: the handler never throws.  It returns one outcome per record, in
    the order of the records, each with the id and the unchanged body of
    its record; the outcome is "Ok" when the body decodes and
    "ProcessingFailed" when it does not, whatever happens to the events. *)
Theorem handler_reports_every_record rt records w :
  exists w',
    handler rt records w
    = (Ok (List.map (recordOutcome rt) records), w') /\
    length (List.map (recordOutcome rt) records) = length records /\
    List.map out_recordId (List.map (recordOutcome rt) records)
    = List.map recordId records /\
    List.map out_data (List.map (recordOutcome rt) records)
    = List.map data records.
Proof.
  destruct (processRecords_outcome rt records []
              (set_console w
                 (console w ++ [LogProcessing (length records)])))
    as (w1 & H1).
  eexists. split.
  - unfold handler, bind, console_push. rewrite H1. reflexivity.
  - split; [apply length_map|].
    split; rewrite map_map; apply map_ext; intros r; reflexivity.
Qed.

(** ** Events without their correlation fields *)

(** X2: events that lack projectId, visitorId or eventType are dropped
    before any store call: handling a list of such events returns, makes no
    call on the store, leaves the store and the clock as they were, and
    logs one warning per event. *)
Theorem incomplete_events_are_dropped rt events w :
  Forall (fun evt => required evt = false) events ->
  processEvents rt events w
  = (Ok tt, set_console w (console w ++ List.map missingWarning events)).
Proof.
  intros H. revert w. unfold processEvents.
  induction H as [|evt rest Hevt _ IH]; intros w; simpl.
  - rewrite app_nil_r. destruct w; reflexivity.
  - unfold bind, try_catch.
    rewrite processEvent_dropped by exact Hevt. simpl.
    rewrite IH. simpl. rewrite <- app_assoc. reflexivity.
Qed.

(** ** Daily statistics are best effort *)

(** A daily-statistics write that the store rejects is swallowed:
    [updateDailyStat] returns normally, the store is unchanged, and the
    rejection is logged once. *)
Lemma updateDailyStat_rejected rt x field revenue w :
  storeFault rt (storeCalls w) = true ->
  updateDailyStat rt x field revenue w
  = (Ok tt,
     {| db := db w;
        console :=
          console w
          ++ [ErrorDailyStatUpdate
                {| exn_call := storeCalls w;
                   exn_op := ExperimentDailyStatUpsert;
                   exn_kind := Rejected |}];
        storeCalls := S (storeCalls w);
        clockReads := S (clockReads w) |}).
Proof.
  intros Hf. unfold updateDailyStat, bind, now, try_catch, storeCall.
  simpl. rewrite Hf. reflexivity.
Qed.

Lemma throwsOnly_ret {A} P (a : A) : throwsOnly P (ret a).
Proof. intros w e w' H. discriminate H. Qed.

Lemma throwsOnly_bind {A B} P (m : M A) (k : A -> M B) :
  throwsOnly P m -> (forall a, throwsOnly P (k a)) ->
  throwsOnly P (bind m k).
Proof.
  intros Hm Hk w e w' H. apply bind_Throw_inv in H as [H|(a & w1 & _ & H)].
  - eapply Hm. exact H.
  - eapply Hk. exact H.
Qed.

Lemma throwsOnly_storeCall {A} (P : StoreOp -> Prop) rt op
    (f : Db -> StoreResult A) :
  P op -> throwsOnly P (storeCall rt op f).
Proof.
  intros Hop w e w' H. apply storeCall_Throw_inv in H as (_ & -> & _).
  exact Hop.
Qed.

Lemma throwsOnly_now P rt : throwsOnly P (now rt).
Proof. intros w e w' H. discriminate H. Qed.

Lemma throwsOnly_console_push P c : throwsOnly P (console_push c).
Proof. intros w e w' H. discriminate H. Qed.

Lemma throwsOnly_updateDailyStat P rt x field revenue :
  throwsOnly P (updateDailyStat rt x field revenue).
Proof.
  intros w e w' H.
  destruct (updateDailyStat_run rt x field revenue w) as (w1 & Hrun & _).
  rewrite Hrun in H. discriminate H.
Qed.

Lemma throwsOnly_forEach {A} P (l : list A) (body : A -> M unit) :
  (forall x, throwsOnly P (body x)) -> throwsOnly P (forEach l body).
Proof.
  intros Hb. induction l as [|x l IH]; simpl.
  - apply throwsOnly_ret.
  - apply throwsOnly_bind; [apply Hb | intros _; exact IH].
Qed.

Ltac only_step :=
  first
    [ apply throwsOnly_ret
    | apply throwsOnly_now
    | apply throwsOnly_console_push
    | apply throwsOnly_updateDailyStat
    | apply throwsOnly_storeCall; discriminate
    | apply throwsOnly_bind; [|intros ?]
    | apply throwsOnly_forEach; intros ? ].

(** X4: no event fails because of the daily statistics: whatever the store
    does, a throw of [processEvent] never comes from the upsert of an
    ExperimentDailyStat row. *)
Theorem daily_stat_never_fails_the_event rt evt w e w' :
  processEvent rt evt w = (Throw e, w') ->
  exn_op e <> ExperimentDailyStatUpsert.
Proof.
  revert w e w'.
  change (throwsOnly (fun op => op <> ExperimentDailyStatUpsert)
            (processEvent rt evt)).
  unfold processEvent.
  destruct (negb (truthy (Some (ev_projectId evt)))
            || negb (truthy (Some (ev_visitorId evt)))
            || negb (truthy (Some (ev_eventType evt)))); [only_step|].
  only_step; [unfold upsertVisitor; only_step|].
  destruct (String.eqb (ev_eventType evt) "SESSION_START").
  { unfold handleSessionStart. repeat only_step. }
  destruct (String.eqb (ev_eventType evt) "EXPERIMENT_VIEW").
  { unfold handleExperimentView.
    destruct (ev_experimentId evt) as [x|]; [|only_step].
    destruct (ev_variantId evt) as [v|]; [|only_step].
    destruct (negb (truthy (Some x)) || negb (truthy (Some v)));
      [only_step|].
    only_step; [only_step|].
    only_step; [destruct a0; repeat only_step|].
    repeat only_step. }
  destruct (String.eqb (ev_eventType evt) "GOAL_CONVERSION").
  { unfold handleGoalConversion.
    destruct (ev_goalId evt) as [g|]; [|only_step].
    destruct (ev_attributedExperiments evt) as [l|]; [|only_step].
    destruct (negb (truthy (Some g)) || (length l =? 0)%nat);
      [only_step|].
    unfold convertOne. repeat only_step. }
  destruct (String.eqb (ev_eventType evt) "CUSTOM_EVENT").
  - unfold handleCustomEvent. only_step.
  - unfold handleGenericEvent. only_step.
Qed.

(** ** What the processor never undoes *)

Section MapGrows.

Context `{Countable K} {V : Type} (le : V -> V -> Prop).
Hypothesis le_refl : forall r, le r r.
Hypothesis le_trans : forall a b c, le a b -> le b c -> le a c.

Lemma mapGrows_refl (m : gmap K V) : mapGrows le m m.
Proof. intros k r Hr. exists r. split; [exact Hr | apply le_refl]. Qed.

Lemma mapGrows_trans (a b c : gmap K V) :
  mapGrows le a b -> mapGrows le b c -> mapGrows le a c.
Proof.
  intros Hab Hbc k r Hr.
  destruct (Hab k r Hr) as (r1 & H1 & L1).
  destruct (Hbc k r1 H1) as (r2 & H2 & L2).
  exists r2. split; [exact H2 | eapply le_trans; eassumption].
Qed.

Lemma mapGrows_insert_Some (m : gmap K V) k r r' :
  m !! k = Some r -> le r r' -> mapGrows le m (<[k := r']> m).
Proof.
  intros Hk Hle j x Hj. destruct (decide (k = j)) as [->|Hne].
  - rewrite Hk in Hj. inversion Hj; subst. exists r'.
    split; [apply lookup_insert_eq | exact Hle].
  - exists x. rewrite lookup_insert_ne by exact Hne.
    split; [exact Hj | apply le_refl].
Qed.

Lemma mapGrows_insert_None (m : gmap K V) k r' :
  m !! k = None -> mapGrows le m (<[k := r']> m).
Proof.
  intros Hk j x Hj. destruct (decide (k = j)) as [->|Hne].
  - congruence.
  - exists x. rewrite lookup_insert_ne by exact Hne.
    split; [exact Hj | apply le_refl].
Qed.

End MapGrows.

Lemma leVariant_refl r : leVariant r r.
Proof. split; lia. Qed.
Lemma leVariant_trans a b c : leVariant a b -> leVariant b c -> leVariant a c.
Proof. intros [] []. split; lia. Qed.
Lemma leExperiment_refl r : leExperiment r r.
Proof. split; lia. Qed.
Lemma leExperiment_trans a b c :
  leExperiment a b -> leExperiment b c -> leExperiment a c.
Proof. intros [] []. split; lia. Qed.
Lemma leDaily_refl r : leDaily r r.
Proof. split; lia. Qed.
Lemma leDaily_trans a b c : leDaily a b -> leDaily b c -> leDaily a c.
Proof. intros [] []. split; lia. Qed.
Lemma leGoal_refl r : leGoal r r.
Proof. repeat split; lia. Qed.
Lemma leGoal_trans a b c : leGoal a b -> leGoal b c -> leGoal a c.
Proof. intros (?&?&?) (?&?&?). repeat split; try congruence; lia. Qed.
Lemma leVisitor_refl r : leVisitor r r.
Proof. repeat split; lia. Qed.
Lemma leVisitor_trans a b c : leVisitor a b -> leVisitor b c -> leVisitor a c.
Proof.
  intros (?&?&?&?&?&?&?&?&?&?&?) (?&?&?&?&?&?&?&?&?&?&?).
  repeat split; try congruence; lia.
Qed.

Lemma appended_refl {A} (l : list A) : appended l l.
Proof. exists []. rewrite app_nil_r. reflexivity. Qed.
Lemma appended_trans {A} (a b c : list A) :
  appended a b -> appended b c -> appended a c.
Proof.
  intros [r1 ->] [r2 ->]. exists (r1 ++ r2)%list.
  rewrite app_assoc. reflexivity.
Qed.
Lemma appended_one {A} (l : list A) x : appended l (l ++ [x]).
Proof. exists [x]. reflexivity. Qed.

Lemma Forall2_leGoal_refl rows : Forall2 leGoal rows rows.
Proof. induction rows; constructor; [apply leGoal_refl | assumption]. Qed.

Lemma Forall2_leGoal_trans a : forall b c,
  Forall2 leGoal a b -> Forall2 leGoal b c -> Forall2 leGoal a c.
Proof.
  induction a as [|x a IH]; intros b c Hab Hbc.
  - inversion Hab; subst. inversion Hbc; subst. constructor.
  - inversion Hab as [|? y ? b' Hxy Hab']; subst.
    inversion Hbc as [|? z ? c' Hyz Hbc']; subst.
    constructor; [eapply leGoal_trans; eassumption | eapply IH; eassumption].
Qed.

Lemma Forall2_leGoal_updateMany (where_ : ExperimentGoalRow -> bool) rows :
  Forall2 leGoal rows
    (List.map (fun r => if where_ r then incr_goal r else r) rows).
Proof.
  induction rows as [|r rows IH]; simpl; constructor; [|exact IH].
  destruct (where_ r); [|apply leGoal_refl].
  repeat split; simpl; lia.
Qed.

Lemma storeGrows_refl d : storeGrows d d.
Proof.
  repeat split;
    first [ apply appended_refl | apply Forall2_leGoal_refl
          | apply mapGrows_refl; intros; first
              [ reflexivity | apply leVisitor_refl | apply leVariant_refl
              | apply leExperiment_refl | apply leDaily_refl ] ].
Qed.

Lemma storeGrows_trans a b c :
  storeGrows a b -> storeGrows b c -> storeGrows a c.
Proof.
  intros (A1&A2&A3&A4&A5&A6&A7&A8&A9) (B1&B2&B3&B4&B5&B6&B7&B8&B9).
  split; [eapply mapGrows_trans; [apply leVisitor_trans | |]; eassumption|].
  split; [eapply appended_trans; eassumption|].
  split; [eapply mapGrows_trans;
          [intros ? ? ? -> ->; reflexivity | |]; eassumption|].
  split; [eapply mapGrows_trans; [apply leVariant_trans | |]; eassumption|].
  split; [eapply mapGrows_trans;
          [apply leExperiment_trans | |]; eassumption|].
  split; [eapply appended_trans; eassumption|].
  split; [eapply Forall2_leGoal_trans; eassumption|].
  split; [eapply mapGrows_trans; [apply leDaily_trans | |]; eassumption|].
  eapply appended_trans; eassumption.
Qed.

Lemma worldGrows_refl w : worldGrows w w.
Proof. apply storeGrows_refl. Qed.

Lemma worldGrows_trans a b c :
  worldGrows a b -> worldGrows b c -> worldGrows a c.
Proof. apply storeGrows_trans. Qed.

Lemma worldGrows_storeCall {A} rt op (f : Db -> StoreResult A) :
  (forall d a d', f d = inr (a, d') -> storeGrows d d') ->
  steps worldGrows (storeCall rt op f).
Proof.
  intros Hf. apply steps_storeCall.
  - intros w. apply storeGrows_refl.
  - intros w a d E. unfold worldGrows. simpl. eapply Hf. exact E.
Qed.

(** One component of [storeGrows] after an operation on one table. *)
Ltac grow_component :=
  first
    [ apply appended_refl
    | apply appended_one
    | apply Forall2_leGoal_refl
    | apply Forall2_leGoal_updateMany
    | apply mapGrows_refl; intros; first
        [ reflexivity | apply leVisitor_refl | apply leVariant_refl
        | apply leExperiment_refl | apply leDaily_refl ]
    | eapply mapGrows_insert_Some;
      [ intros; first
          [ reflexivity | apply leVisitor_refl | apply leVariant_refl
          | apply leExperiment_refl | apply leDaily_refl ]
      | eassumption
      | repeat split; simpl; first [reflexivity | lia] ]
    | eapply mapGrows_insert_None;
      [ intros; first
          [ reflexivity | apply leVisitor_refl | apply leVariant_refl
          | apply leExperiment_refl | apply leDaily_refl ]
      | eassumption ] ].

Ltac grow_frame :=
  let d := fresh "d" in
  let a := fresh "a" in
  let d' := fresh "d'" in
  let H := fresh "H" in
  intros d a d' H;
  unfold visitor_upsert, visitor_update, event_create,
    variantAssignment_findUnique, variantAssignment_create,
    variant_update, experiment_update, goalConversion_create,
    experimentGoal_updateMany, experimentDailyStat_upsert,
    liveLog_create in H;
  repeat match type of H with
         | context [@lookup ?K ?V ?T ?I ?k ?m] =>
             destruct (@lookup K V T I k m) eqn:?
         end;
  inversion H; subst; clear H;
  unfold storeGrows; simpl;
  repeat (split; [grow_component|]); grow_component.

Ltac grow_step :=
  first
    [ apply steps_ret; apply worldGrows_refl
    | (intros ?; apply storeGrows_refl)
    | apply worldGrows_storeCall; grow_frame
    | apply steps_bind; [apply worldGrows_trans | | intros ?]
    | apply steps_try_catch; [apply worldGrows_trans | | intros ?]
    | apply steps_forEach;
      [apply worldGrows_refl | apply worldGrows_trans | intros ? _] ].

Lemma worldGrows_updateDailyStat rt x field revenue :
  steps worldGrows (updateDailyStat rt x field revenue).
Proof.
  unfold updateDailyStat. grow_step; [grow_step|].
  grow_step; [|grow_step].
  apply worldGrows_storeCall. intros d ? d' H.
  unfold experimentDailyStat_upsert in H.
  destruct (experimentDailyStat d !! _) as [row|] eqn:E;
    inversion H; subst; clear H; unfold storeGrows; simpl;
    repeat (split; [grow_component|]).
  - split; [|grow_component].
    eapply mapGrows_insert_Some;
      [apply leDaily_refl | exact E |].
    unfold dailyStat_update, leDaily. simpl.
    destruct (is_conversions field); split; lia.
  - grow_component.
Qed.

Lemma worldGrows_processEvent rt evt :
  steps worldGrows (processEvent rt evt).
Proof.
  unfold processEvent.
  destruct (negb (truthy (Some (ev_projectId evt)))
            || negb (truthy (Some (ev_visitorId evt)))
            || negb (truthy (Some (ev_eventType evt)))); [grow_step|].
  grow_step; [unfold upsertVisitor; grow_step|].
  destruct (String.eqb (ev_eventType evt) "SESSION_START").
  { unfold handleSessionStart. repeat grow_step. }
  destruct (String.eqb (ev_eventType evt) "EXPERIMENT_VIEW").
  { unfold handleExperimentView.
    destruct (ev_experimentId evt) as [x|]; [|grow_step].
    destruct (ev_variantId evt) as [v|]; [|grow_step].
    destruct (negb (truthy (Some x)) || negb (truthy (Some v)));
      [grow_step|].
    grow_step; [grow_step|].
    grow_step.
    - destruct a0; [grow_step|].
      do 3 (grow_step; [grow_step|]).
      apply worldGrows_updateDailyStat.
    - repeat grow_step. }
  destruct (String.eqb (ev_eventType evt) "GOAL_CONVERSION").
  { unfold handleGoalConversion.
    destruct (ev_goalId evt) as [g|]; [|grow_step].
    destruct (ev_attributedExperiments evt) as [l|]; [|grow_step].
    destruct (negb (truthy (Some g)) || (length l =? 0)%nat);
      [grow_step|].
    grow_step. unfold convertOne.
    do 4 (grow_step; [grow_step|]).
    grow_step; [apply worldGrows_updateDailyStat|].
    repeat grow_step. }
  destruct (String.eqb (ev_eventType evt) "CUSTOM_EVENT").
  - unfold handleCustomEvent. grow_step.
  - unfold handleGenericEvent. grow_step.
Qed.

(** What holds of every event and of every console write holds of the
    whole batch. *)
Lemma steps_handler (R : World -> World -> Prop) rt :
  (forall w, R w w) ->
  (forall a b c, R a b -> R b c -> R a c) ->
  (forall c, steps R (console_push c)) ->
  (forall evt, steps R (processEvent rt evt)) ->
  forall records, steps R (handler rt records).
Proof.
  intros Rrefl Rtrans Hpush Hevt records.
  assert (Hevents : forall events, steps R (processEvents rt events)).
  { intros events. unfold processEvents.
    apply steps_forEach; [exact Rrefl | exact Rtrans |].
    intros evt _. apply steps_try_catch; [exact Rtrans | apply Hevt |].
    intros e. apply Hpush. }
  assert (Hrecord : forall record output,
             steps R (processRecord rt record output)).
  { intros record output. unfold processRecord.
    apply steps_try_catch; [exact Rtrans | |].
    - destruct (JSON_parse rt (base64_utf8 rt (data record))).
      + apply steps_bind; [exact Rtrans | apply Hevents |].
        intros _. apply steps_ret. exact Rrefl.
      + apply steps_bind; [exact Rtrans | apply Hpush |].
        intros _. apply steps_ret. exact Rrefl.
    - intros e. apply steps_bind; [exact Rtrans | apply Hpush |].
      intros _. apply steps_ret. exact Rrefl. }
  assert (Hrecords : forall l output, steps R (processRecords rt l output)).
  { induction l as [|record rest IH]; intros output; simpl.
    - apply steps_ret. exact Rrefl.
    - apply steps_bind; [exact Rtrans | apply Hrecord |].
      intros output'. apply IH. }
  unfold handler.
  apply steps_bind; [exact Rtrans | apply Hpush |]. intros _.
  apply steps_bind; [exact Rtrans | apply Hrecords |]. intros output.
  apply steps_bind; [exact Rtrans | apply Hpush |]. intros _.
  apply steps_ret. exact Rrefl.
Qed.

Lemma worldGrows_handler rt records w :
  storeGrows (db w) (db (snd (handler rt records w))).
Proof.
  apply (steps_handler worldGrows rt worldGrows_refl worldGrows_trans).
  - intros c w0. apply storeGrows_refl.
  - apply worldGrows_processEvent.
Qed.

(** X5: counters only go up.  Whatever a batch contains and whatever the
    store rejects, after the handler every variant, experiment and daily
    statistics row that existed is still there, and no visitor,
    impression or conversion counter is lower than before; the
    experiment-goal rows are the same rows, in the same order, with
    conversion counters that are not lower. *)
Theorem handler_never_lowers_a_counter rt records w :
  mapGrows leVariant (variant (db w))
    (variant (db (snd (handler rt records w)))) /\
  mapGrows leExperiment (experiment (db w))
    (experiment (db (snd (handler rt records w)))) /\
  Forall2 leGoal (experimentGoal (db w))
    (experimentGoal (db (snd (handler rt records w)))) /\
  mapGrows leDaily (experimentDailyStat (db w))
    (experimentDailyStat (db (snd (handler rt records w)))).
Proof.
  destruct (worldGrows_handler rt records w)
    as (_ & _ & _ & Hv & He & _ & Hg & Hd & _).
  repeat split; assumption.
Qed.

(** X6: a visitor is classified once.  After the handler every visitor row
    that existed is still there with the user agent, device type, browser,
    operating system, referrer, campaign parameters and firstSeen it had:
    later events of the visitor never refresh them; visitCount and
    pageViews are not lower than before. *)
Theorem handler_keeps_visitor_identity rt records w :
  mapGrows leVisitor (visitor (db w))
    (visitor (db (snd (handler rt records w)))).
Proof. apply (worldGrows_handler rt records w). Qed.

(** X7: the Event, GoalConversion and LiveLog tables are append-only and
    assignments are immutable: after the handler the rows that were there
    are there, in their order and unchanged, with the new rows after them,
    and every assignment of a visitor to a variant is the same. *)
Theorem handler_only_appends rt records w :
  appended (event (db w)) (event (db (snd (handler rt records w)))) /\
  appended (goalConversion (db w))
    (goalConversion (db (snd (handler rt records w)))) /\
  appended (liveLog (db w)) (liveLog (db (snd (handler rt records w)))) /\
  mapGrows eq (variantAssignment (db w))
    (variantAssignment (db (snd (handler rt records w)))).
Proof.
  destruct (worldGrows_handler rt records w)
    as (_ & He & Ha & _ & _ & Hg & _ & _ & Hl).
  repeat split; assumption.
Qed.


Lemma incomplete_events_are_dropped_witness :
  Forall (fun evt => required evt = false) [untyped; untyped] /\
  processEvents (sampleRuntime noFault) [untyped; untyped] (world0 sampleDb)
  = (Ok tt,
     set_console (world0 sampleDb)
       (console (world0 sampleDb)
        ++ List.map missingWarning [untyped; untyped])).
Proof.
  split; [repeat constructor|].
  apply incomplete_events_are_dropped. repeat constructor.
Defined.

Lemma daily_stat_never_fails_the_event_witness :
  processEvent (sampleRuntime (faultAt 6)) conversion2 (world0 sampleDb)
  = (Throw rejected6, failed6) /\
  exn_op rejected6 <> ExperimentDailyStatUpsert.
Proof.
  split; [vm_compute; reflexivity|].
  apply (daily_stat_never_fails_the_event (sampleRuntime (faultAt 6))
           conversion2 (world0 sampleDb) rejected6 failed6).
  vm_compute. reflexivity.
Defined.

(** ** Running the processor forward *)

Lemma storeCall_run {A} rt op (f : Db -> StoreResult A) w a d :
  storeFault rt (storeCalls w) = false ->
  f (db w) = inr (a, d) ->
  storeCall rt op f w
  = (Ok a, set_db (set_storeCalls w (S (storeCalls w))) d).
Proof. intros Hf E. unfold storeCall. rewrite Hf, E. reflexivity. Qed.

Lemma storeCall_fails {A} rt op (f : Db -> StoreResult A) w k :
  storeFault rt (storeCalls w) = false ->
  f (db w) = inl k ->
  storeCall rt op f w
  = (Throw {| exn_call := storeCalls w; exn_op := op; exn_kind := k |},
     set_storeCalls w (S (storeCalls w))).
Proof. intros Hf E. unfold storeCall. rewrite Hf, E. reflexivity. Qed.

Lemma storeCall_rejected {A} rt op (f : Db -> StoreResult A) w :
  storeFault rt (storeCalls w) = true ->
  storeCall rt op f w
  = (Throw {| exn_call := storeCalls w; exn_op := op;
              exn_kind := Rejected |},
     set_storeCalls w (S (storeCalls w))).
Proof. intros Hf. unfold storeCall. rewrite Hf. reflexivity. Qed.

(** The upsert of the visitor succeeds whenever the store takes the
    call. *)
Lemma upsertVisitor_run rt evt w :
  storeFault rt (storeCalls w) = false ->
  exists a w1,
    upsertVisitor rt evt w = (Ok a, w1) /\
    v_id a = (ev_projectId evt, ev_visitorId evt) /\
    console w1 = console w /\
    clockReads w1 = clockReads w /\
    storeCalls w1 = S (storeCalls w) /\
    sameButVisitor (db w) (db w1).
Proof.
  intros Hf.
  destruct (upsertVisitor rt evt w) as [[a|e] w1] eqn:E.
  - exists a, w1. split; [reflexivity|].
    eapply upsertVisitor_Ok_world. exact E.
  - exfalso. unfold upsertVisitor, storeCall, visitor_upsert in E.
    rewrite Hf in E.
    destruct (visitor (db w) !! _); discriminate E.
Qed.

(** ** Events that are only recorded *)

(** X8: an event whose type is none of SESSION_START, EXPERIMENT_VIEW and
    GOAL_CONVERSION is only recorded, whatever it carries.  When the store
    takes the two calls, the event is processed to its end, one Event row
    is appended holding the whole event, and no counter, conversion, daily
    statistics or LiveLog row changes.  A CUSTOM_EVENT is stored under the
    type CUSTOM with its event name and with its first attribution only;
    any other type is stored under its own type, without experiment. *)
Theorem other_event_is_only_recorded rt evt w :
  required evt = true ->
  ev_eventType evt <> "SESSION_START" ->
  ev_eventType evt <> "EXPERIMENT_VIEW" ->
  ev_eventType evt <> "GOAL_CONVERSION" ->
  storeFault rt (storeCalls w) = false ->
  storeFault rt (S (storeCalls w)) = false ->
  let vid : VisitorDbId := (ev_projectId evt, ev_visitorId evt) in
  let custom := String.eqb (ev_eventType evt) "CUSTOM_EVENT" in
  exists row w',
    processEvent rt evt w = (Ok tt, w') /\
    event (db w') = (event (db w) ++ [row])%list /\
    e_projectId row = ev_projectId evt /\
    e_visitorId row = vid /\
    e_pageUrl row = ev_url evt /\
    e_eventData row = WholeEvent evt /\
    e_eventType row = (if custom then "CUSTOM" else ev_eventType evt) /\
    e_eventName row = (if custom then ev_eventName evt else None) /\
    e_experimentId row
    = (if custom then ae_experimentId <$> firstAttributed evt else None) /\
    e_variantId row
    = (if custom then ae_variantId <$> firstAttributed evt else None) /\
    variantAssignment (db w') = variantAssignment (db w) /\
    sameStatistics (db w) (db w') /\
    console w' = console w.
Proof.
  intros Hreq H1 H2 H3 Hf0 Hf1 vid custom.
  destruct (upsertVisitor_run rt evt w Hf0)
    as (a & w1 & Hup & Hid & Hc & _ & Hs & Hsame).
  destruct Hsame as (Hev & Hva & Hvar & Hexp & Hgc & Hgoal & Hds & Hll).
  rewrite processEvent_routed by exact Hreq.
  rewrite (bind_Ok_eq _ _ _ _ _ Hup).
  apply String.eqb_neq in H1, H2, H3. rewrite H1, H2, H3, Hid.
  fold vid. fold custom. rewrite <- Hs in Hf1.
  destruct custom.
  - unfold handleCustomEvent.
    erewrite storeCall_run; [|exact Hf1|reflexivity].
    eexists. eexists. split; [reflexivity|]. simpl.
    rewrite Hev, Hva, Hc.
    repeat split; assumption.
  - unfold handleGenericEvent.
    erewrite storeCall_run; [|exact Hf1|reflexivity].
    eexists. eexists. split; [reflexivity|]. simpl.
    rewrite Hev, Hva, Hc.
    repeat split; assumption.
Qed.

Lemma other_event_is_only_recorded_witness :
  required customEvent = true /\
  exists row w',
    processEvent (sampleRuntime noFault) customEvent (world0 sampleDb)
    = (Ok tt, w') /\
    event (db w') = [row] /\
    e_eventType row = "CUSTOM" /\
    e_experimentId row = Some "exp1" /\
    e_variantId row = Some "v1" /\
    sameStatistics sampleDb (db w').
Proof.
  split; [reflexivity|].
  destruct (other_event_is_only_recorded (sampleRuntime noFault)
              customEvent (world0 sampleDb))
    as (row & w' & H & Hev & _ & _ & _ & _ & Hty & _ & Hx & Hv & _ & Hs & _);
    try reflexivity; try discriminate.
  exists row, w'. repeat split; try assumption; apply Hs.
Defined.

(** ** Views that are applied in part *)

Lemma bind_assoc {A B C} (m : M A) (k : A -> M B) (k2 : B -> M C) w :
  bind (bind m k) k2 w = bind m (fun a => bind (k a) k2) w.
Proof.
  unfold bind. destruct (m w) as [[a|e] w1]; reflexivity.
Qed.

(** One store call that the store takes, at the head of a computation. *)
Ltac run_call Hfault :=
  rewrite ?bind_assoc;
  erewrite bind_Ok_eq;
  [| apply storeCall_run;
     [ simpl; exact Hfault
     | unfold variantAssignment_findUnique, variantAssignment_create,
         variant_update, experiment_update, event_create,
         goalConversion_create, experimentGoal_updateMany,
         liveLog_create, visitor_update;
       simpl; rewrite ?lookup_insert_eq;
       repeat match goal with
              | H : _ !! _ = _ |- _ => rewrite H
              end;
       reflexivity ] ].

(** X3: a first view whose daily-statistics write is rejected is still
    processed to its end.  The assignment is created, the visitor counters
    of the variant and of the experiment grow by one, the Event and LiveLog
    rows are written; only the daily statistics stay as they were, and the
    rejection is logged as a daily-statistics error. *)
Theorem first_view_survives_rejected_daily_stat rt evt x v rv rx w :
  required evt = true ->
  ev_eventType evt = "EXPERIMENT_VIEW" ->
  ev_experimentId evt = Some x ->
  ev_variantId evt = Some v ->
  x <> "" -> v <> "" ->
  let vid : VisitorDbId := (ev_projectId evt, ev_visitorId evt) in
  let n := storeCalls w in
  variantAssignment (db w) !! (vid, x) = None ->
  variant (db w) !! v = Some rv ->
  experiment (db w) !! x = Some rx ->
  (forall i, i < 8 -> storeFault rt (i + n) = (i =? 5)%nat) ->
  exists w',
    processEvent rt evt w = (Ok tt, w') /\
    variantAssignment (db w') = <[(vid, x) := v]> (variantAssignment (db w)) /\
    variant (db w')
    = <[v := {| visitors := (visitors rv + 1)%Z;
                conversions := conversions rv |}]> (variant (db w)) /\
    experiment (db w')
    = <[x := {| totalVisitors := (totalVisitors rx + 1)%Z;
                totalConversions := totalConversions rx |}]>
        (experiment (db w)) /\
    experimentDailyStat (db w') = experimentDailyStat (db w) /\
    event (db w') = (event (db w) ++ [viewEventRow vid evt x v])%list /\
    liveLog (db w')
    = (liveLog (db w)
       ++ [viewLogRow evt x v (Date_now rt (S (clockReads w)))])%list /\
    console w'
    = (console w
       ++ [ErrorDailyStatUpdate
             {| exn_call := 5 + n; exn_op := ExperimentDailyStatUpsert;
                exn_kind := Rejected |}])%list.
Proof.
  intros Hreq Hty Hx Hv Hxne Hvne vid n Hnone Hrv Hrx Hf.
  assert (Hf0 := Hf 0 ltac:(lia)). assert (Hf1 := Hf 1 ltac:(lia)).
  assert (Hf2 := Hf 2 ltac:(lia)). assert (Hf3 := Hf 3 ltac:(lia)).
  assert (Hf4 := Hf 4 ltac:(lia)). assert (Hf5 := Hf 5 ltac:(lia)).
  assert (Hf6 := Hf 6 ltac:(lia)). assert (Hf7 := Hf 7 ltac:(lia)).
  simpl in Hf0, Hf1, Hf2, Hf3, Hf4, Hf5, Hf6, Hf7.
  subst n.
  destruct (upsertVisitor_run rt evt w Hf0)
    as (a & w1 & Hup & Hid & Hc & Hr & Hs & Hsame).
  destruct Hsame as (Hev & Hva & Hvar & Hexp & Hgc & Hgoal & Hds & Hll).
  rewrite processEvent_routed by exact Hreq.
  rewrite (bind_Ok_eq _ _ _ _ _ Hup). rewrite Hty, Hid. simpl. fold vid.
  unfold handleExperimentView. rewrite Hx, Hv.
  rewrite (truthy_Some x Hxne), (truthy_Some v Hvne). simpl.
  rewrite <- Hs in Hf1, Hf2, Hf3, Hf4, Hf5, Hf6, Hf7.
  rewrite <- Hva in Hnone. rewrite <- Hvar in Hrv. rewrite <- Hexp in Hrx.
  run_call Hf1. cbv beta iota.
  run_call Hf2. run_call Hf3. run_call Hf4.
  rewrite ?bind_assoc.
  erewrite bind_Ok_eq; [|apply updateDailyStat_rejected; simpl; exact Hf5].
  run_call Hf6.
  erewrite bind_Ok_eq; [|reflexivity].
  erewrite storeCall_run; [|simpl; exact Hf7|reflexivity].
  eexists. split; [reflexivity|]. simpl.
  rewrite Hva, Hvar, Hexp, Hds, Hev, Hll, Hc, Hr, Hs.
  repeat split.
Qed.

Lemma first_view_survives_rejected_daily_stat_witness :
  required view1 = true /\
  variantAssignment sampleDb !! (("p1", "vis1") : VisitorDbId, "exp1") = None /\
  exists w',
    processEvent (sampleRuntime (faultAt 5)) view1 (world0 sampleDb)
    = (Ok tt, w') /\
    variant (db w') !! "v1" = Some {| visitors := 1; conversions := 0 |} /\
    experiment (db w') !! "exp1"
    = Some {| totalVisitors := 1; totalConversions := 0 |} /\
    experimentDailyStat (db w') = ∅ /\
    length (liveLog (db w')) = 1.
Proof.
  split; [reflexivity|]. split; [reflexivity|].
  destruct (first_view_survives_rejected_daily_stat
              (sampleRuntime (faultAt 5)) view1 "exp1" "v1"
              {| visitors := 0; conversions := 0 |}
              {| totalVisitors := 0; totalConversions := 0 |}
              (world0 sampleDb))
    as (w' & H & _ & Hvar & Hexp & Hds & _ & Hll & _);
    try reflexivity; try discriminate.
  { intros i _. simpl. rewrite Nat.add_0_r. reflexivity. }
  exists w'. split; [exact H|].
  split; [rewrite Hvar; apply lookup_insert_eq|].
  split; [rewrite Hexp; apply lookup_insert_eq|].
  split; [exact Hds|].
  rewrite Hll. reflexivity.
Defined.

(** X9: a first view that names a variant the store does not have fails
    at the update of the variant, the fourth call of the event, after the
    assignment has been written.  The assignment stays; no Event row, no
    counter, no daily statistics and no LiveLog row is written. *)
Theorem first_view_of_unknown_variant_keeps_assignment rt evt x v w :
  required evt = true ->
  ev_eventType evt = "EXPERIMENT_VIEW" ->
  ev_experimentId evt = Some x ->
  ev_variantId evt = Some v ->
  x <> "" -> v <> "" ->
  let vid : VisitorDbId := (ev_projectId evt, ev_visitorId evt) in
  let n := storeCalls w in
  variantAssignment (db w) !! (vid, x) = None ->
  variant (db w) !! v = None ->
  (forall i, i < 4 -> storeFault rt (i + n) = false) ->
  exists w',
    processEvent rt evt w
    = (Throw {| exn_call := 3 + n; exn_op := VariantUpdate;
                exn_kind := RecordNotFound |}, w') /\
    variantAssignment (db w') = <[(vid, x) := v]> (variantAssignment (db w)) /\
    event (db w') = event (db w) /\
    sameStatistics (db w) (db w').
Proof.
  intros Hreq Hty Hx Hv Hxne Hvne vid n Hnone Hrv Hf.
  assert (Hf0 := Hf 0 ltac:(lia)). assert (Hf1 := Hf 1 ltac:(lia)).
  assert (Hf2 := Hf 2 ltac:(lia)). assert (Hf3 := Hf 3 ltac:(lia)).
  simpl in Hf0, Hf1, Hf2, Hf3. subst n.
  destruct (upsertVisitor_run rt evt w Hf0)
    as (a & w1 & Hup & Hid & Hc & Hr & Hs & Hsame).
  destruct Hsame as (Hev & Hva & Hvar & Hexp & Hgc & Hgoal & Hds & Hll).
  rewrite processEvent_routed by exact Hreq.
  rewrite (bind_Ok_eq _ _ _ _ _ Hup). rewrite Hty, Hid. simpl. fold vid.
  unfold handleExperimentView. rewrite Hx, Hv.
  rewrite (truthy_Some x Hxne), (truthy_Some v Hvne). simpl.
  rewrite <- Hs in Hf1, Hf2, Hf3.
  rewrite <- Hva in Hnone. rewrite <- Hvar in Hrv.
  run_call Hf1. cbv beta iota. run_call Hf2.
  rewrite ?bind_assoc.
  erewrite bind_Throw_eq;
    [| apply storeCall_fails;
       [ simpl; exact Hf3
       | unfold variant_update; simpl; rewrite Hrv; reflexivity ] ].
  eexists. split; [simpl; rewrite Hs; reflexivity|]. simpl.
  rewrite Hva, Hev. repeat split; assumption.
Qed.

Lemma first_view_of_unknown_variant_keeps_assignment_witness :
  required viewUnknown = true /\
  variant sampleDb !! "v9" = None /\
  exists w',
    processEvent (sampleRuntime noFault) viewUnknown (world0 sampleDb)
    = (Throw {| exn_call := 3; exn_op := VariantUpdate;
                exn_kind := RecordNotFound |}, w') /\
    variantAssignment (db w')
    = {[ (("p1", "vis1") : VisitorDbId, "exp1") := "v9" ]} /\
    event (db w') = [].
Proof.
  split; [reflexivity|]. split; [reflexivity|].
  destruct (first_view_of_unknown_variant_keeps_assignment
              (sampleRuntime noFault) viewUnknown "exp1" "v9"
              (world0 sampleDb))
    as (w' & H & Hva & Hev & _);
    try reflexivity; try discriminate.
  exists w'. split; [exact H|]. split; [exact Hva | exact Hev].
Defined.

(** ** LiveLog rows expire a day after they are written *)

Lemma logsFresh_refl rt w : logsFresh rt w w.
Proof.
  split; [lia|]. exists []. rewrite app_nil_r. split; [reflexivity|].
  constructor.
Qed.

Lemma logsFresh_trans rt a b c :
  logsFresh rt a b -> logsFresh rt b c -> logsFresh rt a c.
Proof.
  intros (H1 & r1 & E1 & F1) (H2 & r2 & E2 & F2).
  split; [lia|]. exists (r1 ++ r2)%list.
  split; [rewrite E2, E1, app_assoc; reflexivity|].
  apply List.Forall_app. split.
  - eapply List.Forall_impl; [|exact F1].
    intros row (n & Hn & E). exists n. split; [lia | exact E].
  - eapply List.Forall_impl; [|exact F2].
    intros row (n & Hn & E). exists n. split; [lia | exact E].
Qed.

(** A store call that leaves the LiveLog table alone. *)
Lemma logsFresh_storeCall {A} rt op (f : Db -> StoreResult A) :
  (forall d a d', f d = inr (a, d') -> liveLog d' = liveLog d) ->
  steps (logsFresh rt) (storeCall rt op f).
Proof.
  intros Hf. apply steps_storeCall.
  - intros w. split; [simpl; lia|]. exists []. simpl.
    rewrite app_nil_r. split; [reflexivity | constructor].
  - intros w a d E. split; [simpl; lia|]. exists [].
    simpl. rewrite (Hf _ _ _ E), app_nil_r. split; [reflexivity|].
    constructor.
Qed.

Lemma logsFresh_now rt : steps (logsFresh rt) (now rt).
Proof.
  intros w. split; [simpl; lia|]. exists []. simpl.
  rewrite app_nil_r. split; [reflexivity | constructor].
Qed.

Lemma logsFresh_console_push rt c : steps (logsFresh rt) (console_push c).
Proof.
  intros w. split; [simpl; lia|]. exists []. simpl.
  rewrite app_nil_r. split; [reflexivity | constructor].
Qed.

(** The write of a LiveLog row: the clock is read, then the row is
    created with the reading plus a day. *)
Lemma logsFresh_log rt (row : Z -> LiveLogRow) :
  (forall t, l_expiresAt (row t) = (t + dayMs)%Z) ->
  steps (logsFresh rt)
    (let! t := now rt in storeCall rt LiveLogCreate (liveLog_create (row t))).
Proof.
  intros Hrow w. unfold bind, now, storeCall, liveLog_create. simpl.
  destruct (storeFault rt (storeCalls w)); simpl.
  - split; [simpl; lia|]. exists []. simpl. rewrite app_nil_r.
    split; [reflexivity | constructor].
  - split; [simpl; lia|]. eexists. simpl. split; [reflexivity|].
    constructor; [|constructor].
    exists (clockReads w). split; [lia|]. rewrite Hrow. reflexivity.
Qed.

Ltac log_frame :=
  let d := fresh "d" in
  let r := fresh "r" in
  let d' := fresh "d'" in
  let H := fresh "H" in
  intros d r d' H;
  unfold visitor_upsert, visitor_update, event_create,
    variantAssignment_findUnique, variantAssignment_create,
    variant_update, experiment_update, goalConversion_create,
    experimentGoal_updateMany, experimentDailyStat_upsert in H;
  repeat match type of H with
         | context [@lookup ?K ?V ?T ?I ?k ?m] =>
             destruct (@lookup K V T I k m)
         end;
  inversion H; subst; reflexivity.

Ltac log_step :=
  first
    [ apply steps_ret; apply logsFresh_refl
    | apply logsFresh_log; intros ?; reflexivity
    | apply logsFresh_now
    | apply logsFresh_console_push
    | apply logsFresh_storeCall; log_frame
    | apply steps_bind; [apply logsFresh_trans | | intros ?]
    | apply steps_try_catch; [apply logsFresh_trans | | intros ?]
    | apply steps_forEach;
      [apply logsFresh_refl | apply logsFresh_trans | intros ? _] ].

Lemma logsFresh_processEvent rt evt :
  steps (logsFresh rt) (processEvent rt evt).
Proof.
  unfold processEvent.
  destruct (negb (truthy (Some (ev_projectId evt)))
            || negb (truthy (Some (ev_visitorId evt)))
            || negb (truthy (Some (ev_eventType evt)))); [log_step|].
  log_step; [unfold upsertVisitor; log_step|].
  destruct (String.eqb (ev_eventType evt) "SESSION_START").
  { unfold handleSessionStart. repeat log_step. }
  destruct (String.eqb (ev_eventType evt) "EXPERIMENT_VIEW").
  { unfold handleExperimentView.
    destruct (ev_experimentId evt) as [x|]; [|log_step].
    destruct (ev_variantId evt) as [v|]; [|log_step].
    destruct (negb (truthy (Some x)) || negb (truthy (Some v)));
      [log_step|].
    log_step; [log_step|].
    log_step.
    - destruct a0; [log_step|]. unfold updateDailyStat. repeat log_step.
    - repeat log_step. }
  destruct (String.eqb (ev_eventType evt) "GOAL_CONVERSION").
  { unfold handleGoalConversion.
    destruct (ev_goalId evt) as [g|]; [|log_step].
    destruct (ev_attributedExperiments evt) as [l|]; [|log_step].
    destruct (negb (truthy (Some g)) || (length l =? 0)%nat);
      [log_step|].
    log_step. unfold convertOne, updateDailyStat. repeat log_step. }
  destruct (String.eqb (ev_eventType evt) "CUSTOM_EVENT").
  - unfold handleCustomEvent. log_step.
  - unfold handleGenericEvent. log_step.
Qed.

(** X11: the lifetime of a LiveLog row is counted from the moment it is
    written, not from the timestamp of the event.  Whatever the batch,
    the LiveLog rows the handler writes come after the rows that were
    there, and each of them expires exactly 86400000 ms (24 hours) after a
    reading of the wall clock made during the run. *)
Theorem livelog_rows_expire_a_day_after_writing rt records w :
  exists rows,
    liveLog (db (snd (handler rt records w)))
    = (liveLog (db w) ++ rows)%list /\
    Forall (fun row =>
              exists n,
                clockReads w <= n < clockReads (snd (handler rt records w))
                /\ l_expiresAt row = (Date_now rt n + 86400000)%Z)
           rows.
Proof.
  apply (steps_handler (logsFresh rt) rt (logsFresh_refl rt)
           (logsFresh_trans rt)).
  - apply logsFresh_console_push.
  - apply logsFresh_processEvent.
Qed.

(** ** The classes that earlier tests shadow *)

(** X12: the operating system is ios only for a user agent that contains
    iPhone, iPad or iOS and none of Windows, Mac OS, Linux and Android;
    the device type is tablet only for a user agent that contains Tablet
    or iPad and neither Mobi nor Android, in any case.  A user agent with
    "Mac OS", as Safari on iPhone and iPad sends, is therefore never ios,
    and one with "Mobile" is never a tablet. *)
Theorem ios_and_tablet_are_shadowed (ua : string) :
  (detectOS ua = "ios" <->
   includes ua "Windows" = false /\ includes ua "Mac OS" = false /\
   includes ua "Linux" = false /\ includes ua "Android" = false /\
   (includes ua "iPhone" = true \/ includes ua "iPad" = true \/
    includes ua "iOS" = true)) /\
  (detectDevice ua = "tablet" <->
   includes_ci ua "Mobi" = false /\ includes_ci ua "Android" = false /\
   (includes_ci ua "Tablet" = true \/ includes_ci ua "iPad" = true)).
Proof.
  unfold detectOS, detectDevice. split.
  - destruct (includes ua "Windows"), (includes ua "Mac OS"),
      (includes ua "Linux"), (includes ua "Android"),
      (includes ua "iPhone"), (includes ua "iPad"), (includes ua "iOS");
      simpl; split; intros H; try discriminate H;
      try (repeat split; auto; fail);
      try (destruct H as (? & ? & ? & ? & [?|[?|?]]); discriminate).
  - destruct (includes_ci ua "Mobi"), (includes_ci ua "Android"),
      (includes_ci ua "Tablet"), (includes_ci ua "iPad");
      simpl; split; intros H; try discriminate H;
      try (repeat split; auto; fail);
      try (destruct H as (? & ? & [?|?]); discriminate).
Qed.

(** * Properties of the store client *)

(** X14: the client is configured once.  While no disconnection resolves,
    every call of [getPrismaClient] returns the client the variable
    holds, with the database URL and log levels it was constructed with,
    whatever the environment says at the time of the call, and constructs
    nothing. *)
Theorem client_is_configured_once (calls : list Prisma.Call) s client env :
  Prisma.prisma s = Some client ->
  Forall (fun c => Prisma.closes c = false) calls ->
  Prisma.run calls s = s /\
  Prisma.getPrismaClient env (Prisma.run calls s) = (client, s).
Proof.
  intros Hs Hcalls.
  assert (Hrun : Prisma.run calls s = s).
  { induction Hcalls as [|c calls Hc _ IH]; [reflexivity|].
    unfold Prisma.run in *. simpl.
    assert (Hcall : Prisma.call s c = s).
    { destruct c as [env'|[|]]; simpl; [| discriminate Hc |];
        unfold Prisma.getPrismaClient, Prisma.disconnectPrisma;
        rewrite Hs; reflexivity. }
    rewrite Hcall. exact IH. }
  split; [exact Hrun|]. rewrite Hrun.
  unfold Prisma.getPrismaClient. rewrite Hs. reflexivity.
Qed.

Lemma client_is_configured_once_witness :
  Prisma.getPrismaClient Prisma.envDebug
    (Prisma.run [Prisma.Get Prisma.envDebug; Prisma.Disconnect false]
       Prisma.warm)
  = ({| Prisma.datasource_url := Some "postgresql://db-a/abtest";
        Prisma.log := ["error"];
        Prisma.serial := 0 |}, Prisma.warm).
Proof.
  apply (client_is_configured_once
           [Prisma.Get Prisma.envDebug; Prisma.Disconnect false]
           Prisma.warm).
  - reflexivity.
  - repeat constructor.
Defined.

(** * Properties of the config handler *)

(** The class of [escapeRegex] is the set of the syntax characters. *)
Lemma isRegexSpecial_syntax c :
  ConfigHandler.isRegexSpecial c = ConfigHandler.isSyntaxCharacter c.
Proof. destruct c as [[] [] [] [] [] [] [] []]; reflexivity. Qed.

Lemma isSyntaxCharacter_backslash c :
  Ascii.eqb c ConfigHandler.backslash = true ->
  ConfigHandler.isSyntaxCharacter c = true.
Proof. intros H. apply Ascii.eqb_eq in H. subst c. reflexivity. Qed.

(** X15: an escaped text is a pattern without operators that stands for
    the text itself.  [escapeRegex] puts a backslash in front of every
    syntax character of the grammar of regular expressions
    (^ $ \ . * + ? ( ) [ ] { } |) and in front of no other character, so
    the pattern it returns is a sequence of plain characters and escaped
    syntax characters, and read as such it gives the text back: the value
    of a location is matched character by character. *)
Theorem escapeRegex_is_literal (str : string) :
  ConfigHandler.literal (ConfigHandler.escapeRegex str) = Some str /\
  (forall c, ConfigHandler.isRegexSpecial c
             = ConfigHandler.isSyntaxCharacter c).
Proof.
  split; [|exact isRegexSpecial_syntax].
  induction str as [|c rest IH]; [reflexivity|].
  cbn [ConfigHandler.escapeRegex]. rewrite isRegexSpecial_syntax.
  destruct (ConfigHandler.isSyntaxCharacter c) eqn:E.
  - cbn [ConfigHandler.literal]. fold ConfigHandler.literal.
    change (Ascii.eqb ConfigHandler.backslash ConfigHandler.backslash)
      with true. cbv iota.
    rewrite E, IH. reflexivity.
  - cbn [ConfigHandler.literal]. fold ConfigHandler.literal.
    destruct (Ascii.eqb c ConfigHandler.backslash) eqn:Eb.
    + apply isSyntaxCharacter_backslash in Eb. congruence.
    + rewrite E, IH. reflexivity.
Qed.

Lemma string_app_assoc (a b c : string) : (a ++ b) ++ c = a ++ (b ++ c).
Proof.
  induction a as [|x a IH]; [reflexivity|].
  change (String x ((a ++ b) ++ c) = String x (a ++ (b ++ c))).
  rewrite IH. reflexivity.
Qed.

Lemma join_app sep (a b : list string) :
  a <> [] -> b <> [] ->
  ConfigHandler.join sep (a ++ b)
  = ConfigHandler.join sep a ++ sep ++ ConfigHandler.join sep b.
Proof.
  intros Ha Hb. induction a as [|x a IH]; [congruence|].
  destruct a as [|y a].
  - simpl. destruct b; [congruence | reflexivity].
  - change (ConfigHandler.join sep ((x :: y :: a) ++ b))
      with (x ++ sep ++ ConfigHandler.join sep ((y :: a) ++ b)).
    rewrite IH by discriminate.
    change (ConfigHandler.join sep (x :: y :: a))
      with (x ++ sep ++ ConfigHandler.join sep (y :: a)).
    rewrite !string_app_assoc. reflexivity.
Qed.

Lemma filter_isUrl_nil l :
  List.filter ConfigHandler.isUrl l = [] <-> ConfigHandler.hasUrl l = false.
Proof.
  unfold ConfigHandler.hasUrl. induction l as [|loc l IH]; simpl.
  - split; reflexivity.
  - destruct (ConfigHandler.isUrl loc); simpl.
    + split; discriminate.
    + exact IH.
Qed.

Lemma buildUrlPattern_join l :
  ConfigHandler.buildUrlPattern (Some l)
  = if ConfigHandler.hasUrl l
    then ConfigHandler.join "|"
           (List.map ConfigHandler.locationPattern
              (List.filter ConfigHandler.isUrl l))
    else ".*".
Proof.
  unfold ConfigHandler.buildUrlPattern.
  destruct l as [|loc l]; [reflexivity|]. cbn [length Nat.eqb].
  destruct (ConfigHandler.hasUrl (loc :: l)) eqn:E.
  - destruct (List.filter ConfigHandler.isUrl (loc :: l)) eqn:F.
    + apply filter_isUrl_nil in F. congruence.
    + reflexivity.
  - apply filter_isUrl_nil in E. rewrite E. reflexivity.
Qed.

Lemma hasUrl_filter l :
  ConfigHandler.hasUrl (List.filter ConfigHandler.isUrl l)
  = ConfigHandler.hasUrl l.
Proof.
  unfold ConfigHandler.hasUrl.
  induction l as [|loc l IH]; [reflexivity|]. simpl.
  destruct (ConfigHandler.isUrl loc) eqn:E; simpl; rewrite ?E, IH;
    reflexivity.
Qed.

Lemma filter_isUrl_idem l :
  List.filter ConfigHandler.isUrl (List.filter ConfigHandler.isUrl l)
  = List.filter ConfigHandler.isUrl l.
Proof.
  induction l as [|loc l IH]; [reflexivity|]. simpl.
  destruct (ConfigHandler.isUrl loc) eqn:E; simpl; rewrite ?E, ?IH;
    reflexivity.
Qed.

(** X16: the pattern of an experiment is the alternation of the patterns
    of its URL locations, in their order; locations of another type do not
    count, and without a URL location the pattern is the one that matches
    every URL. *)
Theorem buildUrlPattern_is_alternation (l1 l2 : list ConfigHandler.Location) :
  ConfigHandler.buildUrlPattern (Some (l1 ++ l2)%list)
  = (if ConfigHandler.hasUrl l1 then
       if ConfigHandler.hasUrl l2 then
         ConfigHandler.buildUrlPattern (Some l1) ++ "|"
         ++ ConfigHandler.buildUrlPattern (Some l2)
       else ConfigHandler.buildUrlPattern (Some l1)
     else ConfigHandler.buildUrlPattern (Some l2)) /\
  (ConfigHandler.hasUrl l1 = false ->
   ConfigHandler.buildUrlPattern (Some l1) = ".*") /\
  ConfigHandler.buildUrlPattern (Some l1)
  = ConfigHandler.buildUrlPattern
      (Some (List.filter ConfigHandler.isUrl l1)).
Proof.
  split; [|split].
  - rewrite !buildUrlPattern_join.
    unfold ConfigHandler.hasUrl at 1. rewrite existsb_app.
    fold (ConfigHandler.hasUrl l1). fold (ConfigHandler.hasUrl l2).
    rewrite List.filter_app, List.map_app.
    destruct (ConfigHandler.hasUrl l1) eqn:E1,
             (ConfigHandler.hasUrl l2) eqn:E2; simpl.
    + apply join_app.
      * intros H. apply map_eq_nil in H. apply filter_isUrl_nil in H.
        congruence.
      * intros H. apply map_eq_nil in H. apply filter_isUrl_nil in H.
        congruence.
    + apply filter_isUrl_nil in E2. rewrite E2, app_nil_r. reflexivity.
    + apply filter_isUrl_nil in E1. rewrite E1. reflexivity.
    + reflexivity.
  - intros H. rewrite buildUrlPattern_join, H. reflexivity.
  - rewrite !buildUrlPattern_join, hasUrl_filter, filter_isUrl_idem.
    reflexivity.
Qed.
(** X17: a preflight request and a request without a project id are
    answered without the store, the clock or the environment: the response
    is the same under every backend, 200 with an empty body for OPTIONS,
    whatever the path, and otherwise 400 "Project ID is required" without
    details; nothing is logged. *)
Theorem preflight_and_bad_request_need_no_store b event :
  ConfigHandler.httpMethod event = "OPTIONS" \/
  requestedProject event = None ->
  (forall b', ConfigHandler.handler b' event = ConfigHandler.handler b event)
  /\
  snd (ConfigHandler.handler b event) = [] /\
  fst (ConfigHandler.handler b event)
  = if String.eqb (ConfigHandler.httpMethod event) "OPTIONS"
    then Response.cors
    else {| Response.statusCode := 400;
            Response.headers := Response.defaultHeaders;
            Response.body :=
              Response.StringifyError
                {| Response.err_error := true;
                   Response.err_message := "Project ID is required";
                   Response.err_details := None |} |}.
Proof.
  intros H. unfold ConfigHandler.handler.
  destruct (String.eqb (ConfigHandler.httpMethod event) "OPTIONS") eqn:E.
  { repeat split. }
  destruct H as [H|H]; [apply String.eqb_eq in H; congruence|].
  assert (Hr : forall b0,
    ConfigHandler.respond b0 event
    = inr {| Response.statusCode := 400;
             Response.headers := Response.defaultHeaders;
             Response.body :=
               Response.StringifyError
                 {| Response.err_error := true;
                    Response.err_message := "Project ID is required";
                    Response.err_details := None |} |}).
  { intros b0. unfold ConfigHandler.respond, requestedProject in *.
    destruct (ConfigHandler.pathParameters event
              ≫= (fun params => params !! "projectId")) as [[|c s]|];
      try discriminate H;
      unfold Response.badRequest, Response.error; simpl;
      destruct (Response.debugging (ConfigHandler.DEBUG b0)); reflexivity. }
  rewrite Hr. split; [intros b'; rewrite Hr; reflexivity|].
  split; reflexivity.
Qed.

Lemma preflight_and_bad_request_need_no_store_witness :
  requestedProject (ConfigHandler.getConfig "") = None /\
  ConfigHandler.handler ConfigHandler.serving (ConfigHandler.getConfig "")
  = ConfigHandler.handler ConfigHandler.failing
      (ConfigHandler.getConfig "").
Proof.
  split; [reflexivity|].
  apply (preflight_and_bad_request_need_no_store ConfigHandler.failing
           (ConfigHandler.getConfig "")).
  right. reflexivity.
Defined.
Lemma defaultHeaders_kept k v (value : string) :
  Response.defaultHeaders !! k = Some v ->
  (<["Cache-Control" := value]> Response.defaultHeaders) !! k = Some v.
Proof.
  intros H. destruct (decide ("Cache-Control" = k)) as [<-|Hne].
  - vm_compute in H. discriminate H.
  - rewrite lookup_insert_ne by exact Hne. exact H.
Qed.

(** X18: every response of the handler carries the default headers, the
    CORS headers among them, and its status is 200, 400, 404 or 500.  Only
    a response whose body is a config tells caches to keep it, for 60
    seconds, and such a response has status 200; an error and the answer
    to a preflight request carry the default headers and nothing else. *)
Theorem only_a_config_is_cacheable b event :
  let response := fst (ConfigHandler.handler b event) in
  (forall k v, Response.defaultHeaders !! k = Some v ->
               Response.headers response !! k = Some v) /\
  In (Response.statusCode response) [200; 400; 404; 500]%Z /\
  match Response.body response with
  | Response.Stringify _ =>
      Response.statusCode response = 200%Z /\
      Response.headers response
      = <["Cache-Control" := "public, max-age=60"]> Response.defaultHeaders
  | _ => Response.headers response = Response.defaultHeaders
  end.
Proof.
  unfold ConfigHandler.handler.
  destruct (String.eqb (ConfigHandler.httpMethod event) "OPTIONS").
  { simpl. split; [auto|]. split; [auto|reflexivity]. }
  unfold ConfigHandler.respond.
  destruct (ConfigHandler.pathParameters event
            ≫= (fun params => params !! "projectId")) as [[|c s]|];
    [simpl; split; [auto|]; split; [auto|reflexivity]| |
     simpl; split; [auto|]; split; [auto|reflexivity]].
  destruct (ConfigHandler.project_findFirst b (String c s))
    as [err|[project|]];
    [simpl; split; [auto|]; split; [auto 6|reflexivity]| |
     simpl; split; [auto|]; split; [auto 6|reflexivity]].
  destruct (ConfigHandler.experiment_findMany b (ConfigHandler.p_id project))
    as [err|experiments];
    [simpl; split; [auto|]; split; [auto 6|reflexivity]|].
  destruct (ConfigHandler.goal_findMany b (ConfigHandler.p_id project))
    as [err|goals];
    [simpl; split; [auto|]; split; [auto 6|reflexivity]|].
  cbn [fst Response.successWithCache Response.headers Response.body
       Response.statusCode].
  split; [intros k v; apply defaultHeaders_kept|].
  split; [left; reflexivity|]. split; reflexivity.
Qed.

(** X19: when a query rejects, the handler answers 500 "Internal server
    error" and logs what was thrown, once.  The response tells what was
    thrown only when DEBUG is "true" in the environment; the queries after
    the rejected one are not looked at. *)
Theorem rejected_query_is_an_internal_error b event projectId err :
  ConfigHandler.httpMethod event <> "OPTIONS" ->
  requestedProject event = Some projectId ->
  firstRejection b projectId = Some err ->
  ConfigHandler.handler b event
  = ({| Response.statusCode := 500;
        Response.headers := Response.defaultHeaders;
        Response.body :=
          Response.StringifyError
            {| Response.err_error := true;
               Response.err_message := "Internal server error";
               Response.err_details :=
                 if Response.debugging (ConfigHandler.DEBUG b)
                 then Some err else None |} |},
     [err]).
Proof.
  intros Hm Hp Hr. unfold ConfigHandler.handler.
  apply String.eqb_neq in Hm. rewrite Hm.
  assert (E : ConfigHandler.respond b event = inl err).
  { unfold ConfigHandler.respond, requestedProject, firstRejection in *.
    destruct (ConfigHandler.pathParameters event
              ≫= (fun params => params !! "projectId")) as [[|c s]|];
      try discriminate Hp.
    inversion Hp; subst projectId.
    destruct (ConfigHandler.project_findFirst b (String c s))
      as [e|[project|]]; [congruence| |discriminate Hr].
    destruct (ConfigHandler.experiment_findMany b
                (ConfigHandler.p_id project)) as [e|experiments];
      [congruence|].
    destruct (ConfigHandler.goal_findMany b (ConfigHandler.p_id project))
      as [e|goals]; [congruence | discriminate Hr]. }
  rewrite E. reflexivity.
Qed.

Lemma rejected_query_is_an_internal_error_witness :
  Response.statusCode
    (fst (ConfigHandler.handler ConfigHandler.failing
            (ConfigHandler.getConfig "p1"))) = 500%Z /\
  snd (ConfigHandler.handler ConfigHandler.failing
         (ConfigHandler.getConfig "p1")) = ["connection reset"].
Proof.
  rewrite (rejected_query_is_an_internal_error ConfigHandler.failing
             (ConfigHandler.getConfig "p1") "p1" "connection reset");
    [split; reflexivity | discriminate | reflexivity | reflexivity].
Defined.

Lemma mapAudienceType_range dbType :
  In (ConfigHandler.mapAudienceType dbType) sdkAudienceTypes.
Proof.
  unfold ConfigHandler.mapAudienceType, sdkAudienceTypes.
  repeat match goal with
         | |- context [if ?c then _ else _] => destruct c
         end; simpl; auto 12.
Qed.

(** X20: when the three queries answer, the handler returns 200 with the
    config of the project that was found, under the id of the project and
    not under the identifier of the request, with the clock reading as
    version and nothing logged.  The config has the experiments of the
    answer in their order, each with status RUNNING, with the pattern of
    its locations, with its variants in their order, where changes that
    are null become the empty list, and with audiences whose types are
    SDK types; it has the goals of the answer in their order with the ids
    of their experiments. *)
Theorem config_follows_the_queries b event projectId project experiments
    goals :
  ConfigHandler.httpMethod event <> "OPTIONS" ->
  requestedProject event = Some projectId ->
  ConfigHandler.project_findFirst b projectId = inr (Some project) ->
  ConfigHandler.experiment_findMany b (ConfigHandler.p_id project)
  = inr experiments ->
  ConfigHandler.goal_findMany b (ConfigHandler.p_id project) = inr goals ->
  exists config,
    ConfigHandler.handler b event
    = ({| Response.statusCode := 200;
          Response.headers :=
            <["Cache-Control" := "public, max-age=60"]>
              Response.defaultHeaders;
          Response.body := Response.Stringify config |}, []) /\
    ConfigHandler.c_projectId config = ConfigHandler.p_id project /\
    ConfigHandler.c_version config = ConfigHandler.Date_now b /\
    ConfigHandler.c_globalJS config = ConfigHandler.p_globalJS project /\
    Forall2
      (fun exp sdk =>
         ConfigHandler.se_id sdk = ConfigHandler.x_id exp /\
         ConfigHandler.se_status sdk = "RUNNING" /\
         ConfigHandler.se_urlPattern sdk
         = ConfigHandler.buildUrlPattern
             (Some (ConfigHandler.x_locations exp)) /\
         Forall2
           (fun v sv =>
              ConfigHandler.sv_id sv = ConfigHandler.v_id v /\
              ConfigHandler.sv_isControl sv = ConfigHandler.v_isControl v /\
              ConfigHandler.sv_trafficWeight sv
              = ConfigHandler.v_trafficWeight v /\
              ConfigHandler.sv_changes sv
              = match ConfigHandler.v_changes v with
                | Some changes => changes
                | None => []
                end)
           (ConfigHandler.x_variants exp) (ConfigHandler.se_variants sdk) /\
         length (ConfigHandler.se_audiences sdk)
         = length (ConfigHandler.x_audiences exp) /\
         Forall (fun a => In (ConfigHandler.sa_type a) sdkAudienceTypes)
           (ConfigHandler.se_audiences sdk))
      experiments (ConfigHandler.c_experiments config) /\
    Forall2
      (fun goal sdk =>
         ConfigHandler.sg_id sdk = ConfigHandler.g_id goal /\
         ConfigHandler.sg_experimentIds sdk
         = ConfigHandler.g_experimentGoals goal)
      goals (ConfigHandler.c_goals config).
Proof.
  intros Hm Hp Hproject Hexp Hgoal. unfold ConfigHandler.handler.
  apply String.eqb_neq in Hm. rewrite Hm.
  unfold ConfigHandler.respond, requestedProject in *.
  destruct (ConfigHandler.pathParameters event
            ≫= (fun params => params !! "projectId")) as [[|c s]|];
    try discriminate Hp.
  inversion Hp; subst projectId.
  rewrite Hproject, Hexp, Hgoal.
  eexists. split; [reflexivity|]. cbn.
  repeat split.
  - clear. induction experiments as [|exp l IH]; constructor; [|exact IH].
    repeat split.
    + cbn. induction (ConfigHandler.x_variants exp) as [|v vs IHv];
        constructor; [|exact IHv].
      repeat split.
    + cbn. apply length_map.
    + cbn. apply List.Forall_forall. intros a Ha.
      apply in_map_iff in Ha as (aud & <- & _).
      apply mapAudienceType_range.
  - clear. induction goals as [|goal l IH]; constructor; [|exact IH].
    repeat split.
Qed.

Lemma config_follows_the_queries_witness :
  exists config,
    fst (ConfigHandler.handler ConfigHandler.serving
           (ConfigHandler.getConfig "key-1"))
    = {| Response.statusCode := 200;
         Response.headers :=
           <["Cache-Control" := "public, max-age=60"]>
             Response.defaultHeaders;
         Response.body := Response.Stringify config |} /\
    ConfigHandler.c_projectId config = "p1" /\
    List.map ConfigHandler.se_urlPattern
      (ConfigHandler.c_experiments config)
    = ["^https://shop\.example/checkout\?step=1"].
Proof.
  destruct (config_follows_the_queries ConfigHandler.serving
              (ConfigHandler.getConfig "key-1") "key-1"
              ConfigHandler.sampleProject
              [ConfigHandler.sampleExperiment]
              [ConfigHandler.sampleGoal])
    as (config & H & Hid & _ & _ & Hx & _);
    try reflexivity; try discriminate.
  exists config. split; [rewrite H; reflexivity|].
  split; [exact Hid|].
  inversion Hx as [|exp sdk l l' (_ & _ & Hpat & _) Hrest Hl Hl']; subst.
  inversion Hrest; subst. simpl. rewrite Hpat. reflexivity.
Defined.

(** ** Batches compose *)

Lemma blind_ret {A} (a : A) : consoleBlind (ret a).
Proof. intros w1 w2 H. split; [reflexivity | exact H]. Qed.

Lemma blind_bind {A B} (m : M A) (k : A -> M B) :
  consoleBlind m -> (forall a, consoleBlind (k a)) ->
  consoleBlind (bind m k).
Proof.
  intros Hm Hk w1 w2 H. unfold bind.
  destruct (Hm w1 w2 H) as [Hr Hw].
  destruct (m w1) as [[a|e] w1'], (m w2) as [[a'|e'] w2'];
    cbn [fst snd] in *; try discriminate Hr.
  - inversion Hr; subst a'. apply Hk. exact Hw.
  - inversion Hr; subst e'. split; [reflexivity | exact Hw].
Qed.

Lemma blind_try_catch {A} (m : M A) (h : Exn -> M A) :
  consoleBlind m -> (forall e, consoleBlind (h e)) ->
  consoleBlind (try_catch m h).
Proof.
  intros Hm Hh w1 w2 H. unfold try_catch.
  destruct (Hm w1 w2 H) as [Hr Hw].
  destruct (m w1) as [[a|e] w1'], (m w2) as [[a'|e'] w2'];
    cbn [fst snd] in *; try discriminate Hr.
  - split; [exact Hr | exact Hw].
  - inversion Hr; subst e'. apply Hh. exact Hw.
Qed.

Lemma blind_forEach {A} (l : list A) (body : A -> M unit) :
  (forall x, consoleBlind (body x)) -> consoleBlind (forEach l body).
Proof.
  intros Hb. induction l as [|x l IH]; simpl.
  - apply blind_ret.
  - apply blind_bind; [apply Hb | intros _; exact IH].
Qed.

Lemma blind_storeCall {A} rt op (f : Db -> StoreResult A) :
  consoleBlind (storeCall rt op f).
Proof.
  intros w1 w2 (Hd & Hs & Hc). unfold storeCall, sameButConsole.
  rewrite Hd, Hs.
  destruct (storeFault rt (storeCalls w2));
    [simpl; auto|].
  destruct (f (db w2)) as [k|[a d]]; simpl; auto.
Qed.

Lemma blind_now rt : consoleBlind (now rt).
Proof.
  intros w1 w2 (Hd & Hs & Hc). unfold now, sameButConsole. rewrite Hc.
  simpl. auto.
Qed.

Lemma blind_console_push c : consoleBlind (console_push c).
Proof. intros w1 w2 H. split; [reflexivity | exact H]. Qed.

Ltac blind_step :=
  first
    [ apply blind_ret
    | apply blind_now
    | apply blind_console_push
    | apply blind_storeCall
    | apply blind_bind; [| intros ?]
    | apply blind_try_catch; [| intros ?]
    | apply blind_forEach; intros ? ].

Lemma blind_processEvent rt evt : consoleBlind (processEvent rt evt).
Proof.
  unfold processEvent.
  destruct (negb (truthy (Some (ev_projectId evt)))
            || negb (truthy (Some (ev_visitorId evt)))
            || negb (truthy (Some (ev_eventType evt)))); [blind_step|].
  blind_step; [unfold upsertVisitor; blind_step|].
  destruct (String.eqb (ev_eventType evt) "SESSION_START").
  { unfold handleSessionStart. repeat blind_step. }
  destruct (String.eqb (ev_eventType evt) "EXPERIMENT_VIEW").
  { unfold handleExperimentView.
    destruct (ev_experimentId evt) as [x|]; [|blind_step].
    destruct (ev_variantId evt) as [v|]; [|blind_step].
    destruct (negb (truthy (Some x)) || negb (truthy (Some v)));
      [blind_step|].
    blind_step; [blind_step|].
    blind_step.
    - destruct a0; [blind_step|]. unfold updateDailyStat.
      repeat blind_step.
    - repeat blind_step. }
  destruct (String.eqb (ev_eventType evt) "GOAL_CONVERSION").
  { unfold handleGoalConversion.
    destruct (ev_goalId evt) as [g|]; [|blind_step].
    destruct (ev_attributedExperiments evt) as [l|]; [|blind_step].
    destruct (negb (truthy (Some g)) || (length l =? 0)%nat);
      [blind_step|].
    blind_step. unfold convertOne, updateDailyStat. repeat blind_step. }
  destruct (String.eqb (ev_eventType evt) "CUSTOM_EVENT").
  - unfold handleCustomEvent. blind_step.
  - unfold handleGenericEvent. blind_step.
Qed.

Lemma sameButConsole_refl w : sameButConsole w w.
Proof. repeat split. Qed.

Lemma sameButConsole_trans a b c :
  sameButConsole a b -> sameButConsole b c -> sameButConsole a c.
Proof. intros (?&?&?) (?&?&?). repeat split; congruence. Qed.

Lemma sameButConsole_sym a b : sameButConsole a b -> sameButConsole b a.
Proof. intros (?&?&?). repeat split; congruence. Qed.

(** What a record does to the store does not depend on the outcomes
    gathered so far. *)
Lemma processRecord_world rt record out1 out2 w1 w2 :
  sameButConsole w1 w2 ->
  sameButConsole (snd (processRecord rt record out1 w1))
                 (snd (processRecord rt record out2 w2)).
Proof.
  intros H. unfold processRecord, try_catch.
  destruct (JSON_parse rt (base64_utf8 rt (data record))) as [parsed|].
  - fold (eventsOf parsed).
    destruct (processEvents_Handled rt (eventsOf parsed) w1)
      as (m1 & w1' & _ & E1 & _).
    destruct (processEvents_Handled rt (eventsOf parsed) w2)
      as (m2 & w2' & _ & E2 & _).
    assert (Hb : consoleBlind (processEvents rt (eventsOf parsed))).
    { unfold processEvents. repeat blind_step. apply blind_processEvent. }
    destruct (Hb w1 w2 H) as [_ Hw]. rewrite E1, E2 in Hw.
    unfold bind. rewrite E1, E2. exact Hw.
  - exact H.
Qed.

Lemma processRecords_world rt records : forall out1 out2 w1 w2,
  sameButConsole w1 w2 ->
  sameButConsole (snd (processRecords rt records out1 w1))
                 (snd (processRecords rt records out2 w2)).
Proof.
  induction records as [|record rest IH]; intros out1 out2 w1 w2 H; simpl.
  - exact H.
  - destruct (processRecord_outcome rt record out1 w1) as (w1' & E1).
    destruct (processRecord_outcome rt record out2 w2) as (w2' & E2).
    pose proof (processRecord_world rt record out1 out2 w1 w2 H) as Hw.
    rewrite E1, E2 in Hw. unfold bind. rewrite E1, E2.
    apply IH. exact Hw.
Qed.

Lemma processRecords_app rt r1 r2 : forall output w,
  processRecords rt (r1 ++ r2) output w
  = processRecords rt r2
      (output ++ List.map (recordOutcome rt) r1)%list
      (snd (processRecords rt r1 output w)).
Proof.
  induction r1 as [|record rest IH]; intros output w; simpl.
  - rewrite app_nil_r. reflexivity.
  - destruct (processRecord_outcome rt record output w) as (w1 & E1).
    unfold bind. rewrite E1, IH, <- app_assoc. reflexivity.
Qed.

Lemma handler_world rt records w1 w2 :
  sameButConsole w1 w2 ->
  sameButConsole (snd (handler rt records w1))
                 (snd (processRecords rt records [] w2)).
Proof.
  intros H. unfold handler.
  destruct (processRecords_outcome rt records []
              (set_console w1
                 (console w1 ++ [LogProcessing (length records)])))
    as (w' & E).
  pose proof (processRecords_world rt records [] []
                (set_console w1
                   (console w1 ++ [LogProcessing (length records)]))
                w2 H) as Hw.
  unfold bind, console_push. rewrite E in *. exact Hw.
Qed.

Lemma handler_output rt records w :
  fst (handler rt records w) = Ok (List.map (recordOutcome rt) records).
Proof.
  destruct (processRecords_outcome rt records []
              (set_console w
                 (console w ++ [LogProcessing (length records)])))
    as (w1 & H1).
  unfold handler, bind, console_push. rewrite H1. reflexivity.
Qed.

(** X21: the handler carries nothing from one record to the next but the
    store.  Take the clock readings and the answers of the store as given
    by their position in the run (the n-th reading, the n-th call).  Then
    handling the records of two batches as one batch leaves the store, the
    number of store calls and the number of clock readings as handling
    the first batch and then the second does, and returns the outcomes of
    the first followed by those of the second; the two runs differ in the
    console only.  What is stored still depends on when the calls are
    made, through the readings of the clock. *)
Theorem batches_compose rt (r1 r2 : list FirehoseRecord) w :
  let first := handler rt r1 w in
  let second := handler rt r2 (snd first) in
  let both := handler rt (r1 ++ r2) w in
  sameButConsole (snd both) (snd second) /\
  exists o1 o2,
    fst first = Ok o1 /\ fst second = Ok o2 /\
    fst both = Ok (o1 ++ o2)%list.
Proof.
  simpl. split.
  - eapply sameButConsole_trans;
      [apply (handler_world rt (r1 ++ r2) w w (sameButConsole_refl w))|].
    rewrite processRecords_app.
    apply sameButConsole_sym.
    eapply sameButConsole_trans;
      [apply (handler_world rt r2 _ (snd (handler rt r1 w))
                (sameButConsole_refl _))|].
    apply processRecords_world.
    apply (handler_world rt r1 w w (sameButConsole_refl w)).
  - exists (List.map (recordOutcome rt) r1),
           (List.map (recordOutcome rt) r2).
    rewrite !handler_output, List.map_app. repeat split.
Qed.

(** ** Records that do not decode *)

Lemma processRecords_undecodable rt records : forall output w,
  Forall (fun record => decodes rt record = false) records ->
  processRecords rt records output w
  = (Ok (output
         ++ List.map (fun record => outcome record "ProcessingFailed")
              records)%list,
     set_console w (console w ++ List.map (invalidJSON rt) records)).
Proof.
  induction records as [|record rest IH]; intros output w H; simpl.
  - rewrite !app_nil_r. destruct w; reflexivity.
  - inversion H as [|? ? Hrec Hrest]; subst.
    unfold bind, processRecord, try_catch. unfold decodes in Hrec.
    destruct (JSON_parse rt (base64_utf8 rt (data record)));
      [discriminate Hrec|].
    unfold bind, console_push, ret. cbn [fst snd].
    rewrite IH by exact Hrest. simpl.
    rewrite <- !app_assoc. reflexivity.
Qed.

(** X22: records whose bodies do not decode are reported and nothing
    else.  A batch of such records makes no call on the store and leaves
    it as it was; every record gets the outcome "ProcessingFailed" with
    its id and its body, and one "Invalid JSON" entry with the decoded
    text is logged per record, between the two entries of the batch. *)
Theorem undecodable_records_write_nothing rt records w :
  Forall (fun record => decodes rt record = false) records ->
  handler rt records w
  = (Ok (List.map (fun record => outcome record "ProcessingFailed")
           records),
     {| db := db w;
        console :=
          console w
          ++ [LogProcessing (length records)]
          ++ List.map (invalidJSON rt) records
          ++ [LogProcessed (length records)];
        storeCalls := storeCalls w;
        clockReads := clockReads w |}).
Proof.
  intros H. unfold handler, bind.
  unfold console_push at 1. cbn [fst snd].
  rewrite processRecords_undecodable by exact H.
  unfold console_push, ret. simpl.
  rewrite length_map, <- !app_assoc. reflexivity.
Qed.

Lemma undecodable_records_write_nothing_witness :
  decodes (sampleRuntime noFault) garbledRecord = false /\
  handler (sampleRuntime noFault) [garbledRecord; garbledRecord]
    (world0 sampleDb)
  = (Ok [ {| out_recordId := "record-2";
             out_result := "ProcessingFailed";
             out_data := "garbled" |};
          {| out_recordId := "record-2";
             out_result := "ProcessingFailed";
             out_data := "garbled" |} ],
     {| db := sampleDb;
        console := [LogProcessing 2; ErrorInvalidJSON "garbled";
                    ErrorInvalidJSON "garbled"; LogProcessed 2];
        storeCalls := 0;
        clockReads := 0 |}).
Proof.
  split; [reflexivity|].
  apply (undecodable_records_write_nothing (sampleRuntime noFault)
           [garbledRecord; garbledRecord] (world0 sampleDb)).
  repeat constructor.
Defined.
